(** * Tab workspace: drag and drop state machine, layout store, persistence

    A shallow embedding of [TabContainer.jsx] (the tab strip with its drag
    handlers and the [useDebounce] hook) and of the two revisions of
    [ShopGenerator.jsx] that load and save the tab layout.

    Conventions of the embedding.
    - Pixel coordinates ([clientX], [getBoundingClientRect]) are rationals:
      the handlers only subtract, halve and compare them.
    - A handler is a function from the component's props, its local state and
      the event to the new state together with the list of callbacks it
      invoked, in call order, and whether it completed or threw.
    - [null] is [None]; a JS number that may be [NaN] is a [jsnum].
    - The platform functions [parseInt], [JSON.parse] and [JSON.stringify]
      are an interface ([Builtins]); [Reference] gives one implementation. *)

From Stdlib Require Import QArith Lqa ZArith Lia Ascii String.
From stdpp Require Import base option list strings gmap pretty.

Set Warnings "-register-all".
Local Open Scope nat_scope.

(** ** JavaScript values *)

Module JS.

(** The result of [parseInt]: an integer or [NaN]. *)
Inductive jsnum :=
| NaN
| Num (z : Z).

(** [a === b] on numbers: [NaN] equals nothing, itself included. *)
Definition strict_eq (a b : jsnum) : bool :=
  match a, b with
  | Num x, Num y => Z.eqb x y
  | _, _ => false
  end.

(** A JSON document. A number is kept exactly, as [m * 10^e]. *)
Inductive json :=
| JNull
| JBool (b : bool)
| JNum (m e : Z)
| JStr (s : string)
| JArr (items : list json)
| JObj (members : list (string * json)).

(** [v.k]: property read. [None] is [undefined]; on an object parsed from a
    text with a repeated key the last occurrence wins. *)
Fixpoint assoc_last (k : string) (ms : list (string * json)) : option json :=
  match ms with
  | [] => None
  | (k', v) :: rest =>
      match assoc_last k rest with
      | Some w => Some w
      | None => if String.eqb k k' then Some v else None
      end
  end.

Definition prop (k : string) (v : json) : option json :=
  match v with
  | JObj ms => assoc_last k ms
  | _ => None
  end.

(** [Array.isArray(x)] where [x] is the result of a property read. *)
Definition isArray (x : option json) : bool :=
  match x with
  | Some (JArr _) => true
  | _ => false
  end.

(** [typeof x === 'string'] *)
Definition isString (x : option json) : bool :=
  match x with
  | Some (JStr _) => true
  | _ => false
  end.

(** [typeof v === 'object'] for a parsed value: objects, arrays and null. *)
Definition typeof_object (v : json) : bool :=
  match v with
  | JObj _ | JArr _ | JNull => true
  | _ => false
  end.

(** Truthiness of a parsed value. *)
Definition truthy (v : json) : bool :=
  match v with
  | JNull => false
  | JBool b => b
  | JNum m _ => negb (Z.eqb m 0)
  | JStr s => negb (String.eqb s "")
  | JArr _ | JObj _ => true
  end.

(** The platform functions the handlers call. [JSON_parse] returns [None]
    where [JSON.parse] throws a [SyntaxError]. *)
Class Builtins := {
  parseInt : string -> jsnum;
  JSON_parse : string -> option json;
  JSON_stringify : json -> string
}.

End JS.

Import JS.

(** ** Geometry *)

Definition Qltb (a b : Q) : bool := negb (Qle_bool b a).

Record DOMRect := {
  rect_left : Q;
  rect_right : Q;
  rect_top : Q;
  rect_bottom : Q;
  rect_width : Q
}.

(** One entry of [originalPositions.current]. *)
Record Position := {
  pos_left : Q;
  pos_right : Q;
  pos_width : Q;
  center : Q
}.

(** ** TabContainer *)

Module TabContainer.

(** *** Tabs, props, local state *)

(** [tab.type]: the handlers read only its truthiness and its [name]. *)
Record ElemType := { type_name : string }.

(** An entry of the [tabs] prop: a React element, or [null] / [undefined].
    [type = None] is an element without a (truthy) [type]; [key = None] is
    React's [null] key. *)
Inductive Tab :=
| TabNull
| TabUndefined
| TabElement (type : option ElemType) (key : option string).

#[global] Instance ElemType_eq_dec : EqDecision ElemType.
Proof. solve_decision. Defined.

#[global] Instance Tab_eq_dec : EqDecision Tab.
Proof. solve_decision. Defined.

(** [a === b] on tabs. Two elements are the same object when they agree on
    type and key: keys identify the elements of one workspace. *)
Definition same_tab (a b : Tab) : bool := bool_decide (a = b).

Record Indicators := {
  leftGroup : option nat;
  rightGroup : option nat;
  betweenGroups : option nat
}.

Definition noIndicators : Indicators :=
  {| leftGroup := None; rightGroup := None; betweenGroups := None |}.

Record Props := {
  tabs : list Tab;
  groupIndex : nat;
  draggedTab : Tab;
  draggedTabIndex : option nat;
  dropIndicators : Indicators
}.

(** [useState] values and refs of one mounted container. [timeoutRef] is the
    ref private to [useDebounce]. *)
Record State := {
  activeTab : Tab;
  dropIndex : option nat;
  originalPositions : list Position;
  edgeHoldTimeout : option nat;
  timeoutRef : option nat
}.

(** The part of the browser the handlers touch: the clock and the pending
    timeouts (handle, due time, captured argument), oldest first; the drag
    data store; the global [window.__draggedTab]. *)
Record Browser := {
  now : nat;
  nextTimer : nat;
  pending : list (nat * (nat * Indicators));
  dataStore : gmap string string;
  window__draggedTab : option Tab
}.

(** Third argument of [onTabSplit]: the target group index, or the boolean
    [wasShowingRightIndicator]. *)
Inductive SplitTarget :=
| AtGroup (groupIndex : nat)
| AtEdge (right : bool).

(** Calls observable from outside the component. [onTabMove] is called with
    two shapes: [([draggedTab, targetIndex], sourceGroupIndex, groupIndex)]
    and [(newTabs, groupIndex)]. *)
Inductive Call :=
| preventDefault
| onDropIndicatorChange (i : Indicators)
| onDragStart (tab : Tab) (index : nat)
| onDragEnd
| onTabSplit (tabInfo : json) (sourceGroupIndex : jsnum) (target : SplitTarget)
| onTabMove_across (dragged : Tab) (targetIndex : nat)
    (sourceGroupIndex : jsnum) (groupIndex : nat)
| onTabMove_within (newTabs : list Tab) (groupIndex : nat).

Inductive Completion := Returned | Threw.

Record Outcome := {
  state : State;
  browser : Browser;
  calls : list Call;
  completion : Completion
}.

(** Which calls change the layout. *)
Definition isLayoutMutation (c : Call) : bool :=
  match c with
  | onTabSplit _ _ _ | onTabMove_across _ _ _ _ | onTabMove_within _ _ => true
  | _ => false
  end.

Definition isReorder (c : Call) : bool :=
  match c with
  | onTabMove_within _ _ => true
  | _ => false
  end.

(** *** State updates *)

Definition set_dropIndex (d : option nat) (s : State) : State :=
  {| activeTab := activeTab s; dropIndex := d;
     originalPositions := originalPositions s;
     edgeHoldTimeout := edgeHoldTimeout s; timeoutRef := timeoutRef s |}.

Definition set_activeTab (t : Tab) (s : State) : State :=
  {| activeTab := t; dropIndex := dropIndex s;
     originalPositions := originalPositions s;
     edgeHoldTimeout := edgeHoldTimeout s; timeoutRef := timeoutRef s |}.

Definition set_originalPositions (ps : list Position) (s : State) : State :=
  {| activeTab := activeTab s; dropIndex := dropIndex s;
     originalPositions := ps;
     edgeHoldTimeout := edgeHoldTimeout s; timeoutRef := timeoutRef s |}.

Definition set_edgeHoldTimeout (h : option nat) (s : State) : State :=
  {| activeTab := activeTab s; dropIndex := dropIndex s;
     originalPositions := originalPositions s;
     edgeHoldTimeout := h; timeoutRef := timeoutRef s |}.

Definition set_timeoutRef (h : option nat) (s : State) : State :=
  {| activeTab := activeTab s; dropIndex := dropIndex s;
     originalPositions := originalPositions s;
     edgeHoldTimeout := edgeHoldTimeout s; timeoutRef := h |}.

(** *** Timers *)

(** [if (ref.current)]: a timer handle is a positive integer; [null] and [0]
    are falsy. *)
Definition liveHandle (h : option nat) : option nat :=
  match h with
  | Some (S n) => Some (S n)
  | _ => None
  end.

Definition clearTimeout (id : nat) (b : Browser) : Browser :=
  {| now := now b; nextTimer := nextTimer b;
     pending := List.filter (fun t => negb (Nat.eqb t.1 id)) (pending b);
     dataStore := dataStore b; window__draggedTab := window__draggedTab b |}.

Definition setTimeout (arg : Indicators) (delay : nat) (b : Browser)
  : nat * Browser :=
  (nextTimer b,
   {| now := now b; nextTimer := S (nextTimer b);
      pending := pending b ++ [(nextTimer b, (now b + delay, arg))];
      dataStore := dataStore b; window__draggedTab := window__draggedTab b |}).

(** [useDebounce(callback, delay)]: the returned function. The callback is
    [(indicators) => onDropIndicatorChange(indicators)], so a pending timeout
    is described by the argument it captured. The hook clears the timeout in
    two places only: here, before it sets the next one, and in the cleanup
    that runs when the component unmounts. *)
Definition debouncedCallback (delay : nat) (arg : Indicators)
  (s : State) (b : Browser) : State * Browser :=
  let b1 := match liveHandle (timeoutRef s) with
            | Some id => clearTimeout id b
            | None => b
            end in
  let '(id, b2) := setTimeout arg delay b1 in
  (set_timeoutRef (Some id) s, b2).

Definition debouncedDropIndicatorChange := debouncedCallback 50.

(** The browser runs the timeouts that are due: each one leaves the pending
    list and calls its callback. *)
Definition due (t : nat) (x : nat * (nat * Indicators)) : bool :=
  Nat.leb x.2.1 t.

Definition fireDue (b : Browser) : Browser * list Call :=
  ({| now := now b; nextTimer := nextTimer b;
      pending := List.filter (fun x => negb (due (now b) x)) (pending b);
      dataStore := dataStore b; window__draggedTab := window__draggedTab b |},
   map (fun x => onDropIndicatorChange x.2.2)
       (List.filter (due (now b)) (pending b))).

Definition tick (b : Browser) : Browser * list Call :=
  fireDue {| now := S (now b); nextTimer := nextTimer b; pending := pending b;
             dataStore := dataStore b;
             window__draggedTab := window__draggedTab b |}.

Fixpoint elapse (ms : nat) (b : Browser) : Browser * list Call :=
  match ms with
  | 0 => (b, [])
  | S n => let '(b1, c1) := tick b in
           let '(b2, c2) := elapse n b1 in
           (b2, c1 ++ c2)
  end.

(** *** handleDragOver *)

Definition edgeThreshold : Q := 40.

(** What [handleDragOver] and [handleDragLeave] read from the event and the
    DOM ([handleDragLeave] reads the pointer and [containerRect] only). *)
Record DragEvent := {
  clientX : Q;
  clientY : Q;
  containerRect : DOMRect;
  headerRect : DOMRect;
  currentGroupIndex : nat;     (* allGroups.indexOf(e.currentTarget) *)
  allGroupsLength : nat
}.

Definition isOverHeader (e : DragEvent) : bool :=
  Qle_bool (rect_top (headerRect e)) (clientY e)
  && Qle_bool (clientY e) (rect_bottom (headerRect e)).

Definition insideVertically (e : DragEvent) : bool :=
  Qle_bool (rect_top (containerRect e)) (clientY e)
  && Qle_bool (clientY e) (rect_bottom (containerRect e)).

Definition distanceFromLeft (e : DragEvent) : Q :=
  clientX e - rect_left (containerRect e).

Definition distanceFromRight (e : DragEvent) : Q :=
  rect_right (containerRect e) - clientX e.

Definition isFirstGroup (e : DragEvent) : bool :=
  Nat.eqb (currentGroupIndex e) 0.

Definition isLastGroup (e : DragEvent) : bool :=
  Z.eqb (Z.of_nat (currentGroupIndex e)) (Z.of_nat (allGroupsLength e) - 1).

(** [c ? groupIndex : null] *)
Definition arm (c : bool) (groupIndex : nat) : option nat :=
  if c then Some groupIndex else None.

Definition newIndicators (groupIndex : nat) (e : DragEvent) : Indicators :=
  {| leftGroup :=
       arm (negb (isOverHeader e) && isFirstGroup e
            && Qltb (distanceFromLeft e) edgeThreshold) groupIndex;
     rightGroup :=
       arm (negb (isOverHeader e) && isLastGroup e
            && Qltb (distanceFromRight e) edgeThreshold) groupIndex;
     betweenGroups :=
       arm (negb (isOverHeader e)
            && ((negb (isFirstGroup e) && Qltb (distanceFromLeft e) edgeThreshold)
                || (negb (isLastGroup e) && Qltb (distanceFromRight e) edgeThreshold)))
           groupIndex |}.

Definition armed (o : option nat) : bool :=
  match o with Some _ => true | None => false end.

(** Number of non-null fields of an indicator state. *)
Definition armedCount (i : Indicators) : nat :=
  Nat.b2n (armed (leftGroup i)) + Nat.b2n (armed (rightGroup i))
  + Nat.b2n (armed (betweenGroups i)).

(** The [for (let i = 1; ...)] loop: [prev] is [originalPositions[i-1]],
    [rest] starts at [originalPositions[i]]. [Some i] is the [break]. *)
Fixpoint scanCenters (relativeX headerLeft : Q) (prev : Position)
  (rest : list Position) (i : nat) : option nat :=
  match rest with
  | [] => None
  | cur :: rest' =>
      let prevCenter := (center prev - headerLeft)%Q in
      let currentCenter := (center cur - headerLeft)%Q in
      if Qle_bool prevCenter relativeX && Qltb relativeX currentCenter
      then Some i
      else scanCenters relativeX headerLeft cur rest' (S i)
  end.

(** [newDropIndex] before the split override. *)
Definition indexFromPositions (tabsLength : nat) (positions : list Position)
  (e : DragEvent) : nat :=
  let relativeX := (clientX e - rect_left (headerRect e))%Q in
  let newDropIndex :=
    match positions with
    | [] => tabsLength
    | first :: rest =>
        if Qltb relativeX (center first - rect_left (headerRect e))%Q then 0
        else match scanCenters relativeX (rect_left (headerRect e)) first rest 1 with
             | Some i => i
             | None => tabsLength
             end
    end in
  Nat.min newDropIndex tabsLength.

Definition newDropIndex (p : Props) (s : State) (e : DragEvent) : nat :=
  let ni := newIndicators (groupIndex p) e in
  if negb (isOverHeader e)
     && (armed (leftGroup ni) || armed (rightGroup ni) || armed (betweenGroups ni))
  then 0
  else indexFromPositions (length (tabs p)) (originalPositions s) e.

Definition handleDragOver (p : Props) (s : State) (b : Browser) (e : DragEvent)
  : Outcome :=
  if insideVertically e then
    let '(s1, b1) :=
      debouncedDropIndicatorChange (newIndicators (groupIndex p) e) s b in
    let d := newDropIndex p s e in
    let s2 := if bool_decide (dropIndex s = Some d) then s1
              else set_dropIndex (Some d) s1 in
    {| state := s2; browser := b1; calls := [preventDefault];
       completion := Returned |}
  else
    {| state := s; browser := b; calls := [preventDefault];
       completion := Returned |}.

(** *** handleDragLeave, handleDragEnd *)

Definition isOutsideContainer (e : DragEvent) : bool :=
  Qltb (clientX e) (rect_left (containerRect e))
  || Qltb (rect_right (containerRect e)) (clientX e)
  || Qltb (clientY e) (rect_top (containerRect e))
  || Qltb (rect_bottom (containerRect e)) (clientY e).

(** [if (edgeHoldTimeout.current) { clearTimeout(...); ... = null; }] *)
Definition clearEdgeHold (s : State) (b : Browser) : State * Browser :=
  match liveHandle (edgeHoldTimeout s) with
  | Some id => (set_edgeHoldTimeout None s, clearTimeout id b)
  | None => (s, b)
  end.

Definition handleDragLeave (p : Props) (s : State) (b : Browser) (e : DragEvent)
  : Outcome :=
  if isOutsideContainer e then
    let '(s1, b1) := clearEdgeHold s b in
    {| state := s1; browser := b1;
       calls := [onDropIndicatorChange noIndicators];
       completion := Returned |}
  else
    {| state := s; browser := b; calls := []; completion := Returned |}.

Definition handleDragEnd (p : Props) (s : State) (b : Browser) : Outcome :=
  let '(s1, b1) := clearEdgeHold (set_dropIndex None s) b in
  {| state := s1;
     browser := {| now := now b1; nextTimer := nextTimer b1;
                   pending := pending b1; dataStore := dataStore b1;
                   window__draggedTab := None |};
     calls := [onDragEnd];
     completion := Returned |}.

(** *** handleDragStart *)

Definition setData (format data : string) (b : Browser) : Browser :=
  {| now := now b; nextTimer := nextTimer b; pending := pending b;
     dataStore := <[format := data]> (dataStore b);
     window__draggedTab := window__draggedTab b |}.

(** [getData] gives the empty string for a format that was never set. *)
Definition getData (format : string) (b : Browser) : string :=
  default ""%string (dataStore b !! format).

Definition positionOfRect (rect : DOMRect) : Position :=
  {| pos_left := rect_left rect;
     pos_right := rect_right rect;
     pos_width := rect_width rect;
     center := (rect_left rect + rect_width rect / 2)%Q |}.

Definition keyJson (key : option string) : json :=
  match key with
  | Some k => JStr k
  | None => JNull
  end.

(** [{ type: tab.type.name, index: index, key: tab.key }] *)
Definition tabInfoOf (ty : ElemType) (index : nat) (key : option string) : json :=
  JObj [("type"%string, JStr (type_name ty));
        ("index"%string, JNum (Z.of_nat index) 0);
        ("key"%string, keyJson key)].

(** [tabRects] are the bounding rectangles of
    [e.currentTarget.parentElement.children], in order. *)
Definition handleDragStart `{Builtins} (p : Props) (s : State) (b : Browser)
  (tabRects : list DOMRect) (tab : Tab) (index : nat) : Outcome :=
  match tab with
  | TabElement (Some ty) key =>
      let s1 := set_originalPositions (map positionOfRect tabRects) s in
      let b1 := setData "text/plain" (pretty index) b in
      let b2 := setData "groupIndex" (pretty (groupIndex p)) b1 in
      let b3 := setData "tabInfo" (JSON_stringify (tabInfoOf ty index key)) b2 in
      {| state := s1; browser := b3; calls := [onDragStart tab index];
         completion := Returned |}
  | _ =>
      {| state := s; browser := b; calls := []; completion := Returned |}
  end.

(** *** handleDrop *)

(** [dropIndicators.f === groupIndex] *)
Definition showsFor (f : option nat) (groupIndex : nat) : bool :=
  match f with
  | Some g => Nat.eqb g groupIndex
  | None => false
  end.

(** [sourceIndex !== dropIndex], a number against a number or [null]. *)
Definition differsFrom (sourceIndex : jsnum) (dropIndex : option nat) : bool :=
  match dropIndex with
  | Some d => negb (strict_eq sourceIndex (Num (Z.of_nat d)))
  | None => true
  end.

(** [tabs[n]] *)
Definition at_index (l : list Tab) (n : jsnum) : Tab :=
  match n with
  | Num z => if (0 <=? z)%Z then default TabUndefined (l !! Z.to_nat z)
             else TabUndefined
  | NaN => TabUndefined
  end.

(** Where [splice(start, ...)] starts on an array of length [len]: [NaN] is
    0, a negative start counts from the end, a start beyond the end is the
    end. *)
Definition spliceStart (len : nat) (start : jsnum) : nat :=
  match start with
  | NaN => 0
  | Num z => if (z <? 0)%Z then Z.to_nat (Z.max (Z.of_nat len + z) 0)
             else Nat.min (Z.to_nat z) len
  end.

(** [const [movedTab] = newTabs.splice(sourceIndex, 1)]: the removed element
    ([undefined] when nothing was removed) and the array left. *)
Definition spliceOut (sourceIndex : jsnum) (l : list Tab) : Tab * list Tab :=
  let k := spliceStart (length l) sourceIndex in
  (default TabUndefined (l !! k), delete k l).

(** [newTabs.splice(dropIndex, 0, movedTab)] *)
Definition spliceIn (dropIndex : nat) (movedTab : Tab) (l : list Tab) : list Tab :=
  take dropIndex l ++ movedTab :: drop dropIndex l.

(** The array passed to [onTabMove] by the within-group branch. *)
Definition reorderedTabs (l : list Tab) (sourceIndex : jsnum) (dropIndex : nat)
  : list Tab :=
  let '(movedTab, newTabs) := spliceOut sourceIndex l in
  spliceIn dropIndex movedTab newTabs.

Definition clearIndicators : Call := onDropIndicatorChange noIndicators.

Definition handleDrop `{Builtins} (p : Props) (s : State) (b : Browser) : Outcome :=
  let sourceIndex := parseInt (getData "text/plain" b) in
  let sourceGroupIndex := parseInt (getData "groupIndex" b) in
  match JSON_parse (getData "tabInfo" b) with
  | None =>
      {| state := s; browser := b; calls := [preventDefault];
         completion := Threw |}
  | Some tabInfo =>
      let wasShowingLeftIndicator :=
        showsFor (leftGroup (dropIndicators p)) (groupIndex p) in
      let wasShowingRightIndicator :=
        showsFor (rightGroup (dropIndicators p)) (groupIndex p) in
      let wasShowingBetweenIndicator :=
        showsFor (betweenGroups (dropIndicators p)) (groupIndex p) in
      let '(s1, action) :=
        if wasShowingBetweenIndicator then
          (s, [onTabSplit tabInfo sourceGroupIndex (AtGroup (groupIndex p))])
        else if wasShowingLeftIndicator || wasShowingRightIndicator then
          (s, [onTabSplit tabInfo sourceGroupIndex
                 (AtEdge wasShowingRightIndicator)])
        else if negb (strict_eq sourceGroupIndex (Num (Z.of_nat (groupIndex p)))) then
          let targetIndex := default (length (tabs p)) (dropIndex s) in
          (s, [onTabMove_across (draggedTab p) targetIndex
                 sourceGroupIndex (groupIndex p)])
        else
          match dropIndex s with
          | Some d =>
              if differsFrom sourceIndex (Some d) then
                let '(movedTab, newTabs) := spliceOut sourceIndex (tabs p) in
                let newTabs := spliceIn d movedTab newTabs in
                (if same_tab (activeTab s) (at_index (tabs p) sourceIndex)
                 then set_activeTab movedTab s else s,
                 [onTabMove_within newTabs (groupIndex p)])
              else (s, [])
          | None => (s, [])
          end in
      {| state := set_dropIndex None s1; browser := b;
         calls := preventDefault :: clearIndicators :: action;
         completion := Returned |}
  end.

End TabContainer.

(** ** A reference implementation of the platform functions

    [parseInt] without a radix, and a JSON reader and writer. The handlers
    above are stated for every [Builtins]; this instance is the one the
    concrete runs below use. *)

Module Reference.

Local Open Scope string_scope.

Definition quote : ascii := "034"%char.
Definition backslash : ascii := "092"%char.

Definition isDigit (c : ascii) : bool :=
  Nat.leb 48 (nat_of_ascii c) && Nat.leb (nat_of_ascii c) 57.

Definition digitValue (c : ascii) : Z := Z.of_nat (nat_of_ascii c - 48).

Definition hexValue (c : ascii) : option Z :=
  let n := nat_of_ascii c in
  if isDigit c then Some (Z.of_nat (n - 48))
  else if Nat.leb 97 n && Nat.leb n 102 then Some (Z.of_nat (n - 87))
  else if Nat.leb 65 n && Nat.leb n 70 then Some (Z.of_nat (n - 55))
  else None.

(** *** parseInt *)

Definition isStrWhiteSpace (c : ascii) : bool :=
  match nat_of_ascii c with
  | 9 | 10 | 11 | 12 | 13 | 32 => true
  | _ => false
  end.

Fixpoint trimStart (s : string) : string :=
  match s with
  | String c rest => if isStrWhiteSpace c then trimStart rest else s
  | EmptyString => s
  end.

(** The value of the longest prefix of decimal (resp. hexadecimal) digits;
    [None] when there is no digit. *)
Fixpoint decimalPrefix (s : string) (acc : option Z) : option Z :=
  match s with
  | String c rest =>
      if isDigit c
      then decimalPrefix rest (Some (10 * default 0 acc + digitValue c)%Z)
      else acc
  | EmptyString => acc
  end.

Fixpoint hexPrefix (s : string) (acc : option Z) : option Z :=
  match s with
  | String c rest =>
      match hexValue c with
      | Some d => hexPrefix rest (Some (16 * default 0 acc + d)%Z)
      | None => acc
      end
  | EmptyString => acc
  end.

Definition unsignedInt (s : string) : option Z :=
  match s with
  | String "0" (String "x" rest) | String "0" (String "X" rest) =>
      hexPrefix rest None
  | _ => decimalPrefix s None
  end.

Definition parseInt (s : string) : jsnum :=
  let t := trimStart s in
  let '(sign, body) :=
    match t with
    | String "-" rest => ((-1)%Z, rest)
    | String "+" rest => (1%Z, rest)
    | _ => (1%Z, t)
    end in
  match unsignedInt body with
  | Some n => Num (sign * n)
  | None => NaN
  end.

(** *** JSON.stringify *)

Definition hexDigit (n : nat) : ascii :=
  ascii_of_nat (if Nat.ltb n 10 then 48 + n else 87 + n).

Definition escapeChar (c : ascii) : string :=
  let n := nat_of_ascii c in
  if Ascii.eqb c quote then String backslash (String quote "")
  else if Ascii.eqb c backslash then String backslash (String backslash "")
  else match n with
       | 8 => String backslash "b"
       | 9 => String backslash "t"
       | 10 => String backslash "n"
       | 12 => String backslash "f"
       | 13 => String backslash "r"
       | _ => if Nat.ltb n 32
              then String backslash
                     ("u00" ++ String (hexDigit (n / 16)) (String (hexDigit (n mod 16)) ""))
              else String c ""
       end.

Fixpoint escape (s : string) : string :=
  match s with
  | String c rest => escapeChar c ++ escape rest
  | EmptyString => ""
  end.

Definition quoted (s : string) : string :=
  String quote (escape s ++ String quote "").

Fixpoint stringify (v : json) : string :=
  match v with
  | JNull => "null"
  | JBool true => "true"
  | JBool false => "false"
  | JNum m e => if Z.eqb e 0 then pretty m else pretty m ++ "e" ++ pretty e
  | JStr s => quoted s
  | JArr items => "[" ++ String.concat "," (List.map stringify items) ++ "]"
  | JObj members =>
      "{" ++ String.concat ","
               (List.map (fun kv => let '(k, w) := kv in
                                    quoted k ++ ":" ++ stringify w) members)
          ++ "}"
  end.

(** *** JSON.parse *)

Definition isJsonSpace (c : ascii) : bool :=
  match nat_of_ascii c with
  | 9 | 10 | 13 | 32 => true
  | _ => false
  end.

Fixpoint skipWs (s : string) : string :=
  match s with
  | String c rest => if isJsonSpace c then skipWs rest else s
  | EmptyString => s
  end.

Fixpoint dropLiteral (lit s : string) : option string :=
  match lit, s with
  | EmptyString, _ => Some s
  | String a lit', String c s' =>
      if Ascii.eqb a c then dropLiteral lit' s' else None
  | String _ _, EmptyString => None
  end.

(** A run of digits: its value appended to [acc], how many there were, and
    the text after it. *)
Fixpoint digitRun (s : string) (acc : Z) (n : nat) : Z * nat * string :=
  match s with
  | String c rest =>
      if isDigit c then digitRun rest (10 * acc + digitValue c)%Z (S n)
      else (acc, n, s)
  | EmptyString => (acc, n, s)
  end.

Definition integerPart (s : string) : option (Z * string) :=
  match s with
  | String "0" rest => Some (0%Z, rest)
  | _ => let '(v, n, rest) := digitRun s 0 0 in
         if Nat.eqb n 0 then None else Some (v, rest)
  end.

Definition fractionPart (m : Z) (s : string) : option (Z * Z * string) :=
  match s with
  | String "." rest =>
      let '(v, n, rest') := digitRun rest m 0 in
      if Nat.eqb n 0 then None else Some (v, (- Z.of_nat n)%Z, rest')
  | _ => Some (m, 0%Z, s)
  end.

Definition exponentDigits (sign : Z) (s : string) : option (Z * string) :=
  let '(v, n, rest) := digitRun s 0 0 in
  if Nat.eqb n 0 then None else Some ((sign * v)%Z, rest).

Definition exponentPart (s : string) : option (Z * string) :=
  match s with
  | String "e" rest | String "E" rest =>
      match rest with
      | String "-" rest' => exponentDigits (-1) rest'
      | String "+" rest' => exponentDigits 1 rest'
      | _ => exponentDigits 1 rest
      end
  | _ => Some (0%Z, s)
  end.

Definition parseNumber (s : string) : option (json * string) :=
  let '(sign, body) :=
    match s with
    | String "-" rest => ((-1)%Z, rest)
    | _ => (1%Z, s)
    end in
  '(i, rest1) ← integerPart body;
  '(m, e1, rest2) ← fractionPart i rest1;
  '(e2, rest3) ← exponentPart rest2;
  Some (JNum (sign * m) (e1 + e2), rest3).

(** UTF-8 bytes of a code point of the basic plane. *)
Definition utf8 (n : Z) : string :=
  let byte (z : Z) := ascii_of_nat (Z.to_nat z) in
  if (n <? 128)%Z then String (byte n) ""
  else if (n <? 2048)%Z then
    String (byte (192 + n / 64)%Z) (String (byte (128 + n mod 64)%Z) "")
  else
    String (byte (224 + n / 4096)%Z)
      (String (byte (128 + (n / 64) mod 64)%Z)
         (String (byte (128 + n mod 64)%Z) "")).

Definition simpleEscape (c : ascii) : option ascii :=
  if Ascii.eqb c quote then Some quote
  else if Ascii.eqb c backslash then Some backslash
  else match c with
       | "/"%char => Some "/"%char
       | "b"%char => Some (ascii_of_nat 8)
       | "f"%char => Some (ascii_of_nat 12)
       | "n"%char => Some (ascii_of_nat 10)
       | "r"%char => Some (ascii_of_nat 13)
       | "t"%char => Some (ascii_of_nat 9)
       | _ => None
       end.

(** The characters of a string literal after its opening quote, up to the
    closing quote. *)
Fixpoint parseChars (s : string) : option (string * string) :=
  match s with
  | EmptyString => None
  | String c rest =>
      if Ascii.eqb c quote then Some ("", rest)
      else if Ascii.eqb c backslash then
        match rest with
        | String "u" (String h1 (String h2 (String h3 (String h4 rest')))) =>
            d1 ← hexValue h1; d2 ← hexValue h2;
            d3 ← hexValue h3; d4 ← hexValue h4;
            '(body, after) ← parseChars rest';
            Some (utf8 (((d1 * 16 + d2) * 16 + d3) * 16 + d4) ++ body, after)
        | String e rest' =>
            x ← simpleEscape e;
            '(body, after) ← parseChars rest';
            Some (String x body, after)
        | EmptyString => None
        end
      else if Nat.ltb (nat_of_ascii c) 32 then None
      else '(body, after) ← parseChars rest; Some (String c body, after)
  end.

Fixpoint parseValue (fuel : nat) (s : string) : option (json * string) :=
  match fuel with
  | 0 => None
  | S fuel' =>
      match skipWs s with
      | EmptyString => None
      | String c rest =>
          if Ascii.eqb c "[" then
            match skipWs rest with
            | String "]" rest' => Some (JArr [], rest')
            | _ => '(items, after) ← parseElements fuel' rest;
                   Some (JArr items, after)
            end
          else if Ascii.eqb c "{" then
            match skipWs rest with
            | String "}" rest' => Some (JObj [], rest')
            | _ => '(members, after) ← parseMembers fuel' rest;
                   Some (JObj members, after)
            end
          else if Ascii.eqb c quote then
            '(str, after) ← parseChars rest; Some (JStr str, after)
          else if Ascii.eqb c "n" then
            after ← dropLiteral "ull" rest; Some (JNull, after)
          else if Ascii.eqb c "t" then
            after ← dropLiteral "rue" rest; Some (JBool true, after)
          else if Ascii.eqb c "f" then
            after ← dropLiteral "alse" rest; Some (JBool false, after)
          else parseNumber (String c rest)
      end
  end
with parseElements (fuel : nat) (s : string) : option (list json * string) :=
  match fuel with
  | 0 => None
  | S fuel' =>
      '(v, rest) ← parseValue fuel' s;
      match skipWs rest with
      | String "," rest' =>
          '(vs, after) ← parseElements fuel' rest'; Some (v :: vs, after)
      | String "]" rest' => Some ([v], rest')
      | _ => None
      end
  end
with parseMembers (fuel : nat) (s : string)
  : option (list (string * json) * string) :=
  match fuel with
  | 0 => None
  | S fuel' =>
      match skipWs s with
      | String c rest =>
          if Ascii.eqb c quote then
            '(k, rest1) ← parseChars rest;
            match skipWs rest1 with
            | String ":" rest2 =>
                '(v, rest3) ← parseValue fuel' rest2;
                match skipWs rest3 with
                | String "," rest4 =>
                    '(ms, after) ← parseMembers fuel' rest4;
                    Some ((k, v) :: ms, after)
                | String "}" rest4 => Some ([(k, v)], rest4)
                | _ => None
                end
            | _ => None
            end
          else None
      | EmptyString => None
      end
  end.

(** Every call of the reader consumes a character or is followed by one that
    does, so twice the length of the text is fuel enough. *)
Definition parse (s : string) : option json :=
  '(v, rest) ← parseValue (2 * String.length s + 2) s;
  match skipWs rest with
  | EmptyString => Some v
  | _ => None
  end.

Definition builtins : Builtins :=
  {| JS.parseInt := parseInt; JSON_parse := parse; JSON_stringify := stringify |}.

End Reference.

(** ** Tab constants shared by both revisions of ShopGenerator

    The older revision declares [TAB_TYPE_IDENTIFIERS], [TAB_TYPES] and
    [DEFAULT_TAB_STATE] inline; the newer one imports the first and the last
    from [utils/tabConstants], which is not among the sources, and they are
    taken to be the same. *)

Module TabConstants.

Local Open Scope string_scope.

(** The five tab components. *)
Inductive Component :=
| Tab_Parameters
| Tab_InventoryTable
| Tab_ChooseShop
| Tab_ShopDetails
| Tab_AiAssistant.

#[global] Instance Component_eq_dec : EqDecision Component.
Proof. solve_decision. Defined.

(** Static properties set on the component functions
    ([Tab_InventoryTable.displayName = ...], [.minWidth = ...]); [None] is
    [undefined]. The files of [Tab_Parameters] and [Tab_ShopDetails] are not
    among the sources, so the table is a parameter. *)
Class Statics := {
  displayName : Component -> option string;
  minWidth : Component -> option nat
}.

(** The name of the component function, [TabComponent.name]. *)
Definition functionName (c : Component) : string :=
  match c with
  | Tab_Parameters => "Tab_Parameters"
  | Tab_InventoryTable => "Tab_InventoryTable"
  | Tab_ChooseShop => "Tab_ChooseShop"
  | Tab_ShopDetails => "Tab_ShopDetails"
  | Tab_AiAssistant => "Tab_AiAssistant"
  end.

Definition STORAGE_KEY : string := "tabGroupsState".

(** [Object.values(TAB_TYPE_IDENTIFIERS)] *)
Definition TAB_TYPE_IDENTIFIERS : list string :=
  ["Tab_Parameters"; "Tab_InventoryTable"; "Tab_ChooseShop";
   "Tab_ShopDetails"; "Tab_AiAssistant"].

(** [TAB_TYPES], in key order. *)
Definition TAB_TYPES : list (string * Component) :=
  [("Tab_Parameters", Tab_Parameters);
   ("Tab_InventoryTable", Tab_InventoryTable);
   ("Tab_ChooseShop", Tab_ChooseShop);
   ("Tab_ShopDetails", Tab_ShopDetails);
   ("Tab_AiAssistant", Tab_AiAssistant)].

(** [TAB_TYPES[tabType]]. Every caller has checked [tabType] against
    [TAB_TYPE_IDENTIFIERS] before, or reads an own key of the table. *)
Fixpoint lookupType (table : list (string * Component)) (tabType : string)
  : option Component :=
  match table with
  | [] => None
  | (k, c) :: rest => if String.eqb k tabType then Some c
                      else lookupType rest tabType
  end.

(** [Object.values(TAB_TYPE_IDENTIFIERS).includes(x)] for a property read [x]. *)
Definition isKnownType (x : option json) : bool :=
  match x with
  | Some (JStr t) => existsb (String.eqb t) TAB_TYPE_IDENTIFIERS
  | _ => false
  end.

Definition tabEntry (type key : string) : json :=
  JObj [("type", JStr type); ("key", JStr key)].

Definition DEFAULT_TAB_STATE : json :=
  JObj [("groups",
         JArr [JArr [tabEntry "Tab_Parameters" "Tab_Parameters-0";
                     tabEntry "Tab_InventoryTable" "Tab_InventoryTable-0";
                     tabEntry "Tab_ChooseShop" "Tab_ChooseShop-0";
                     tabEntry "Tab_ShopDetails" "Tab_ShopDetails-0";
                     tabEntry "Tab_AiAssistant" "Tab_AiAssistant-0"]]);
        ("widths", JArr [JStr "100%"])].

(** The items of an array-valued property; [[]] when it is not an array. *)
Definition items (x : option json) : list json :=
  match x with
  | Some (JArr l) => l
  | _ => []
  end.

(** [tab && typeof tab === 'object' && typeof tab.type === 'string' &&
    typeof tab.key === 'string'] *)
Definition isTabShaped (tab : json) : bool :=
  truthy tab && typeof_object tab
  && isString (prop "type" tab) && isString (prop "key" tab).

(** The string held by a property that passed [isString]. *)
Definition stringOf (x : option json) : string :=
  match x with
  | Some (JStr s) => s
  | _ => ""
  end.

(** A member of [widths] in a tab state: a value taken from the stored
    document or from a literal, or the template string [`${100 / n}%`]. *)
Inductive Width :=
| Stored (w : json)
| EqualShare (n : nat).

End TabConstants.

(** ** ShopGenerator, the revision that loads the layout in an effect

    Second document of [TabContainer.jsx]: constants inline, tabs are React
    elements, the layout is read from [localStorage] in a [useEffect]. *)

Module ShopGeneratorEffect.

Import TabConstants.
Local Open Scope string_scope.

(** A React element made by [createTabElement]: [type] is the component,
    [props.type] is [{ name, minWidth }]. *)
Record Element := {
  el_type : Component;
  el_key : string;
  props_type_name : string;
  props_type_minWidth : nat
}.

Record TabState := {
  groups : list (list Element);
  widths : list Width
}.

(** [TabComponent.minWidth || 200] *)
Definition minWidthOr200 `{Statics} (c : Component) : nat :=
  match minWidth c with
  | Some (S n) => S n
  | _ => 200
  end.

Definition createTabElement `{Statics} (tabType key : string) : option Element :=
  if String.eqb tabType "" then None
  else match lookupType TAB_TYPES tabType with
       | None => None
       | Some TabComponent =>
           Some {| el_type := TabComponent; el_key := key;
                   props_type_name := tabType;
                   props_type_minWidth := minWidthOr200 TabComponent |}
       end.

(** [group.map(tab => ...).filter(Boolean)] of [createTabsFromConfig]. The
    effect calls it on a document that passed [isValidStructure], where
    [tab.type] and [tab.key] are strings. *)
Definition elementsOfGroup `{Statics} (group : json) : list Element :=
  match group with
  | JArr tabs =>
      omap (fun tab =>
              let tabType := stringOf (prop "type" tab) in
              match lookupType TAB_TYPES tabType with
              | None => None
              | Some _ => createTabElement tabType (stringOf (prop "key" tab))
              end) tabs
  | _ => []
  end.

Definition nonEmpty {A} (l : list A) : bool := Nat.ltb 0 (length l).

Definition processGroups `{Statics} (groups : list json) : list (list Element) :=
  List.filter nonEmpty (map elementsOfGroup groups).

(** [DEFAULT_TAB_STATE.groups.map(group => group.map(tab =>
    createTabElement(tab.type, tab.key)).filter(Boolean)).filter(...)] *)
Definition DEFAULT_TAB_CONFIG `{Statics} : TabState :=
  {| groups :=
       List.filter nonEmpty
         (map (fun group =>
                 omap (fun tab => createTabElement (stringOf (prop "type" tab))
                                                   (stringOf (prop "key" tab)))
                      (items (Some group)))
              (items (prop "groups" DEFAULT_TAB_STATE)));
     widths := map Stored (items (prop "widths" DEFAULT_TAB_STATE)) |}.

(** [processedGroups.map((_, i) => i === n - 1 ? '100%' : `${100 / n}%`)] *)
Definition evenWidths (n : nat) : list Width :=
  map (fun i => if Nat.eqb (S i) n then Stored (JStr "100%") else EqualShare n)
      (seq 0 n).

Definition createTabsFromConfig `{Statics} (config : json) : TabState :=
  let processedGroups := processGroups (items (prop "groups" config)) in
  if Nat.eqb (length processedGroups) 0 then DEFAULT_TAB_CONFIG
  else
    let stored := items (prop "widths" config) in
    {| groups := processedGroups;
       widths := if Nat.eqb (length stored) (length processedGroups)
                 then map Stored stored
                 else evenWidths (length processedGroups) |}.

Definition isValidStructure (parsed : json) : bool :=
  forallb (fun group => isArray (Some group)
                        && forallb isTabShaped (items (Some group)))
          (items (prop "groups" parsed)).

Definition hasValidTabs (parsed : json) : bool :=
  forallb (fun group => forallb (fun tab => isKnownType (prop "type" tab))
                                (items (Some group)))
          (items (prop "groups" parsed)).

(** The body of the loading effect: the argument of the one [setTabState]
    call it makes. A [SyntaxError] of [JSON.parse] is caught by the effect's
    [try] and gives the default as well. *)
Definition loadTabState `{Builtins} `{Statics} (localStorage : gmap string string)
  : TabState :=
  match localStorage !! STORAGE_KEY with
  | None => DEFAULT_TAB_CONFIG
  | Some savedState =>
      if String.eqb savedState "" then DEFAULT_TAB_CONFIG
      else match JSON_parse savedState with
           | None => DEFAULT_TAB_CONFIG
           | Some parsed =>
               if negb (truthy parsed)
                  || negb (isArray (prop "groups" parsed))
                  || negb (isArray (prop "widths" parsed))
               then DEFAULT_TAB_CONFIG
               else if negb (isValidStructure parsed) then DEFAULT_TAB_CONFIG
               else if negb (hasValidTabs parsed) then DEFAULT_TAB_CONFIG
               else
                 let newState := createTabsFromConfig parsed in
                 if Nat.ltb 0 (length (groups newState)) then newState
                 else DEFAULT_TAB_CONFIG
           end
  end.

(** [Object.keys(TAB_TYPES).find(type => TAB_TYPES[type] === tab.type ||
    TAB_TYPES[type].displayName === tab.type.displayName)] *)
Definition matchingType `{Statics} (tab : Element) : option string :=
  fst <$> List.find (fun entry => bool_decide (entry.2 = el_type tab)
                                  || bool_decide (displayName entry.2
                                                  = displayName (el_type tab)))
                    TAB_TYPES.

(** [{ type: matchingType || tab.type.name, key: tab.key }] *)
Definition tabData `{Statics} (tab : Element) : json :=
  tabEntry (default (functionName (el_type tab)) (matchingType tab)) (el_key tab).

(** [saveState]: the new content of [localStorage]. *)
Definition saveState `{Builtins} `{Statics} (tabGroups : list (list Element))
  (flexBasis : list json) (localStorage : gmap string string)
  : gmap string string :=
  let groupsData := map (map tabData) tabGroups in
  let hasValidTypes :=
    forallb (forallb (fun tab => isKnownType (prop "type" tab))) groupsData in
  if negb hasValidTypes then localStorage
  else
    let stateToSave :=
      JObj [("groups", JArr (map JArr groupsData)); ("widths", JArr flexBasis)] in
    <[STORAGE_KEY := JSON_stringify stateToSave]> localStorage.

End ShopGeneratorEffect.

(** ** ShopGenerator, the revision with [isValidSavedState]

    [unnamed/part_001]: the tab structure is computed once by
    [createInitialTabState]; tabs are plain objects. *)

Module ShopGeneratorRegistry.

Import TabConstants.
Local Open Scope string_scope.

(** The argument of [isValidSavedState]: what [localStorage.getItem] gave
    ([null] or a string), or an object. *)
Inductive SavedState :=
| Item (s : option string)
| Object (v : json).

Definition isValidGroup (group : json) : bool :=
  isArray (Some group)
  && forallb (fun tab => isTabShaped tab && isKnownType (prop "type" tab))
             (items (Some group)).

(** The conjunction tested on [parsedState]. *)
Definition isValidParsed (parsedState : json) : bool :=
  truthy parsedState
  && isArray (prop "groups" parsedState)
  && isArray (prop "widths" parsedState)
  && forallb isValidGroup (items (prop "groups" parsedState)).

Definition isValidSavedState `{Builtins} (state : SavedState) : option json :=
  match state with
  | Item None => None
  | Item (Some s) =>
      if String.eqb s "" then None
      else match JSON_parse s with
           | None => None
           | Some parsedState =>
               if isValidParsed parsedState then Some parsedState else None
           end
  | Object parsedState =>
      if isValidParsed parsedState then Some parsedState else None
  end.

(** [createInitialTabState]: the tab structure and what is left of
    [localStorage]. The storage is cleared before it is read. *)
Definition createInitialTabState `{Builtins} (localStorage : gmap string string)
  : json * gmap string string :=
  let cleared : gmap string string := ∅ in
  let savedState := cleared !! STORAGE_KEY in
  match isValidSavedState (Item savedState) with
  | None => (DEFAULT_TAB_STATE, cleared)
  | Some validState => (validState, cleared)
  end.

(** [tab.type] of a tab object: [{ name, component, minWidth }]. *)
Record TabObject := {
  key : string;
  type_name : string;
  type_component : Component;
  type_minWidth : nat
}.

Definition tabObject `{Statics} (tab : json) : option TabObject :=
  match lookupType TAB_TYPES (stringOf (prop "type" tab)) with
  | None => None
  | Some TabComponent =>
      Some {| key := stringOf (prop "key" tab);
              type_name := stringOf (prop "type" tab);
              type_component := TabComponent;
              type_minWidth := match minWidth TabComponent with
                               | Some (S n) => S n
                               | _ => 200
                               end |}
  end.

Definition createTabElements `{Statics} (tabStructure : json)
  : list (list TabObject) :=
  List.filter (fun group => Nat.ltb 0 (length group))
    (map (fun group => omap tabObject (items (Some group)))
         (items (prop "groups" tabStructure))).

(** [tab.type] is a plain object here: it is never one of the components and
    has no [displayName], so the find matches the first component without a
    [displayName]. *)
Definition matchingType `{Statics} (tab : TabObject) : option string :=
  fst <$> List.find (fun entry => bool_decide (displayName entry.2 = None))
                    TAB_TYPES.

Definition tabData `{Statics} (tab : TabObject) : json :=
  tabEntry (default (type_name tab) (matchingType tab)) (key tab).

Definition saveState `{Builtins} `{Statics} (tabGroups : list (list TabObject))
  (flexBasis : list json) (localStorage : gmap string string)
  : gmap string string :=
  let groupsData := map (map tabData) tabGroups in
  let stateToSave :=
    JObj [("groups", JArr (map JArr groupsData)); ("widths", JArr flexBasis)] in
  match isValidSavedState (Object stateToSave) with
  | None => localStorage
  | Some validState => <[STORAGE_KEY := JSON_stringify validState]> localStorage
  end.

End ShopGeneratorRegistry.

(** ** LayoutStore

    The hook [useTabManagement] ([handleTabMove], [handleTabSplit]) is not
    among the sources; the store operations below follow section 4.1 of the
    specification. *)

Module LayoutStore.

Import TabConstants.

(** Modelled from the spec: the Panel of the data model of
    [useTabManagement], which is not among the sources: a stable key, an
    enumerated type tag, a minimum width. *)
Record Panel := {
  id : string;
  typeTag : Component;
  panelMinWidth : nat
}.

(** Modelled from the spec: the Layout held by [useTabManagement]: the groups
    in order, each an ordered list of panels, and the parallel list of width
    fractions. *)
Record Layout := {
  groups : list (list Panel);
  widths : list string
}.

(** Modelled from the spec: the width redistribution rules of
    [useTabManagement], which the specification leaves open ("must be
    deterministic"). [afterRemoval i ws] are the widths once group [i] is
    deleted, [afterInsertion i ws] once a new group is inserted at [i]. *)
Class WidthPolicy := {
  afterRemoval : nat -> list string -> list string;
  afterInsertion : nat -> list string -> list string
}.

(** Modelled from the spec: the [side] argument of [splitGroup] of
    [useTabManagement]: leftmost, rightmost, or at a boundary between
    groups. *)
Inductive Side :=
| SideLeft
| SideRight
| SideBetween (position : nat).

(** Modelled from the spec: the panel keys of a group of
    [useTabManagement]. *)
Definition keys (group : list Panel) : list string := map id group.

(** Modelled from the spec: the keys of a list of groups of
    [useTabManagement], group after group. *)
Definition keysOf (gs : list (list Panel)) : list string := concat (map keys gs).

(** Modelled from the spec: every panel key of a layout of
    [useTabManagement], with repetitions. *)
Definition allKeys (l : Layout) : list string := keysOf (groups l).

(** Modelled from the spec: the position in a group of the panel that
    [useTabManagement] is given by key. *)
Fixpoint indexOfKey (panelKey : string) (group : list Panel) : option nat :=
  match group with
  | [] => None
  | p :: rest => if String.eqb (id p) panelKey then Some 0
                 else S <$> indexOfKey panelKey rest
  end.

(** Modelled from the spec: the removal step shared by [moveAcrossGroups] and
    [splitGroup] of [useTabManagement]: take the panel out of its source
    group; a source group left empty is deleted and its width redistributed.
    Gives the panel, the layout without it, and whether the group went. A
    missing key or group is rejected. *)
Definition removePanel `{WidthPolicy} (panelKey : string) (sourceGroupIndex : nat)
  (l : Layout) : option (Panel * Layout * bool) :=
  group ← groups l !! sourceGroupIndex;
  i ← indexOfKey panelKey group;
  panel ← group !! i;
  match delete i group with
  | [] => Some (panel,
                {| groups := delete sourceGroupIndex (groups l);
                   widths := afterRemoval sourceGroupIndex (widths l) |},
                true)
  | rest => Some (panel,
                  {| groups := <[sourceGroupIndex := rest]> (groups l);
                     widths := widths l |},
                  false)
  end.

(** Modelled from the spec: [reorderWithinGroup(groupIndex, fromIndex,
    toIndex)] of [useTabManagement]: "removes panel at fromIndex, reinserts
    at toIndex within the same group's ordered list"; an out-of-range index
    is rejected. *)
Definition reorderWithinGroup (groupIndex fromIndex toIndex : nat) (l : Layout)
  : option Layout :=
  group ← groups l !! groupIndex;
  panel ← group !! fromIndex;
  if Nat.ltb toIndex (length group) then
    let rest := delete fromIndex group in
    Some {| groups := <[groupIndex := take toIndex rest ++ panel :: drop toIndex rest]>
                        (groups l);
            widths := widths l |}
  else None.

(** Modelled from the spec: [moveAcrossGroups(panelKey, sourceGroupIndex,
    targetGroupIndex, targetIndex)] of [useTabManagement]: remove the panel
    from the source group (deleting the group if it becomes empty), insert it
    into the target group at [targetIndex] clamped to [[0, len]]. Indices refer
    to the layout before the operation; the two groups must differ. *)
Definition moveAcrossGroups `{WidthPolicy} (panelKey : string)
  (sourceGroupIndex targetGroupIndex targetIndex : nat) (l : Layout)
  : option Layout :=
  if Nat.eqb sourceGroupIndex targetGroupIndex then None
  else
    _ ← groups l !! targetGroupIndex;
    '(panel, l1, deleted) ← removePanel panelKey sourceGroupIndex l;
    let t := if deleted && Nat.ltb sourceGroupIndex targetGroupIndex
             then targetGroupIndex - 1 else targetGroupIndex in
    target ← groups l1 !! t;
    Some {| groups := <[t := take targetIndex target ++ panel :: drop targetIndex target]>
                        (groups l1);
            widths := widths l1 |}.

(** Modelled from the spec: [splitGroup(panelKey, sourceGroupIndex, side)] of
    [useTabManagement]: remove the panel from its source group and insert a
    new single-panel group at the leftmost or rightmost position, or at a
    boundary between groups. *)
Definition splitGroup `{WidthPolicy} (panelKey : string) (sourceGroupIndex : nat)
  (side : Side) (l : Layout) : option Layout :=
  '(panel, l1, _) ← removePanel panelKey sourceGroupIndex l;
  let n := length (groups l1) in
  at_ ← match side with
        | SideLeft => Some 0
        | SideRight => Some n
        | SideBetween position => if Nat.leb position n then Some position else None
        end;
  Some {| groups := take at_ (groups l1) ++ [panel] :: drop at_ (groups l1);
          widths := afterInsertion at_ (widths l1) |}.

(** Modelled from the spec: the mutations of the store of
    [useTabManagement] that the drop handler can ask for. *)
Inductive Operation :=
| Reorder (groupIndex fromIndex toIndex : nat)
| Move (panelKey : string) (sourceGroupIndex targetGroupIndex targetIndex : nat)
| Split (panelKey : string) (sourceGroupIndex : nat) (side : Side).

(** Modelled from the spec: one mutation of the store of [useTabManagement];
    a rejected operation leaves the store unchanged. *)
Definition apply `{WidthPolicy} (op : Operation) (l : Layout) : Layout :=
  default l
    match op with
    | Reorder g i j => reorderWithinGroup g i j l
    | Move k s t i => moveAcrossGroups k s t i l
    | Split k s side => splitGroup k s side l
    end.

(** Modelled from the spec: the layout of [useTabManagement] after a sequence
    of mutations. *)
Definition run `{WidthPolicy} (ops : list Operation) (l : Layout) : Layout :=
  foldl (fun acc op => apply op acc) l ops.

(** Modelled from the spec: a valid layout of [useTabManagement]: no key
    twice, no empty group, one width per group. *)
Definition valid (l : Layout) : Prop :=
  NoDup (allKeys l)
  /\ Forall (fun g => g <> []) (groups l)
  /\ length (groups l) = length (widths l).

(** Modelled from the spec: in how many groups of a layout of
    [useTabManagement] a key appears. *)
Definition groupsHolding (k : string) (l : Layout) : nat :=
  length (List.filter (fun g => bool_decide (k ∈ keys g)) (groups l)).

(** Modelled from the spec: how many times a key appears in a layout of
    [useTabManagement]. *)
Definition occurrences (k : string) (l : Layout) : nat :=
  count_occ String.string_dec (allKeys l) k.

End LayoutStore.

(** ** Derived notions and sample inputs *)

(** The width the edge distances are measured in. *)
Definition containerWidth (e : TabContainer.DragEvent) : Q :=
  (rect_right (TabContainer.containerRect e)
   - rect_left (TabContainer.containerRect e))%Q.

(** A sole group 60px wide: the pointer at its middle, below the header, is
    within 40px of both edges. *)
Definition narrowSoleGroup : TabContainer.DragEvent :=
  {| TabContainer.clientX := 30; TabContainer.clientY := 50;
     TabContainer.containerRect :=
       {| rect_left := 0; rect_right := 60; rect_top := 0; rect_bottom := 100;
          rect_width := 60 |};
     TabContainer.headerRect :=
       {| rect_left := 0; rect_right := 60; rect_top := 0; rect_bottom := 20;
          rect_width := 60 |};
     TabContainer.currentGroupIndex := 0;
     TabContainer.allGroupsLength := 1 |}.

Definition idleState : TabContainer.State :=
  {| TabContainer.activeTab := TabContainer.TabUndefined;
     TabContainer.dropIndex := None;
     TabContainer.originalPositions := [];
     TabContainer.edgeHoldTimeout := None;
     TabContainer.timeoutRef := None |}.

Definition freshBrowser : TabContainer.Browser :=
  {| TabContainer.now := 0; TabContainer.nextTimer := 1;
     TabContainer.pending := []; TabContainer.dataStore := ∅;
     TabContainer.window__draggedTab := None |}.

Definition soleGroupProps (tabs : list TabContainer.Tab) : TabContainer.Props :=
  {| TabContainer.tabs := tabs; TabContainer.groupIndex := 0;
     TabContainer.draggedTab := TabContainer.TabNull;
     TabContainer.draggedTabIndex := None;
     TabContainer.dropIndicators := TabContainer.noIndicators |}.

(** The pointer and a cached centre in the header's local coordinates. *)
Definition localX (e : TabContainer.DragEvent) : Q :=
  (TabContainer.clientX e - rect_left (TabContainer.headerRect e))%Q.

Definition localCenters (positions : list Position) (e : TabContainer.DragEvent)
  : list Q :=
  map (fun p => (center p - rect_left (TabContainer.headerRect e))%Q) positions.

(** The insertion index in the words of the specification: the first
    position whose cached centre is at least the pointer's local x, the tab
    count when there is none. *)
Fixpoint firstAtLeast (x : Q) (centers : list Q) : option nat :=
  match centers with
  | [] => None
  | c :: rest => if Qle_bool x c then Some 0 else S <$> firstAtLeast x rest
  end.

Definition specInsertionIndex (tabCount : nat) (positions : list Position)
  (e : TabContainer.DragEvent) : nat :=
  default tabCount (firstAtLeast (localX e) (localCenters positions e)).

(** The first position whose cached centre is strictly right of the pointer. *)
Fixpoint firstAbove (x : Q) (centers : list Q) : option nat :=
  match centers with
  | [] => None
  | c :: rest => if Qltb x c then Some 0 else S <$> firstAbove x rest
  end.

(** Two tabs with centres at 10 and 30; the pointer over the header, exactly
    on the first centre, in a container 300px wide. *)
Definition onFirstCenter : TabContainer.DragEvent :=
  {| TabContainer.clientX := 10; TabContainer.clientY := 10;
     TabContainer.containerRect :=
       {| rect_left := 0; rect_right := 300; rect_top := 0; rect_bottom := 100;
          rect_width := 300 |};
     TabContainer.headerRect :=
       {| rect_left := 0; rect_right := 300; rect_top := 0; rect_bottom := 20;
          rect_width := 300 |};
     TabContainer.currentGroupIndex := 0;
     TabContainer.allGroupsLength := 1 |}.

(** The bounding rectangles of two tabs 20px wide side by side. *)
Definition twoTabRects : list DOMRect :=
  [{| rect_left := 0; rect_right := 20; rect_top := 0; rect_bottom := 20;
      rect_width := 20 |};
   {| rect_left := 20; rect_right := 40; rect_top := 0; rect_bottom := 20;
      rect_width := 20 |}].

Definition plainTab (name key : string) : TabContainer.Tab :=
  TabContainer.TabElement (Some {| TabContainer.type_name := name |}) (Some key).

Definition twoTabs : list TabContainer.Tab :=
  [plainTab "Tab_Parameters" "Tab_Parameters-0";
   plainTab "Tab_ChooseShop" "Tab_ChooseShop-0"].

(** The target container of the sample drops: group 0 holding [twoTabs], no
    indicator shown. *)
Definition twoTabProps : TabContainer.Props := soleGroupProps twoTabs.

(** The state of that container once a drag of its first tab has started. *)
Definition twoTabsDragging : TabContainer.State :=
  TabContainer.state
    (@TabContainer.handleDragStart Reference.builtins twoTabProps idleState
       freshBrowser twoTabRects
       (plainTab "Tab_Parameters" "Tab_Parameters-0") 0).

(** A transfer store written by a drag source that set [tabInfo] only: the
    [text/plain] and [groupIndex] entries are missing. *)
Definition onlyTabInfo : TabContainer.Browser :=
  TabContainer.setData "tabInfo"
    (Reference.stringify
       (TabContainer.tabInfoOf {| TabContainer.type_name := "Tab_Parameters" |}
          0 (Some "Tab_Parameters-0"%string)))
    freshBrowser.

(** A tab value on which [!tab || !tab.type] holds. *)
Definition lacksType (tab : TabContainer.Tab) : bool :=
  match tab with
  | TabContainer.TabElement (Some _) _ => false
  | _ => true
  end.

(** The pointer near the left edge of a sole group 300px wide, below the
    header: [leftGroup] alone is armed. *)
Definition nearLeftEdge : TabContainer.DragEvent :=
  {| TabContainer.clientX := 10; TabContainer.clientY := 50;
     TabContainer.containerRect :=
       {| rect_left := 0; rect_right := 300; rect_top := 0; rect_bottom := 100;
          rect_width := 300 |};
     TabContainer.headerRect :=
       {| rect_left := 0; rect_right := 300; rect_top := 0; rect_bottom := 20;
          rect_width := 300 |};
     TabContainer.currentGroupIndex := 0;
     TabContainer.allGroupsLength := 1 |}.

(** The same container with the pointer left of it. *)
Definition leftOfContainer : TabContainer.DragEvent :=
  {| TabContainer.clientX := -5; TabContainer.clientY := 50;
     TabContainer.containerRect :=
       {| rect_left := 0; rect_right := 300; rect_top := 0; rect_bottom := 100;
          rect_width := 300 |};
     TabContainer.headerRect :=
       {| rect_left := 0; rect_right := 300; rect_top := 0; rect_bottom := 20;
          rect_width := 300 |};
     TabContainer.currentGroupIndex := 0;
     TabContainer.allGroupsLength := 1 |}.

Definition leftArmed : TabContainer.Indicators :=
  {| TabContainer.leftGroup := Some 0; TabContainer.rightGroup := None;
     TabContainer.betweenGroups := None |}.

(** One gesture over a container, as the browser delivers it: handler calls
    and the passing of time. *)
Inductive Input :=
| DragStart (tabRects : list DOMRect) (tab : TabContainer.Tab) (index : nat)
| DragOver (e : TabContainer.DragEvent)
| DragLeave (e : TabContainer.DragEvent)
| DragEnd
| Wait (ms : nat).

(** The calls made by the container, each with the time it was made at. *)
Definition stamp (t : nat) (cs : list TabContainer.Call)
  : list (nat * TabContainer.Call) :=
  map (fun c => (t, c)) cs.

Definition deliver `{Builtins} (p : TabContainer.Props)
  (w : TabContainer.State * TabContainer.Browser * list (nat * TabContainer.Call))
  (i : Input)
  : TabContainer.State * TabContainer.Browser * list (nat * TabContainer.Call) :=
  let '(s, b, log) := w in
  let after (out : TabContainer.Outcome) :=
    (TabContainer.state out, TabContainer.browser out,
     log ++ stamp (TabContainer.now b) (TabContainer.calls out)) in
  match i with
  | Wait ms =>
      let '(b1, cs) := TabContainer.elapse ms b in
      (s, b1, log ++ stamp (TabContainer.now b1) cs)
  | DragStart tabRects tab index =>
      after (TabContainer.handleDragStart p s b tabRects tab index)
  | DragOver e => after (TabContainer.handleDragOver p s b e)
  | DragLeave e => after (TabContainer.handleDragLeave p s b e)
  | DragEnd => after (TabContainer.handleDragEnd p s b)
  end.

(** The log of a gesture on a freshly mounted container. *)
Definition deliverAll `{Builtins} (p : TabContainer.Props) (inputs : list Input)
  : list (nat * TabContainer.Call) :=
  (foldl (deliver p) (idleState, freshBrowser, []) inputs).2.

(** ** Corrupt stored layouts *)

(** The ways a parsed document fails the structural validation. *)
Inductive Violation (parsed : json) : Prop :=
| groups_not_array :
    isArray (prop "groups" parsed) = false -> Violation parsed
| widths_not_array :
    isArray (prop "widths" parsed) = false -> Violation parsed
| group_not_array (group : json) :
    group ∈ TabConstants.items (prop "groups" parsed) ->
    isArray (Some group) = false -> Violation parsed
| tab_not_object (group tab : json) :
    group ∈ TabConstants.items (prop "groups" parsed) ->
    tab ∈ TabConstants.items (Some group) ->
    truthy tab && typeof_object tab = false -> Violation parsed
| tab_type_not_string (group tab : json) :
    group ∈ TabConstants.items (prop "groups" parsed) ->
    tab ∈ TabConstants.items (Some group) ->
    isString (prop "type" tab) = false -> Violation parsed
| tab_key_not_string (group tab : json) :
    group ∈ TabConstants.items (prop "groups" parsed) ->
    tab ∈ TabConstants.items (Some group) ->
    isString (prop "key" tab) = false -> Violation parsed
| tab_type_unknown (group tab : json) :
    group ∈ TabConstants.items (prop "groups" parsed) ->
    tab ∈ TabConstants.items (Some group) ->
    TabConstants.isKnownType (prop "type" tab) = false -> Violation parsed.

(** A stored text that is not valid JSON, or parses to a document with a
    violation. *)
Definition Corrupt {B : Builtins} (blob : string) : Prop :=
  JSON_parse blob = None
  \/ exists parsed, JSON_parse blob = Some parsed /\ Violation parsed.

(** The types and keys of a layout of React elements, group by group. *)
Definition typesAndKeys (groups : list (list ShopGeneratorEffect.Element))
  : list (list (TabConstants.Component * string)) :=
  map (map (fun el => (ShopGeneratorEffect.el_type el,
                       ShopGeneratorEffect.el_key el))) groups.

Definition defaultTypesAndKeys : list (list (TabConstants.Component * string)) :=
  [[(TabConstants.Tab_Parameters, "Tab_Parameters-0"%string);
    (TabConstants.Tab_InventoryTable, "Tab_InventoryTable-0"%string);
    (TabConstants.Tab_ChooseShop, "Tab_ChooseShop-0"%string);
    (TabConstants.Tab_ShopDetails, "Tab_ShopDetails-0"%string);
    (TabConstants.Tab_AiAssistant, "Tab_AiAssistant-0"%string)]].

(** The static properties found in the component files at hand
    ([Tab_InventoryTable], [Tab_ChooseShop], [Tab_AiAssistant]); the display
    names of the other two components are sample values. *)
Definition sampleStatics : TabConstants.Statics :=
  {| TabConstants.displayName := fun c =>
       match c with
       | TabConstants.Tab_Parameters => Some "Parameters"%string
       | TabConstants.Tab_InventoryTable => Some "Inventory Table"%string
       | TabConstants.Tab_ChooseShop => Some "Choose Shop"%string
       | TabConstants.Tab_ShopDetails => Some "Shop Details"%string
       | TabConstants.Tab_AiAssistant => Some "The Oracle"%string
       end;
     TabConstants.minWidth := fun c =>
       match c with
       | TabConstants.Tab_InventoryTable => Some 400
       | TabConstants.Tab_ChooseShop => Some 220
       | TabConstants.Tab_AiAssistant => Some 250
       | _ => None
       end |}.

(** A storage holding the text of the specification's example. *)
Definition brokenStorage : gmap string string :=
  {[ TabConstants.STORAGE_KEY := "{not json"%string ]}.

(** ** A sample layout and width policy *)

(** Equal integer shares, for the sample runs. *)
Definition evenShares (n : nat) : list string :=
  replicate n (pretty (100 / n) +:+ "%")%string.

Definition samplePolicy : LayoutStore.WidthPolicy :=
  {| LayoutStore.afterRemoval := fun _ ws => evenShares (length ws - 1);
     LayoutStore.afterInsertion := fun _ ws => evenShares (S (length ws)) |}.

Definition panel (key : string) (c : TabConstants.Component) : LayoutStore.Panel :=
  {| LayoutStore.id := key; LayoutStore.typeTag := c;
     LayoutStore.panelMinWidth := 200 |}.

(** One group holding three panels. *)
Definition threePanels : LayoutStore.Layout :=
  {| LayoutStore.groups :=
       [[panel "A" TabConstants.Tab_Parameters;
         panel "B" TabConstants.Tab_InventoryTable;
         panel "C" TabConstants.Tab_ChooseShop]];
     LayoutStore.widths := ["100%"%string] |}.

(** ** TabContainer: what the render reads

    [getTabStyle], the effect that keeps the active tab valid and the cleanup
    of [useDebounce]. They read the props and state of the handlers above;
    [tabRefs] maps the index of a mounted tab element to its current bounding
    rectangle. *)

Module TabContainerRender.

Import TabContainer.

(** The style objects [getTabStyle] returns: [{}], [{ visibility: 'hidden' }]
    and the two transforms [translateX(-${tabWidth}px)] and
    [translateX(${tabWidth}px)]. *)
Inductive Style :=
| NoStyle
| Hidden
| TranslateLeft (tabWidth : Q)
| TranslateRight (tabWidth : Q).

(** [draggedTab.key && tabs[index]?.key === draggedTab.key]: the dragged key
    is a non-empty string and the entry at [index] is an element with that
    key. *)
Definition isDraggedEntry (entry : option Tab) (draggedKey : option string)
  : bool :=
  match draggedKey with
  | Some k =>
      negb (String.eqb k "")
      && match entry with
         | Some (TabElement _ key) => bool_decide (key = Some k)
         | _ => false
         end
  | None => false
  end.

(** [tabs.some(tab => tab.key === draggedTab.key)]. Reading [key] off a
    [null] or [undefined] entry throws: [None]. *)
Fixpoint someHasKey (draggedKey : option string) (l : list Tab) : option bool :=
  match l with
  | [] => Some false
  | TabElement _ key :: rest =>
      if bool_decide (key = draggedKey) then Some true
      else someHasKey draggedKey rest
  | _ :: _ => None
  end.

(** The two range tests at the end of [getTabStyle]. *)
Definition shiftStyle (draggedTabIndex dropIndex index : nat) (tabWidth : Q)
  : Style :=
  if Nat.ltb draggedTabIndex dropIndex then
    if Nat.ltb draggedTabIndex index && Nat.leb index dropIndex
    then TranslateLeft tabWidth else NoStyle
  else if Nat.ltb dropIndex draggedTabIndex then
    if Nat.leb dropIndex index && Nat.ltb index draggedTabIndex
    then TranslateRight tabWidth else NoStyle
  else NoStyle.

(** [getTabStyle(index)]; [None] where it throws a [TypeError]. *)
Definition getTabStyle (p : Props) (s : State) (tabRefs : gmap nat DOMRect)
  (index : nat) : option Style :=
  match draggedTabIndex p, dropIndex s, draggedTab p with
  | None, _, _ | _, None, _ | _, _, TabNull => Some NoStyle
  | Some dragged, Some drop, draggedTab =>
      match originalPositions s with
      | [] => Some NoStyle
      | _ :: _ =>
          match draggedTab with
          | TabElement _ draggedKey =>
              if isDraggedEntry (tabs p !! index) draggedKey then Some Hidden
              else
                match tabRefs !! index with
                | None => Some NoStyle
                | Some _ =>
                    let tabWidth := match tabRefs !! dragged with
                                    | Some draggedRect => rect_width draggedRect
                                    | None => 0%Q
                                    end in
                    match someHasKey draggedKey (tabs p) with
                    | None => None
                    | Some false => Some NoStyle
                    | Some true => Some (shiftStyle dragged drop index tabWidth)
                    end
                end
          | _ => None
          end
      end
  end.


(** The cleanup of [useDebounce], run when the container unmounts. *)
Definition debounceCleanup (s : State) (b : Browser) : Browser :=
  match liveHandle (timeoutRef s) with
  | Some id => clearTimeout id b
  | None => b
  end.

End TabContainerRender.

(** ** Derived notions for the further properties *)

(** Where the style of a tab puts it: one place to the left, one to the
    right, or where it is. *)
Definition displacedIndex (style : TabContainerRender.Style) (index : nat) : nat :=
  match style with
  | TabContainerRender.TranslateLeft _ => index - 1
  | TabContainerRender.TranslateRight _ => index + 1
  | _ => index
  end.

(** The key of an entry of [tabs]; [None] for [null] and [undefined]. *)
Definition entryKey (t : TabContainer.Tab) : option (option string) :=
  match t with
  | TabContainer.TabElement _ key => Some key
  | _ => None
  end.


(** The pending timeouts are those of this container's [useDebounce]: none,
    or the one its ref holds. *)
Definition ownsPending (s : TabContainer.State) (b : TabContainer.Browser)
  : Prop :=
  0 < TabContainer.nextTimer b
  /\ (TabContainer.pending b = []
      \/ exists id at_ arg,
           TabContainer.pending b = [(id, (at_, arg))]
           /\ TabContainer.timeoutRef s = Some id /\ 0 < id).

(** A drag of the first of [twoTabs] with the drop index at the end, both tab
    elements mounted. *)
Definition draggingFirstProps : TabContainer.Props :=
  {| TabContainer.tabs := twoTabs; TabContainer.groupIndex := 0;
     TabContainer.draggedTab := plainTab "Tab_Parameters" "Tab_Parameters-0";
     TabContainer.draggedTabIndex := Some 0;
     TabContainer.dropIndicators := TabContainer.noIndicators |}.

Definition draggingToEnd : TabContainer.State :=
  TabContainer.set_dropIndex (Some 2) twoTabsDragging.

Definition twoTabRefs : gmap nat DOMRect :=
  list_to_map (zip (seq 0 2) twoTabRects).

(** Every entry of a tab list is an element (none is [null] or
    [undefined]). *)
Definition allElements (l : list TabContainer.Tab) : Prop :=
  forall j t, l !! j = Some t -> is_Some (entryKey t).

(** A second group, which does not hold the dragged tab. *)
Definition otherGroupProps : TabContainer.Props :=
  {| TabContainer.tabs := [plainTab "Tab_ChooseShop" "Tab_ChooseShop-0"];
     TabContainer.groupIndex := 1;
     TabContainer.draggedTab := plainTab "Tab_Parameters" "Tab_Parameters-0";
     TabContainer.draggedTabIndex := Some 0;
     TabContainer.dropIndicators := TabContainer.noIndicators |}.

(** A group whose first entry is [null], the dragged tab behind it. *)
Definition holedProps : TabContainer.Props :=
  {| TabContainer.tabs :=
       [TabContainer.TabNull; plainTab "Tab_Parameters" "Tab_Parameters-0"];
     TabContainer.groupIndex := 0;
     TabContainer.draggedTab := plainTab "Tab_Parameters" "Tab_Parameters-0";
     TabContainer.draggedTabIndex := Some 1;
     TabContainer.dropIndicators := TabContainer.noIndicators |}.

(** The pointer over the header right of both cached centres. *)
Definition pastLastCenter : TabContainer.DragEvent :=
  {| TabContainer.clientX := 35; TabContainer.clientY := 10;
     TabContainer.containerRect := TabContainer.containerRect onFirstCenter;
     TabContainer.headerRect := TabContainer.headerRect onFirstCenter;
     TabContainer.currentGroupIndex := 0;
     TabContainer.allGroupsLength := 1 |}.


(** No split indicator is shown for the container. *)
Definition showsNoIndicator (p : TabContainer.Props) : Prop :=
  TabContainer.showsFor (TabContainer.betweenGroups (TabContainer.dropIndicators p))
    (TabContainer.groupIndex p) = false
  /\ TabContainer.showsFor (TabContainer.leftGroup (TabContainer.dropIndicators p))
       (TabContainer.groupIndex p) = false
  /\ TabContainer.showsFor (TabContainer.rightGroup (TabContainer.dropIndicators p))
       (TabContainer.groupIndex p) = false.

(** ** Derived notions for the stored layout *)

(** The document entry the saving effect writes for an element whose type is
    found by the lookup. *)
Definition entryOf (el : ShopGeneratorEffect.Element) : json :=
  TabConstants.tabEntry (TabConstants.functionName (ShopGeneratorEffect.el_type el))
    (ShopGeneratorEffect.el_key el).

(** The document written for a layout. *)
Definition savedDocument (tabGroups : list (list ShopGeneratorEffect.Element))
  (flexBasis : list json) : json :=
  JObj [("groups"%string, JArr (map JArr (map (map entryOf) tabGroups)));
        ("widths"%string, JArr flexBasis)].

(** An element as [createTabElement] makes it: [props.type] names the
    element's own component and carries its minimum width. *)
Definition madeByCreateTabElement `{TabConstants.Statics}
  (el : ShopGeneratorEffect.Element) : Prop :=
  ShopGeneratorEffect.props_type_name el
  = TabConstants.functionName (ShopGeneratorEffect.el_type el)
  /\ ShopGeneratorEffect.props_type_minWidth el
     = ShopGeneratorEffect.minWidthOr200 (ShopGeneratorEffect.el_type el).

(** The type and key strings of a document entry. *)
Definition entryStrings (tab : json) : string * string :=
  (TabConstants.stringOf (prop "type" tab), TabConstants.stringOf (prop "key" tab)).

(** A layout of two groups, as the loader makes it. *)
Definition twoGroupLayout : list (list ShopGeneratorEffect.Element) :=
  [[{| ShopGeneratorEffect.el_type := TabConstants.Tab_ChooseShop;
       ShopGeneratorEffect.el_key := "Tab_ChooseShop-0";
       ShopGeneratorEffect.props_type_name := "Tab_ChooseShop";
       ShopGeneratorEffect.props_type_minWidth := 220 |}];
   [{| ShopGeneratorEffect.el_type := TabConstants.Tab_Parameters;
       ShopGeneratorEffect.el_key := "Tab_Parameters-0";
       ShopGeneratorEffect.props_type_name := "Tab_Parameters";
       ShopGeneratorEffect.props_type_minWidth := 200 |};
    {| ShopGeneratorEffect.el_type := TabConstants.Tab_AiAssistant;
       ShopGeneratorEffect.el_key := "Tab_AiAssistant-0";
       ShopGeneratorEffect.props_type_name := "Tab_AiAssistant";
       ShopGeneratorEffect.props_type_minWidth := 250 |}]].

Definition twoGroupWidths : list json := [JStr "30%"; JStr "100%"].

(** A static table in which [Tab_Parameters] has no display name. *)
Definition staticsWithoutParametersName : TabConstants.Statics :=
  {| TabConstants.displayName := fun c =>
       match c with
       | TabConstants.Tab_Parameters => None
       | _ => @TabConstants.displayName sampleStatics c
       end;
     TabConstants.minWidth := @TabConstants.minWidth sampleStatics |}.

(** The shape of a tab state: a group at least, no empty group, one width
    per group. *)
Definition wellShaped (st : ShopGeneratorEffect.TabState) : Prop :=
  ShopGeneratorEffect.groups st <> []
  /\ Forall (fun g => g <> []) (ShopGeneratorEffect.groups st)
  /\ length (ShopGeneratorEffect.widths st)
     = length (ShopGeneratorEffect.groups st).

(** * Properties *)

(** ** Comparisons on coordinates *)

Lemma Qltb_lt (a b : Q) : Qltb a b = true <-> (a < b)%Q.
Proof.
  unfold Qltb. rewrite negb_true_iff.
  split; intros Hab.
  - apply Qnot_le_lt. intros Hle. apply Qle_bool_iff in Hle. congruence.
  - destruct (Qle_bool b a) eqn:E; [|reflexivity].
    apply Qle_bool_iff in E. exfalso. apply (Qlt_not_le _ _ Hab E).
Qed.

Lemma Qltb_ge (a b : Q) : Qltb a b = false <-> (b <= a)%Q.
Proof.
  unfold Qltb. rewrite negb_false_iff. apply Qle_bool_iff.
Qed.

(** ** Split indicators computed by handleDragOver *)

Section Indicators.

Import TabContainer.

(** Both edges are within the threshold only in a container narrower than
    twice the threshold. *)
Lemma both_edges_near_narrow (e : DragEvent) :
  Qltb (distanceFromLeft e) edgeThreshold = true ->
  Qltb (distanceFromRight e) edgeThreshold = true ->
  (containerWidth e < 80)%Q.
Proof.
  rewrite !Qltb_lt.
  unfold distanceFromLeft, distanceFromRight, edgeThreshold, containerWidth.
  intros Hl Hr. lra.
Qed.

Lemma armedCount_arm (a b c : bool) (g : nat) :
  armedCount {| leftGroup := arm a g; rightGroup := arm b g;
                betweenGroups := arm c g |}
  = Nat.b2n a + Nat.b2n b + Nat.b2n c.
Proof. by destruct a, b, c. Qed.

(** The pending timeout left by a debounced call is the one just set. *)
Lemma debounced_schedules (i : Indicators) (s : State) (b : Browser) :
  exists id,
    last (pending (debouncedDropIndicatorChange i s b).2) = Some (id, (now b + 50, i))
    /\ timeoutRef (debouncedDropIndicatorChange i s b).1 = Some id.
Proof.
  unfold debouncedDropIndicatorChange, debouncedCallback.
  destruct (liveHandle (timeoutRef s)) as [h|]; simpl;
    eexists; (split; [apply last_snoc | reflexivity]).
Qed.

End Indicators.

(** C1, as stated, fails: in a sole group 60px wide a drag-over inside the
    vertical bounds schedules an indicator state with both [leftGroup] and
    [rightGroup] non-null, and the debounce delivers it 50 ms later. *)
Lemma two_indicators_armed_in_narrow_group :
  let out := TabContainer.handleDragOver twoTabProps twoTabsDragging
               freshBrowser narrowSoleGroup in
  TabContainer.insideVertically narrowSoleGroup = true
  /\ (TabContainer.elapse 50 (TabContainer.browser out)).2
     = [TabContainer.onDropIndicatorChange
          {| TabContainer.leftGroup := Some 0;
             TabContainer.rightGroup := Some 0;
             TabContainer.betweenGroups := None |}]
  /\ ~ TabContainer.armedCount
         (TabContainer.newIndicators 0 narrowSoleGroup) <= 1.
Proof.
  split; [reflexivity|]. split; [vm_compute; reflexivity|].
  vm_compute. lia.
Qed.

(** C1, amended: a drag-over inside the vertical bounds schedules exactly the
    state [newIndicators]; that state never has all three fields non-null,
    has none over the header, and has at most one whenever the container is
    at least 80px wide (twice the edge threshold). *)
Theorem indicators_at_most_one_when_wide
  (p : TabContainer.Props) (s : TabContainer.State) (b : TabContainer.Browser)
  (e : TabContainer.DragEvent) :
  TabContainer.insideVertically e = true ->
  let ni := TabContainer.newIndicators (TabContainer.groupIndex p) e in
  (exists id,
      last (TabContainer.pending
              (TabContainer.browser (TabContainer.handleDragOver p s b e)))
      = Some (id, (TabContainer.now b + 50, ni)))
  /\ TabContainer.armedCount ni <= 2
  /\ (TabContainer.isOverHeader e = true -> TabContainer.armedCount ni = 0)
  /\ ((80 <= containerWidth e)%Q -> TabContainer.armedCount ni <= 1).
Proof.
  intros Hin ni. split.
  { unfold TabContainer.handleDragOver. rewrite Hin.
    destruct (debounced_schedules ni s b) as (id & Hlast & _).
    fold ni. destruct (TabContainer.debouncedDropIndicatorChange ni s b) as [s1 b1].
    exists id. exact Hlast. }
  subst ni. unfold TabContainer.newIndicators. rewrite armedCount_arm.
  pose proof (both_edges_near_narrow e) as Hnarrow.
  destruct (TabContainer.isOverHeader e), (TabContainer.isFirstGroup e),
    (TabContainer.isLastGroup e),
    (Qltb (TabContainer.distanceFromLeft e) TabContainer.edgeThreshold),
    (Qltb (TabContainer.distanceFromRight e) TabContainer.edgeThreshold);
    simpl; repeat split; intros; try lia; try discriminate;
    specialize (Hnarrow eq_refl eq_refl); lra.
Qed.

Lemma indicators_at_most_one_when_wide_witness :
  TabContainer.insideVertically nearLeftEdge = true
  /\ (80 <= containerWidth nearLeftEdge)%Q
  /\ TabContainer.armedCount (TabContainer.newIndicators 0 nearLeftEdge) <= 1.
Proof.
  assert (Hin : TabContainer.insideVertically nearLeftEdge = true)
    by reflexivity.
  assert (Hw : (80 <= containerWidth nearLeftEdge)%Q)
    by (vm_compute; discriminate).
  split; [exact Hin|]. split; [exact Hw|].
  exact (proj2 (proj2 (proj2
           (indicators_at_most_one_when_wide twoTabProps twoTabsDragging
              freshBrowser nearLeftEdge Hin))) Hw).
Defined.

(** ** The insertion index computed by handleDragOver *)

Section DropIndex.

Import TabContainer.

(** The loop finds the first cached centre strictly right of the pointer,
    given that every centre before [prev] included is not. *)
Lemma scanCenters_firstAbove (x hl : Q) (prev : Position) (rest : list Position)
  (i : nat) :
  Qltb x (center prev - hl) = false ->
  scanCenters x hl prev rest i
  = (fun k => i + k) <$> firstAbove x (map (fun p => (center p - hl)%Q) rest).
Proof.
  revert prev i. induction rest as [|cur rest IH]; intros prev i Hprev; simpl.
  - reflexivity.
  - apply Qltb_ge in Hprev. apply Qle_bool_iff in Hprev. rewrite Hprev. simpl.
    destruct (Qltb x (center cur - hl)) eqn:Hcur; simpl.
    + f_equal. lia.
    + rewrite (IH cur (S i) Hcur).
      destruct (firstAbove x _); simpl; [f_equal; lia | reflexivity].
Qed.

Lemma indexFromPositions_firstAbove (n : nat) (positions : list Position)
  (e : DragEvent) :
  indexFromPositions n positions e
  = Nat.min (default n (firstAbove (localX e) (localCenters positions e))) n.
Proof.
  unfold indexFromPositions, localCenters, localX.
  destruct positions as [|first rest]; simpl; [reflexivity|].
  destruct (Qltb _ (center first - _)) eqn:Hfirst; simpl; [reflexivity|].
  rewrite (scanCenters_firstAbove _ _ first rest 1 Hfirst).
  destruct (firstAbove _ _); reflexivity.
Qed.

End DropIndex.

Lemma firstAbove_none (x : Q) (centers : list Q) :
  Forall (fun c => (c <= x)%Q) centers -> firstAbove x centers = None.
Proof.
  induction 1 as [|c rest Hc _ IH]; simpl; [reflexivity|].
  apply Qltb_ge in Hc. rewrite Hc, IH. reflexivity.
Qed.

(** C4, as stated, fails: with cached centres at 10 and 30 and the pointer
    over the header at local x = 10, the first centre that is at least x is
    at position 0, but the handler sets the drop index to 1. *)
Lemma index_on_a_center_is_the_next_position :
  let p := twoTabProps in
  TabContainer.insideVertically onFirstCenter = true
  /\ specInsertionIndex 2 (TabContainer.originalPositions twoTabsDragging)
       onFirstCenter = 0
  /\ TabContainer.dropIndex
       (TabContainer.state
          (TabContainer.handleDragOver p twoTabsDragging freshBrowser onFirstCenter))
     = Some 1
  /\ TabContainer.newDropIndex p twoTabsDragging onFirstCenter
     <> specInsertionIndex (length (TabContainer.tabs p))
          (TabContainer.originalPositions twoTabsDragging) onFirstCenter.
Proof.
  repeat split; try reflexivity. vm_compute. discriminate.
Qed.

(** C4, amended: a drag-over inside the vertical bounds sets the drop index
    to [newDropIndex]. When no split indicator is armed this is the first
    position whose cached centre is strictly right of the pointer in the
    header's coordinates, capped at the tab count, and the tab count when no
    centre is; it is 0 left of the first centre. When a split indicator is
    armed it is 0. *)
Theorem drop_index_is_first_center_right_of_pointer
  (p : TabContainer.Props) (s : TabContainer.State) (b : TabContainer.Browser)
  (e : TabContainer.DragEvent) :
  TabContainer.insideVertically e = true ->
  let n := length (TabContainer.tabs p) in
  let centers := localCenters (TabContainer.originalPositions s) e in
  let armed := TabContainer.armedCount
                 (TabContainer.newIndicators (TabContainer.groupIndex p) e) in
  TabContainer.dropIndex (TabContainer.state (TabContainer.handleDragOver p s b e))
  = Some (TabContainer.newDropIndex p s e)
  /\ (armed = 0 ->
      TabContainer.newDropIndex p s e
      = Nat.min (default n (firstAbove (localX e) centers)) n)
  /\ (armed = 0 -> forall c rest, centers = c :: rest -> (localX e < c)%Q ->
      TabContainer.newDropIndex p s e = 0)
  /\ (armed = 0 -> Forall (fun c => (c <= localX e)%Q) centers ->
      TabContainer.newDropIndex p s e = n)
  /\ (armed <> 0 -> TabContainer.newDropIndex p s e = 0).
Proof.
  intros Hin n centers armed.
  assert (Hidx : armed = 0 ->
            TabContainer.newDropIndex p s e
            = Nat.min (default n (firstAbove (localX e) centers)) n).
  { subst armed. unfold TabContainer.newDropIndex, TabContainer.armedCount.
    intros H0.
    destruct (TabContainer.armed (TabContainer.leftGroup _)),
      (TabContainer.armed (TabContainer.rightGroup _)),
      (TabContainer.armed (TabContainer.betweenGroups _)); simpl in H0;
      try discriminate.
    rewrite andb_false_r. apply indexFromPositions_firstAbove. }
  split; [|split; [exact Hidx|split; [|split]]].
  - unfold TabContainer.handleDragOver. rewrite Hin.
    destruct (TabContainer.debouncedDropIndicatorChange _ s b) as [s1 b1] eqn:Hd.
    assert (Hs1 : TabContainer.dropIndex s1 = TabContainer.dropIndex s).
    { unfold TabContainer.debouncedDropIndicatorChange,
        TabContainer.debouncedCallback in Hd.
      destruct (TabContainer.liveHandle _); simpl in Hd;
        injection Hd as <- _; reflexivity. }
    case_bool_decide as Hsame; simpl; [congruence | reflexivity].
  - intros H0 c rest Hc Hlt. rewrite (Hidx H0), Hc. simpl.
    apply Qltb_lt in Hlt. rewrite Hlt. reflexivity.
  - intros H0 Hall. rewrite (Hidx H0).
    rewrite (firstAbove_none _ _ Hall). simpl. lia.
  - subst armed. unfold TabContainer.newDropIndex.
    intros Hne.
    destruct (TabContainer.isOverHeader e) eqn:Hover.
    + exfalso. apply Hne.
      unfold TabContainer.newIndicators. rewrite armedCount_arm, Hover.
      reflexivity.
    + unfold TabContainer.armedCount in Hne.
      destruct (TabContainer.armed (TabContainer.leftGroup _)),
        (TabContainer.armed (TabContainer.rightGroup _)),
        (TabContainer.armed (TabContainer.betweenGroups _));
        try reflexivity.
      exfalso. apply Hne. reflexivity.
Qed.

Lemma drop_index_is_first_center_right_of_pointer_witness :
  let p := twoTabProps in
  TabContainer.insideVertically onFirstCenter = true
  /\ TabContainer.dropIndex
       (TabContainer.state
          (TabContainer.handleDragOver p twoTabsDragging freshBrowser onFirstCenter))
     = Some (TabContainer.newDropIndex p twoTabsDragging onFirstCenter).
Proof.
  intros p.
  assert (Hin : TabContainer.insideVertically onFirstCenter = true) by reflexivity.
  split; [exact Hin|].
  exact (proj1 (drop_index_is_first_center_right_of_pointer p twoTabsDragging
                  freshBrowser onFirstCenter Hin)).
Defined.

(** ** Reordering inside a group *)

Section Reorder.

Import TabContainer.

Lemma spliceStart_valid (n i : nat) :
  i < n -> spliceStart n (Num (Z.of_nat i)) = i.
Proof.
  intros Hi. unfold spliceStart.
  destruct (Z.ltb_spec (Z.of_nat i) 0) as [Hneg|_]; [lia|].
  rewrite Nat2Z.id. lia.
Qed.

(** Taking the element at [i] out and putting it back at [i] changes
    nothing. *)
Lemma reinsert_same_place (l : list Tab) (i : nat) (x : Tab) :
  l !! i = Some x ->
  spliceIn i x (delete i l) = l.
Proof.
  intros Hx. unfold spliceIn. rewrite delete_take_drop.
  pose proof (lookup_lt_Some _ _ _ Hx) as Hlt.
  rewrite take_app_length' by (rewrite length_take; lia).
  rewrite drop_app_length' by (rewrite length_take; lia).
  by apply take_drop_middle.
Qed.

(** After an insertion at [j] the element sits at [j], and removing it there
    gives the list back. *)
Lemma spliceIn_lookup (l : list Tab) (j : nat) (x : Tab) :
  j <= length l -> spliceIn j x l !! j = Some x.
Proof.
  intros Hj. unfold spliceIn.
  rewrite lookup_app_r by (rewrite length_take; lia).
  rewrite length_take_le by lia. by rewrite Nat.sub_diag.
Qed.

Lemma spliceIn_delete (l : list Tab) (j : nat) (x : Tab) :
  j <= length l -> delete j (spliceIn j x l) = l.
Proof.
  intros Hj. unfold spliceIn.
  rewrite <- (length_take_le l j) at 1 by lia.
  rewrite delete_middle. apply take_drop.
Qed.

Lemma length_spliceIn (l : list Tab) (j : nat) (x : Tab) :
  length (spliceIn j x l) = S (length l).
Proof.
  unfold spliceIn. rewrite length_app. simpl.
  rewrite length_take, length_drop. lia.
Qed.

Lemma reorderedTabs_valid (l : list Tab) (i j : nat) (x : Tab) :
  l !! i = Some x ->
  reorderedTabs l (Num (Z.of_nat i)) j = spliceIn j x (delete i l).
Proof.
  intros Hx. pose proof (lookup_lt_Some _ _ _ Hx) as Hlt.
  unfold reorderedTabs, spliceOut.
  rewrite (spliceStart_valid _ _ Hlt), Hx. reflexivity.
Qed.

Lemma spliceIn_permutation (l : list Tab) (j : nat) (x : Tab) :
  spliceIn j x l ≡ₚ x :: l.
Proof.
  unfold spliceIn. rewrite <- (take_drop j l) at 3. solve_Permutation.
Qed.

(** The array passed on by the within-group branch holds the tabs of the
    group, each once more; when nothing was removed ([sourceIndex] beyond the
    end) an [undefined] entry comes on top. *)
Lemma reorderedTabs_permutation (l : list Tab) (sourceIndex : jsnum) (d : nat) :
  reorderedTabs l sourceIndex d ≡ₚ l
  \/ reorderedTabs l sourceIndex d ≡ₚ TabUndefined :: l.
Proof.
  unfold reorderedTabs, spliceOut. rewrite spliceIn_permutation.
  destruct (l !! spliceStart (length l) sourceIndex) as [x|] eqn:Hx; simpl.
  - left. rewrite delete_take_drop, Permutation_middle.
    by rewrite (take_drop_middle l _ x Hx).
  - right. apply lookup_ge_None in Hx.
    rewrite delete_take_drop, take_ge, drop_ge by lia.
    by rewrite app_nil_r.
Qed.

Lemma reorderedTabs_valid_permutation (l : list Tab) (i d : nat) :
  i < length l -> reorderedTabs l (Num (Z.of_nat i)) d ≡ₚ l.
Proof.
  intros Hi. destruct (lookup_lt_is_Some_2 l i Hi) as [x Hx].
  rewrite (reorderedTabs_valid l i d x Hx), spliceIn_permutation.
  rewrite delete_take_drop, Permutation_middle.
  by rewrite (take_drop_middle l _ x Hx).
Qed.

End Reorder.

(** C8: moving the tab at a valid index [i] to a valid index [j] and then the
    tab at [j] back to [i] restores the order of the group; and moving the
    first of three tabs to index 2 gives [B, C, A]. *)
Theorem reorder_there_and_back (l : list TabContainer.Tab) (i j : nat) :
  i < length l -> j < length l -> i <> j ->
  TabContainer.reorderedTabs
    (TabContainer.reorderedTabs l (Num (Z.of_nat i)) j) (Num (Z.of_nat j)) i
  = l
  /\ forall A B C : TabContainer.Tab,
       TabContainer.reorderedTabs [A; B; C] (Num 0) 2 = [B; C; A].
Proof.
  intros Hi Hj _. split; [|reflexivity].
  destruct (lookup_lt_is_Some_2 l i Hi) as [x Hx].
  rewrite (reorderedTabs_valid l i j x Hx).
  assert (Hlen : j <= length (delete i l)) by (rewrite length_delete; eauto; lia).
  rewrite (reorderedTabs_valid _ j i x (spliceIn_lookup _ _ _ Hlen)).
  rewrite spliceIn_delete by exact Hlen.
  by apply reinsert_same_place.
Qed.

Lemma reorder_there_and_back_witness :
  TabContainer.reorderedTabs
    (TabContainer.reorderedTabs twoTabs (Num (Z.of_nat 0)) 1) (Num (Z.of_nat 1)) 0
  = twoTabs.
Proof.
  refine (proj1 (reorder_there_and_back twoTabs 0 1 _ _ _));
    unfold twoTabs; simpl; lia.
Defined.

(** ** The drop handler *)

Section Drop.

Import TabContainer.
Context `{Builtins}.

(** A payload whose [tabInfo] entry does not parse: [JSON.parse] throws
    before any callback other than [preventDefault] ran, and neither the
    state nor the browser changed. *)
Lemma handleDrop_unparsable (p : Props) (s : State) (b : Browser) :
  JSON_parse (getData "tabInfo" b) = None ->
  handleDrop p s b
  = {| state := s; browser := b; calls := [preventDefault];
       completion := Threw |}.
Proof. intros Hparse. unfold handleDrop. by rewrite Hparse. Qed.

(** What a drop with a parsable [tabInfo] calls, branch by branch. *)
Lemma handleDrop_calls (p : Props) (s : State) (b : Browser) (tabInfo : json) :
  JSON_parse (getData "tabInfo" b) = Some tabInfo ->
  calls (handleDrop p s b)
  = preventDefault :: clearIndicators ::
    (if showsFor (betweenGroups (dropIndicators p)) (groupIndex p) then
       [onTabSplit tabInfo (parseInt (getData "groupIndex" b))
          (AtGroup (groupIndex p))]
     else if showsFor (leftGroup (dropIndicators p)) (groupIndex p)
             || showsFor (rightGroup (dropIndicators p)) (groupIndex p) then
       [onTabSplit tabInfo (parseInt (getData "groupIndex" b))
          (AtEdge (showsFor (rightGroup (dropIndicators p)) (groupIndex p)))]
     else if negb (strict_eq (parseInt (getData "groupIndex" b))
                     (Num (Z.of_nat (groupIndex p)))) then
       [onTabMove_across (draggedTab p)
          (default (length (tabs p)) (dropIndex s))
          (parseInt (getData "groupIndex" b)) (groupIndex p)]
     else match dropIndex s with
          | Some d =>
              if differsFrom (parseInt (getData "text/plain" b)) (Some d)
              then [onTabMove_within
                      (reorderedTabs (tabs p) (parseInt (getData "text/plain" b)) d)
                      (groupIndex p)]
              else []
          | None => []
          end).
Proof.
  intros Hparse. unfold handleDrop. rewrite Hparse.
  destruct (showsFor (betweenGroups _) _); [reflexivity|].
  destruct (showsFor (leftGroup _) _ || showsFor (rightGroup _) _);
    [reflexivity|].
  destruct (negb (strict_eq _ _)); [reflexivity|].
  destruct (dropIndex s) as [d|]; [|reflexivity].
  destruct (differsFrom _ _); [|reflexivity].
  unfold reorderedTabs. destruct (spliceOut _ _) as [movedTab newTabs].
  reflexivity.
Qed.

Lemma showsFor_Some (g : nat) : showsFor (Some g) g = true.
Proof. simpl. apply Nat.eqb_refl. Qed.

End Drop.

(** C2: a drop handled while [betweenGroups] names the target group calls no
    within-group reorder, whatever the payload; and a drop whose payload
    parses makes exactly the calls of the first branch that matches, in the
    order: between-groups split, edge split, cross-group move, within-group
    reorder, nothing. At most one layout mutation is called. *)
Theorem drop_takes_first_matching_action `{Builtins}
  (p : TabContainer.Props) (s : TabContainer.State) (b : TabContainer.Browser) :
  let g := TabContainer.groupIndex p in
  let out := TabContainer.handleDrop p s b in
  let src := parseInt (TabContainer.getData "groupIndex" b) in
  let idx := parseInt (TabContainer.getData "text/plain" b) in
  let between := TabContainer.showsFor
                   (TabContainer.betweenGroups (TabContainer.dropIndicators p)) g in
  let onLeft := TabContainer.showsFor
                  (TabContainer.leftGroup (TabContainer.dropIndicators p)) g in
  let onRight := TabContainer.showsFor
                   (TabContainer.rightGroup (TabContainer.dropIndicators p)) g in
  let before := [TabContainer.preventDefault; TabContainer.clearIndicators] in
  (TabContainer.betweenGroups (TabContainer.dropIndicators p) = Some g ->
   Forall (fun c => TabContainer.isReorder c = false) (TabContainer.calls out))
  /\ length (List.filter TabContainer.isLayoutMutation (TabContainer.calls out)) <= 1
  /\ forall tabInfo,
       JSON_parse (TabContainer.getData "tabInfo" b) = Some tabInfo ->
       (between = true ->
        TabContainer.calls out
        = before ++ [TabContainer.onTabSplit tabInfo src (TabContainer.AtGroup g)])
       /\ (between = false -> onLeft || onRight = true ->
           TabContainer.calls out
           = before ++ [TabContainer.onTabSplit tabInfo src
                          (TabContainer.AtEdge onRight)])
       /\ (between = false -> onLeft || onRight = false ->
           strict_eq src (Num (Z.of_nat g)) = false ->
           TabContainer.calls out
           = before ++ [TabContainer.onTabMove_across (TabContainer.draggedTab p)
                          (default (length (TabContainer.tabs p))
                             (TabContainer.dropIndex s)) src g])
       /\ (between = false -> onLeft || onRight = false ->
           strict_eq src (Num (Z.of_nat g)) = true ->
           forall d, TabContainer.dropIndex s = Some d ->
                     strict_eq idx (Num (Z.of_nat d)) = false ->
           TabContainer.calls out
           = before ++ [TabContainer.onTabMove_within
                          (TabContainer.reorderedTabs (TabContainer.tabs p) idx d) g])
       /\ (between = false -> onLeft || onRight = false ->
           strict_eq src (Num (Z.of_nat g)) = true ->
           (TabContainer.dropIndex s = None
            \/ exists d, TabContainer.dropIndex s = Some d
                         /\ strict_eq idx (Num (Z.of_nat d)) = true) ->
           TabContainer.calls out = before).
Proof.
  intros g out src idx between onLeft onRight before.
  destruct (JSON_parse (TabContainer.getData "tabInfo" b)) as [tabInfo|] eqn:Hparse.
  2:{ subst out. rewrite (handleDrop_unparsable p s b Hparse). simpl.
      split; [|split; [lia|discriminate]].
      intros _. repeat constructor. }
  pose proof (handleDrop_calls p s b tabInfo Hparse) as Hcalls.
  fold g src idx between onLeft onRight out in Hcalls.
  split; [|split].
  - intros Hbetween. rewrite Hcalls.
    subst between. rewrite Hbetween, showsFor_Some. repeat constructor.
  - rewrite Hcalls.
    destruct between; [simpl; lia|].
    destruct (onLeft || onRight); [simpl; lia|].
    destruct (negb (strict_eq src _)); [simpl; lia|].
    destruct (TabContainer.dropIndex s); [|simpl; lia].
    destruct (TabContainer.differsFrom _ _); simpl; lia.
  - intros tabInfo' [= <-]. rewrite Hcalls.
    repeat split.
    + intros ->. reflexivity.
    + intros -> ->. reflexivity.
    + intros -> -> ->. reflexivity.
    + intros -> -> -> d -> Hd. simpl. fold idx. rewrite Hd. reflexivity.
    + intros -> -> -> [->|(d & -> & Hd)]; simpl; [reflexivity|].
      fold idx. rewrite Hd. reflexivity.
Qed.

Lemma drop_takes_first_matching_action_witness :
  let p := {| TabContainer.tabs := twoTabs; TabContainer.groupIndex := 1;
              TabContainer.draggedTab := TabContainer.TabNull;
              TabContainer.draggedTabIndex := None;
              TabContainer.dropIndicators :=
                {| TabContainer.leftGroup := None;
                   TabContainer.rightGroup := None;
                   TabContainer.betweenGroups := Some 1 |} |} in
  TabContainer.betweenGroups (TabContainer.dropIndicators p) = Some 1
  /\ Forall (fun c => TabContainer.isReorder c = false)
       (TabContainer.calls
          (@TabContainer.handleDrop Reference.builtins p idleState onlyTabInfo)).
Proof.
  intros p. split; [reflexivity|].
  exact (proj1 (@drop_takes_first_matching_action Reference.builtins p idleState
                  onlyTabInfo) eq_refl).
Defined.

(** C9, as stated, fails: a payload without the [text/plain] and
    [groupIndex] entries is dropped on the group the drag started in; the
    handler does not abort but calls the cross-group move. *)
Lemma drop_without_groupIndex_still_moves :
  let out := @TabContainer.handleDrop Reference.builtins twoTabProps idleState
               onlyTabInfo in
  TabContainer.dataStore onlyTabInfo !! "groupIndex"%string = None
  /\ TabContainer.dataStore onlyTabInfo !! "text/plain"%string = None
  /\ TabContainer.completion out = TabContainer.Returned
  /\ TabContainer.calls out
     = [TabContainer.preventDefault; TabContainer.clearIndicators;
        TabContainer.onTabMove_across TabContainer.TabNull 2 NaN 0]
  /\ existsb TabContainer.isLayoutMutation (TabContainer.calls out) = true.
Proof.
  vm_compute. repeat split.
Qed.

(** C9, amended: when the [tabInfo] entry is missing or is not valid JSON the
    drop handler throws at [JSON.parse]: it has called [preventDefault] only,
    no layout mutation, and has changed neither its state nor the browser.
    The drag-end handler, which runs however the drop went, resets the drop
    index, calls [onDragEnd] and removes [window.__draggedTab]. *)
Theorem drop_with_unparsable_tabInfo_aborts `{Builtins}
  (p : TabContainer.Props) (s : TabContainer.State) (b : TabContainer.Browser) :
  JSON_parse (TabContainer.getData "tabInfo" b) = None ->
  let out := TabContainer.handleDrop p s b in
  TabContainer.completion out = TabContainer.Threw
  /\ TabContainer.calls out = [TabContainer.preventDefault]
  /\ existsb TabContainer.isLayoutMutation (TabContainer.calls out) = false
  /\ TabContainer.state out = s
  /\ TabContainer.browser out = b
  /\ forall p', let fin := TabContainer.handleDragEnd p'
                             (TabContainer.state out) (TabContainer.browser out) in
       TabContainer.calls fin = [TabContainer.onDragEnd]
       /\ TabContainer.completion fin = TabContainer.Returned
       /\ TabContainer.dropIndex (TabContainer.state fin) = None
       /\ TabContainer.window__draggedTab (TabContainer.browser fin) = None.
Proof.
  intros Hparse out. subst out. rewrite (handleDrop_unparsable p s b Hparse).
  simpl. repeat split; try reflexivity;
    unfold TabContainer.handleDragEnd, TabContainer.clearEdgeHold;
    simpl; destruct (TabContainer.liveHandle _); reflexivity.
Qed.

Lemma drop_with_unparsable_tabInfo_aborts_witness :
  JSON_parse (Builtins := Reference.builtins)
    (TabContainer.getData "tabInfo" freshBrowser) = None
  /\ TabContainer.calls
       (@TabContainer.handleDrop Reference.builtins twoTabProps idleState
          freshBrowser)
     = [TabContainer.preventDefault].
Proof.
  assert (Hparse : JSON_parse (Builtins := Reference.builtins)
                     (TabContainer.getData "tabInfo" freshBrowser) = None)
    by (vm_compute; reflexivity).
  split; [exact Hparse|].
  exact (proj1 (proj2 (@drop_with_unparsable_tabInfo_aborts Reference.builtins
                         twoTabProps idleState freshBrowser Hparse))).
Defined.

(** ** Starting a drag *)

(** C10: [handleDragStart] on a tab that is [null], [undefined] or has no
    type returns at once: no position is cached, [onDragStart] is not called,
    the transfer store is untouched. A drop that follows finds no [tabInfo]
    entry, throws at [JSON.parse] of the empty string and calls no layout
    mutation. *)
Theorem drag_start_without_type_is_noop `{Builtins}
  (p : TabContainer.Props) (s : TabContainer.State) (b : TabContainer.Browser)
  (tabRects : list DOMRect) (tab : TabContainer.Tab) (index : nat) :
  lacksType tab = true ->
  let out := TabContainer.handleDragStart p s b tabRects tab index in
  TabContainer.state out = s
  /\ TabContainer.browser out = b
  /\ TabContainer.calls out = []
  /\ TabContainer.completion out = TabContainer.Returned
  /\ (JSON_parse "" = None ->
      TabContainer.dataStore b !! "tabInfo"%string = None ->
      forall p' s',
        existsb TabContainer.isLayoutMutation
          (TabContainer.calls
             (TabContainer.handleDrop p' s' (TabContainer.browser out)))
        = false).
Proof.
  intros Hno out.
  assert (Hout : out = {| TabContainer.state := s; TabContainer.browser := b;
                          TabContainer.calls := [];
                          TabContainer.completion := TabContainer.Returned |}).
  { subst out. unfold TabContainer.handleDragStart.
    destruct tab as [| |[ty|] key]; try reflexivity. discriminate. }
  rewrite Hout. simpl. repeat split.
  intros Hempty Hstore p' s'.
  rewrite handleDrop_unparsable; [reflexivity|].
  unfold TabContainer.getData. rewrite Hstore. exact Hempty.
Qed.

Lemma drag_start_without_type_is_noop_witness :
  lacksType TabContainer.TabNull = true
  /\ TabContainer.calls
       (@TabContainer.handleDragStart Reference.builtins twoTabProps idleState
          freshBrowser [] TabContainer.TabNull 0) = [].
Proof.
  split; [reflexivity|].
  exact (proj1 (proj2 (proj2
           (@drag_start_without_type_is_noop Reference.builtins twoTabProps
              idleState freshBrowser [] TabContainer.TabNull 0 eq_refl)))).
Defined.

(** ** The debounced indicator update *)

Section Debounce.

Import TabContainer.

(** No handler assigns [edgeHoldTimeout]: it stays [null]. *)
Lemma edgeHoldTimeout_stays_null (p : Props) (s : State) (b : Browser)
  (e : DragEvent) :
  edgeHoldTimeout s = None ->
  edgeHoldTimeout (state (handleDragOver p s b e)) = None
  /\ edgeHoldTimeout (state (handleDragLeave p s b e)) = None
  /\ edgeHoldTimeout (state (handleDragEnd p s b)) = None.
Proof.
  intros Hnull. repeat split.
  - unfold handleDragOver. destruct (insideVertically e); [|exact Hnull].
    unfold debouncedDropIndicatorChange, debouncedCallback.
    destruct (liveHandle (timeoutRef s)); simpl; case_bool_decide; exact Hnull.
  - unfold handleDragLeave, clearEdgeHold. rewrite Hnull. simpl.
    destruct (isOutsideContainer e); exact Hnull.
  - unfold handleDragEnd, clearEdgeHold. simpl. rewrite Hnull. simpl.
    exact Hnull.
Qed.

(** With [edgeHoldTimeout] null, drag-leave and drag-end clear no timeout:
    what [useDebounce] scheduled stays pending. *)
Lemma leave_and_end_keep_pending (p : Props) (s : State) (b : Browser)
  (e : DragEvent) :
  edgeHoldTimeout s = None ->
  pending (browser (handleDragLeave p s b e)) = pending b
  /\ pending (browser (handleDragEnd p s b)) = pending b.
Proof.
  intros Hnull.
  unfold handleDragLeave, handleDragEnd, clearEdgeHold. simpl.
  rewrite Hnull. simpl. destruct (isOutsideContainer e); split; reflexivity.
Qed.

End Debounce.

(** C3, evaluated on the code: a drag of the first tab starts at time 0 and a
    drag-over near the left edge schedules [leftGroup = 0] for time 50; the
    pointer leaves the container at time 10 and the indicators are cleared;
    nothing cancels the timeout, and at time 50 the stale state is passed to
    [onDropIndicatorChange]. The same happens when the drag ends at time
    10. *)
Theorem stale_indicator_fires_after_leave_and_after_end :
  let first := plainTab "Tab_Parameters" "Tab_Parameters-0" in
  TabContainer.isOutsideContainer leftOfContainer = true
  /\ @deliverAll Reference.builtins twoTabProps
       [DragStart twoTabRects first 0; DragOver nearLeftEdge; Wait 10;
        DragLeave leftOfContainer; Wait 40]
     = [(0, TabContainer.onDragStart first 0);
        (0, TabContainer.preventDefault);
        (10, TabContainer.clearIndicators);
        (50, TabContainer.onDropIndicatorChange leftArmed)]
  /\ @deliverAll Reference.builtins twoTabProps
       [DragStart twoTabRects first 0; DragOver nearLeftEdge; Wait 10;
        DragEnd; Wait 40]
     = [(0, TabContainer.onDragStart first 0);
        (0, TabContainer.preventDefault);
        (10, TabContainer.onDragEnd);
        (50, TabContainer.onDropIndicatorChange leftArmed)].
Proof.
  intros first. split; [reflexivity|]. split; vm_compute; reflexivity.
Qed.

(** ** Loading the stored layout *)

Section Loading.

Import TabConstants.

Lemma forallb_false_elem {A} (f : A -> bool) (l : list A) (x : A) :
  x ∈ l -> f x = false -> forallb f l = false.
Proof.
  intros Hx Hf. destruct (forallb f l) eqn:E; [|reflexivity].
  rewrite forallb_forall in E. rewrite <- Hf. symmetry. apply E.
  by apply list_elem_of_In.
Qed.

Lemma forallb_false_inv {A} (f : A -> bool) (l : list A) :
  forallb f l = false -> exists x, x ∈ l /\ f x = false.
Proof.
  induction l as [|a l IH]; simpl; [discriminate|].
  destruct (f a) eqn:Ha; simpl.
  - intros Hl. destruct (IH Hl) as (x & Hx & Hfx).
    exists x. split; [by right | exact Hfx].
  - intros _. exists a. split; [by left | exact Ha].
Qed.

(** The validation of [isValidSavedState] rejects exactly the documents with
    a violation. *)
Lemma isValidParsed_false_iff (parsed : json) :
  ShopGeneratorRegistry.isValidParsed parsed = false <-> Violation parsed.
Proof.
  unfold ShopGeneratorRegistry.isValidParsed. split.
  - intros Hfalse.
    destruct (isArray (prop "groups" parsed)) eqn:Hg;
      [|by apply groups_not_array].
    destruct (isArray (prop "widths" parsed)) eqn:Hw;
      [|by apply widths_not_array].
    assert (Htruthy : truthy parsed = true).
    { destruct parsed; try discriminate. reflexivity. }
    rewrite Htruthy in Hfalse. simpl in Hfalse.
    apply forallb_false_inv in Hfalse as (group & Hin & Hgroup).
    unfold ShopGeneratorRegistry.isValidGroup in Hgroup.
    destruct (isArray (Some group)) eqn:Harr;
      [|by eapply group_not_array].
    simpl in Hgroup.
    apply forallb_false_inv in Hgroup as (tab & Hint & Htab).
    unfold isTabShaped in Htab.
    destruct (truthy tab && typeof_object tab) eqn:Hobj;
      [|by eapply tab_not_object].
    destruct (isString (prop "type" tab)) eqn:Hty;
      [|by eapply tab_type_not_string].
    destruct (isString (prop "key" tab)) eqn:Hkey;
      [|by eapply tab_key_not_string].
    simpl in Htab. by eapply tab_type_unknown.
  - intros [Hg|Hw|group Hin Harr|group tab Hin Hint Hobj|group tab Hin Hint Hty
            |group tab Hin Hint Hkey|group tab Hin Hint Hknown].
    + rewrite Hg. by rewrite andb_false_r.
    + rewrite Hw. by rewrite andb_false_r.
    + rewrite (forallb_false_elem _ _ group Hin); [by rewrite andb_false_r|].
      unfold ShopGeneratorRegistry.isValidGroup. by rewrite Harr.
    + rewrite (forallb_false_elem _ _ group Hin); [by rewrite andb_false_r|].
      unfold ShopGeneratorRegistry.isValidGroup.
      rewrite (forallb_false_elem _ _ tab Hint); [by rewrite andb_false_r|].
      unfold isTabShaped. by rewrite Hobj.
    + rewrite (forallb_false_elem _ _ group Hin); [by rewrite andb_false_r|].
      unfold ShopGeneratorRegistry.isValidGroup.
      rewrite (forallb_false_elem _ _ tab Hint); [by rewrite andb_false_r|].
      unfold isTabShaped. rewrite Hty. by rewrite andb_false_r.
    + rewrite (forallb_false_elem _ _ group Hin); [by rewrite andb_false_r|].
      unfold ShopGeneratorRegistry.isValidGroup.
      rewrite (forallb_false_elem _ _ tab Hint); [by rewrite andb_false_r|].
      unfold isTabShaped. rewrite Hkey. by rewrite andb_false_r.
    + rewrite (forallb_false_elem _ _ group Hin); [by rewrite andb_false_r|].
      unfold ShopGeneratorRegistry.isValidGroup.
      rewrite (forallb_false_elem _ _ tab Hint); [by rewrite andb_false_r|].
      rewrite Hknown. by rewrite andb_false_r.
Qed.

Lemma tab_checks_split (l : list json) :
  forallb (fun tab => isTabShaped tab && isKnownType (prop "type" tab)) l
  = forallb isTabShaped l
    && forallb (fun tab => isKnownType (prop "type" tab)) l.
Proof.
  induction l as [|t l IHl]; cbn [forallb]; [reflexivity|]. rewrite IHl.
  destruct (isTabShaped t), (isKnownType (prop "type" t)),
    (forallb isTabShaped l); reflexivity.
Qed.

Lemma group_checks_split (gs : list json) :
  forallb ShopGeneratorRegistry.isValidGroup gs
  = forallb (fun group => isArray (Some group)
                          && forallb isTabShaped (items (Some group))) gs
    && forallb (fun group =>
                  forallb (fun tab => isKnownType (prop "type" tab))
                          (items (Some group))) gs.
Proof.
  induction gs as [|group rest IH]; cbn [forallb]; [reflexivity|].
  rewrite IH. unfold ShopGeneratorRegistry.isValidGroup.
  rewrite tab_checks_split.
  generalize (isArray (Some group)) (forallb isTabShaped (items (Some group)))
    (forallb (fun tab => isKnownType (prop "type" tab)) (items (Some group))).
  intros a b c.
  destruct a, b, c, (forallb _ rest), (forallb _ rest); reflexivity.
Qed.

(** The three checks of the loading effect are the same validation, split. *)
Lemma effect_checks_agree (parsed : json) :
  ShopGeneratorRegistry.isValidParsed parsed
  = negb (negb (truthy parsed)
          || negb (isArray (prop "groups" parsed))
          || negb (isArray (prop "widths" parsed)))
    && ShopGeneratorEffect.isValidStructure parsed
    && ShopGeneratorEffect.hasValidTabs parsed.
Proof.
  unfold ShopGeneratorRegistry.isValidParsed,
    ShopGeneratorEffect.isValidStructure, ShopGeneratorEffect.hasValidTabs.
  rewrite group_checks_split.
  destruct (truthy parsed), (isArray (prop "groups" parsed)),
    (isArray (prop "widths" parsed)), (forallb _ _), (forallb _ _);
    reflexivity.
Qed.

Context `{Builtins} `{Statics}.

(** The loading effect gives the default layout for a stored text whose
    document is rejected by the validation. *)
Lemma loadTabState_rejected (localStorage : gmap string string) (blob : string)
  (parsed : json) :
  localStorage !! STORAGE_KEY = Some blob ->
  JSON_parse blob = Some parsed ->
  ShopGeneratorRegistry.isValidParsed parsed = false ->
  ShopGeneratorEffect.loadTabState localStorage
  = ShopGeneratorEffect.DEFAULT_TAB_CONFIG.
Proof.
  intros Hget Hparse Hrej. unfold ShopGeneratorEffect.loadTabState.
  rewrite Hget. destruct (String.eqb blob ""); [reflexivity|].
  rewrite Hparse. rewrite effect_checks_agree in Hrej.
  destruct (negb (truthy parsed) || _ || _); [reflexivity|].
  destruct (ShopGeneratorEffect.isValidStructure parsed); [|reflexivity].
  destruct (ShopGeneratorEffect.hasValidTabs parsed); [|reflexivity].
  discriminate.
Qed.

(** The default layout does not depend on the static table beyond the
    recorded minimum widths: one group, the five tabs, one width. *)
Lemma default_config_shape :
  typesAndKeys (ShopGeneratorEffect.groups ShopGeneratorEffect.DEFAULT_TAB_CONFIG)
  = defaultTypesAndKeys
  /\ ShopGeneratorEffect.widths ShopGeneratorEffect.DEFAULT_TAB_CONFIG
     = [Stored (JStr "100%")].
Proof. split; reflexivity. Qed.

(** [createInitialTabState] reads the storage it has just cleared. *)
Lemma createInitialTabState_default (localStorage : gmap string string) :
  ShopGeneratorRegistry.createInitialTabState localStorage
  = (DEFAULT_TAB_STATE, ∅).
Proof. reflexivity. Qed.

End Loading.

(** C6: a stored text that is not valid JSON, or whose document has a
    structural violation (groups or widths not arrays, a group that is not an
    array, a tab entry that is not an object or lacks a string type or key, a
    type outside the five identifiers), loads as the default layout: the
    loading effect sets the full default configuration (one group with the
    five default tabs, widths ["100%"]), [isValidSavedState] gives [null] for
    it and [createInitialTabState] the default tab state. Both loaders are
    total: the [SyntaxError] is caught. *)
Theorem corrupt_blob_loads_default `{Builtins} `{TabConstants.Statics}
  (localStorage : gmap string string) (blob : string) :
  localStorage !! TabConstants.STORAGE_KEY = Some blob ->
  Corrupt blob ->
  ShopGeneratorEffect.loadTabState localStorage
  = ShopGeneratorEffect.DEFAULT_TAB_CONFIG
  /\ typesAndKeys (ShopGeneratorEffect.groups
                     (ShopGeneratorEffect.loadTabState localStorage))
     = defaultTypesAndKeys
  /\ ShopGeneratorEffect.widths (ShopGeneratorEffect.loadTabState localStorage)
     = [TabConstants.Stored (JStr "100%")]
  /\ ShopGeneratorRegistry.isValidSavedState
       (ShopGeneratorRegistry.Item (Some blob)) = None
  /\ (ShopGeneratorRegistry.createInitialTabState localStorage).1
     = TabConstants.DEFAULT_TAB_STATE.
Proof.
  intros Hget Hcorrupt.
  assert (Hload : ShopGeneratorEffect.loadTabState localStorage
                  = ShopGeneratorEffect.DEFAULT_TAB_CONFIG).
  { destruct Hcorrupt as [Hnone|(parsed & Hparse & Hviol)].
    - unfold ShopGeneratorEffect.loadTabState. rewrite Hget, Hnone.
      by destruct (String.eqb blob "").
    - apply (loadTabState_rejected localStorage blob parsed Hget Hparse).
      by apply isValidParsed_false_iff. }
  rewrite Hload. split; [reflexivity|].
  split; [apply default_config_shape|]. split; [apply default_config_shape|].
  split; [|reflexivity].
  unfold ShopGeneratorRegistry.isValidSavedState.
  destruct (String.eqb blob ""); [reflexivity|].
  destruct Hcorrupt as [Hnone|(parsed & Hparse & Hviol)].
  - by rewrite Hnone.
  - rewrite Hparse. apply isValidParsed_false_iff in Hviol. by rewrite Hviol.
Qed.

Lemma corrupt_blob_loads_default_witness :
  brokenStorage !! TabConstants.STORAGE_KEY = Some "{not json"%string
  /\ Corrupt (B := Reference.builtins) "{not json"
  /\ @ShopGeneratorEffect.loadTabState Reference.builtins sampleStatics
       brokenStorage
     = @ShopGeneratorEffect.DEFAULT_TAB_CONFIG sampleStatics.
Proof.
  assert (Hget : brokenStorage !! TabConstants.STORAGE_KEY
                 = Some "{not json"%string) by (vm_compute; reflexivity).
  assert (Hcorrupt : Corrupt (B := Reference.builtins) "{not json")
    by (left; vm_compute; reflexivity).
  split; [exact Hget|]. split; [exact Hcorrupt|].
  exact (proj1 (@corrupt_blob_loads_default Reference.builtins sampleStatics
                  brokenStorage "{not json"%string Hget Hcorrupt)).
Defined.

(** ** Saving and loading the default layout *)

Section RoundTrip.

Import TabConstants.
Context `{Builtins} `{Statics}.

(** When no two components share a display name, the lookup of the saving
    effect finds the identifier of the element's own component. *)
Lemma matchingType_own_identifier (el : ShopGeneratorEffect.Element) :
  (forall c c', displayName c = displayName c' -> c = c') ->
  ShopGeneratorEffect.matchingType el
  = Some (functionName (ShopGeneratorEffect.el_type el)).
Proof.
  intros Hinj.
  assert (Hpred : forall c',
            bool_decide (c' = ShopGeneratorEffect.el_type el)
            || bool_decide (displayName c'
                            = displayName (ShopGeneratorEffect.el_type el))
            = bool_decide (c' = ShopGeneratorEffect.el_type el)).
  { intros c'. repeat case_bool_decide; try reflexivity.
    exfalso. auto. }
  unfold ShopGeneratorEffect.matchingType, TAB_TYPES.
  cbn [List.find snd]. rewrite !Hpred.
  destruct (ShopGeneratorEffect.el_type el); reflexivity.
Qed.

(** What the saving effect writes for the default layout is the text of the
    default tab state. *)
Lemma saveState_default (localStorage : gmap string string) :
  (forall c c', displayName c = displayName c' -> c = c') ->
  ShopGeneratorEffect.saveState
    (ShopGeneratorEffect.groups ShopGeneratorEffect.DEFAULT_TAB_CONFIG)
    [JStr "100%"] localStorage
  = <[STORAGE_KEY := JSON_stringify DEFAULT_TAB_STATE]> localStorage.
Proof.
  intros Hinj. unfold ShopGeneratorEffect.saveState.
  assert (Hdata :
            map (map ShopGeneratorEffect.tabData)
              (ShopGeneratorEffect.groups ShopGeneratorEffect.DEFAULT_TAB_CONFIG)
            = map (fun g => items (Some g)) (items (prop "groups" DEFAULT_TAB_STATE))).
  { cbn. unfold ShopGeneratorEffect.tabData.
    rewrite !matchingType_own_identifier by exact Hinj. reflexivity. }
  rewrite Hdata. reflexivity.
Qed.

(** Loading a storage that holds the text of the default tab state. *)
Lemma loadTabState_default_text (localStorage : gmap string string) :
  JSON_parse (JSON_stringify DEFAULT_TAB_STATE) = Some DEFAULT_TAB_STATE ->
  JSON_stringify DEFAULT_TAB_STATE <> ""%string ->
  ShopGeneratorEffect.loadTabState
    (<[STORAGE_KEY := JSON_stringify DEFAULT_TAB_STATE]> localStorage)
  = ShopGeneratorEffect.DEFAULT_TAB_CONFIG.
Proof.
  intros Hparse Hne. unfold ShopGeneratorEffect.loadTabState.
  rewrite lookup_insert_eq.
  destruct (String.eqb_spec (JSON_stringify DEFAULT_TAB_STATE) "") as [He|_];
    [contradiction|].
  rewrite Hparse. reflexivity.
Qed.

End RoundTrip.

(** C7: the saving effect applied to the default layout, followed by the
    loading effect on the storage it wrote, gives the default layout again:
    the same groups with the same tab types and keys in the same order, and
    the same widths. [createInitialTabState] on that storage gives the default
    tab state as well. This holds when no two components share a display
    name and [JSON.parse] reads back what [JSON.stringify] wrote for the
    default tab state. *)
Theorem default_layout_round_trip `{Builtins} `{TabConstants.Statics}
  (localStorage : gmap string string) :
  (forall c c', TabConstants.displayName c = TabConstants.displayName c' -> c = c') ->
  JSON_parse (JSON_stringify TabConstants.DEFAULT_TAB_STATE)
  = Some TabConstants.DEFAULT_TAB_STATE ->
  JSON_stringify TabConstants.DEFAULT_TAB_STATE <> ""%string ->
  let saved :=
    ShopGeneratorEffect.saveState
      (ShopGeneratorEffect.groups ShopGeneratorEffect.DEFAULT_TAB_CONFIG)
      [JStr "100%"] localStorage in
  saved !! TabConstants.STORAGE_KEY
  = Some (JSON_stringify TabConstants.DEFAULT_TAB_STATE)
  /\ ShopGeneratorEffect.loadTabState saved
     = ShopGeneratorEffect.DEFAULT_TAB_CONFIG
  /\ typesAndKeys (ShopGeneratorEffect.groups
                     (ShopGeneratorEffect.loadTabState saved))
     = defaultTypesAndKeys
  /\ ShopGeneratorEffect.widths (ShopGeneratorEffect.loadTabState saved)
     = [TabConstants.Stored (JStr "100%")]
  /\ ShopGeneratorRegistry.isValidSavedState
       (ShopGeneratorRegistry.Item (saved !! TabConstants.STORAGE_KEY))
     = Some TabConstants.DEFAULT_TAB_STATE
  /\ (ShopGeneratorRegistry.createInitialTabState saved).1
     = TabConstants.DEFAULT_TAB_STATE.
Proof.
  intros Hinj Hparse Hne saved. subst saved.
  rewrite (saveState_default localStorage Hinj).
  rewrite (loadTabState_default_text localStorage Hparse Hne).
  rewrite lookup_insert_eq.
  split; [reflexivity|]. split; [reflexivity|].
  split; [apply default_config_shape|]. split; [apply default_config_shape|].
  split; [|reflexivity].
  unfold ShopGeneratorRegistry.isValidSavedState.
  destruct (String.eqb_spec (JSON_stringify TabConstants.DEFAULT_TAB_STATE) "")
    as [He|_]; [contradiction|].
  rewrite Hparse. reflexivity.
Qed.

Lemma default_layout_round_trip_witness :
  (forall c c', @TabConstants.displayName sampleStatics c
                = @TabConstants.displayName sampleStatics c' -> c = c')
  /\ Reference.parse (Reference.stringify TabConstants.DEFAULT_TAB_STATE)
     = Some TabConstants.DEFAULT_TAB_STATE
  /\ Reference.stringify TabConstants.DEFAULT_TAB_STATE <> ""%string
  /\ @ShopGeneratorEffect.loadTabState Reference.builtins sampleStatics
       (@ShopGeneratorEffect.saveState Reference.builtins sampleStatics
          (ShopGeneratorEffect.groups
             (@ShopGeneratorEffect.DEFAULT_TAB_CONFIG sampleStatics))
          [JStr "100%"] ∅)
     = @ShopGeneratorEffect.DEFAULT_TAB_CONFIG sampleStatics.
Proof.
  assert (Hinj : forall c c', @TabConstants.displayName sampleStatics c
                              = @TabConstants.displayName sampleStatics c'
                              -> c = c')
    by (intros [] []; simpl; intros Heq; first [reflexivity | discriminate Heq]).
  assert (Hparse : Reference.parse (Reference.stringify TabConstants.DEFAULT_TAB_STATE)
                   = Some TabConstants.DEFAULT_TAB_STATE)
    by (vm_compute; reflexivity).
  assert (Hne : Reference.stringify TabConstants.DEFAULT_TAB_STATE <> ""%string)
    by (vm_compute; discriminate).
  split; [exact Hinj|]. split; [exact Hparse|]. split; [exact Hne|].
  exact (proj1 (proj2 (@default_layout_round_trip Reference.builtins sampleStatics
                         ∅ Hinj Hparse Hne))).
Defined.

(** ** Membership of panels in groups *)

Section Membership.

Import LayoutStore.
Context `{WidthPolicy}.

Lemma keysOf_take_out (gs : list (list Panel)) (i : nat) (g : list Panel) :
  gs !! i = Some g -> keysOf gs ≡ₚ keys g ++ keysOf (delete i gs).
Proof.
  intros Hg. rewrite <- (take_drop_middle gs i g Hg) at 1.
  rewrite delete_take_drop. unfold keysOf.
  rewrite !map_app, !concat_app. simpl. solve_Permutation.
Qed.

Lemma keysOf_replace (gs : list (list Panel)) (i : nat) (g g' : list Panel) :
  gs !! i = Some g -> keysOf (<[i := g']> gs) ≡ₚ keys g' ++ keysOf (delete i gs).
Proof.
  intros Hg. rewrite insert_take_drop by (by eapply lookup_lt_Some).
  rewrite delete_take_drop. unfold keysOf.
  rewrite !map_app, !concat_app. simpl. solve_Permutation.
Qed.

Lemma keysOf_new_group (gs : list (list Panel)) (i : nat) (panel : Panel) :
  keysOf (take i gs ++ [panel] :: drop i gs) ≡ₚ id panel :: keysOf gs.
Proof.
  rewrite <- (take_drop i gs) at 3. unfold keysOf.
  rewrite !map_app, !concat_app. simpl. solve_Permutation.
Qed.

Lemma keys_take_out (g : list Panel) (i : nat) (panel : Panel) :
  g !! i = Some panel -> keys g ≡ₚ id panel :: keys (delete i g).
Proof.
  intros Hp. rewrite <- (take_drop_middle g i panel Hp) at 1.
  rewrite delete_take_drop. unfold keys. rewrite !map_app. simpl.
  solve_Permutation.
Qed.

Lemma keys_put_in (g : list Panel) (j : nat) (panel : Panel) :
  keys (take j g ++ panel :: drop j g) ≡ₚ id panel :: keys g.
Proof.
  rewrite <- (take_drop j g) at 3. unfold keys. rewrite !map_app. simpl.
  solve_Permutation.
Qed.

(** Removing a panel takes exactly its key out of the layout. *)
Lemma removePanel_keys (k : string) (sg : nat) (l l1 : Layout) (panel : Panel)
  (deleted : bool) :
  removePanel k sg l = Some (panel, l1, deleted) ->
  allKeys l ≡ₚ id panel :: allKeys l1.
Proof.
  unfold removePanel, allKeys.
  destruct (groups l !! sg) as [group|] eqn:Hgroup; [|discriminate].
  cbn [mbind option_bind].
  destruct (indexOfKey k group) as [i|]; [|discriminate].
  cbn [mbind option_bind].
  destruct (group !! i) as [q|] eqn:Hq; [|discriminate].
  cbn [mbind option_bind].
  rewrite (keysOf_take_out _ _ _ Hgroup), (keys_take_out _ _ _ Hq).
  destruct (delete i group) as [|r rest] eqn:Hrest;
    intros [= <- <- <-]; cbn [groups].
  - reflexivity.
  - rewrite (keysOf_replace _ _ _ (r :: rest) Hgroup). reflexivity.
Qed.

Lemma reorderWithinGroup_keys (g i j : nat) (l l' : Layout) :
  reorderWithinGroup g i j l = Some l' -> allKeys l' ≡ₚ allKeys l.
Proof.
  unfold reorderWithinGroup, allKeys.
  destruct (groups l !! g) as [group|] eqn:Hgroup; [|discriminate].
  cbn [mbind option_bind].
  destruct (group !! i) as [q|] eqn:Hq; [|discriminate].
  cbn [mbind option_bind].
  destruct (Nat.ltb j (length group)); [|discriminate].
  intros [= <-]. cbn [groups].
  rewrite (keysOf_replace _ _ _ _ Hgroup), (keysOf_take_out _ _ _ Hgroup).
  rewrite keys_put_in, (keys_take_out _ _ _ Hq). reflexivity.
Qed.

Lemma moveAcrossGroups_keys (k : string) (sg tg ti : nat) (l l' : Layout) :
  moveAcrossGroups k sg tg ti l = Some l' -> allKeys l' ≡ₚ allKeys l.
Proof.
  unfold moveAcrossGroups.
  destruct (Nat.eqb sg tg); [discriminate|].
  destruct (groups l !! tg); [|discriminate]. cbn [mbind option_bind].
  destruct (removePanel k sg l) as [[[q l1] deleted]|] eqn:Hrem;
    [|discriminate]. cbn [mbind option_bind].
  destruct (groups l1 !! _) as [target|] eqn:Htarget; [|discriminate].
  cbn [mbind option_bind].
  intros [= <-]. rewrite (removePanel_keys _ _ _ _ _ _ Hrem).
  unfold allKeys. cbn [groups].
  rewrite (keysOf_replace _ _ _ _ Htarget), (keysOf_take_out _ _ _ Htarget).
  rewrite keys_put_in. reflexivity.
Qed.

Lemma splitGroup_keys (k : string) (sg : nat) (side : Side) (l l' : Layout) :
  splitGroup k sg side l = Some l' -> allKeys l' ≡ₚ allKeys l.
Proof.
  unfold splitGroup.
  destruct (removePanel k sg l) as [[[q l1] deleted]|] eqn:Hrem;
    [|discriminate]. cbn [mbind option_bind].
  destruct (match side with
            | SideLeft => Some 0
            | SideRight => Some (length (groups l1))
            | SideBetween position =>
                if Nat.leb position (length (groups l1)) then Some position
                else None
            end) as [a|]; [|discriminate]. cbn [mbind option_bind].
  intros [= <-]. rewrite (removePanel_keys _ _ _ _ _ _ Hrem).
  unfold allKeys. cbn [groups]. apply keysOf_new_group.
Qed.

Lemma apply_keys (op : Operation) (l : Layout) :
  allKeys (apply op l) ≡ₚ allKeys l.
Proof.
  unfold apply. destruct op as [g i j|k sg tg ti|k sg side].
  - destruct (reorderWithinGroup g i j l) eqn:E; simpl; [|reflexivity].
    by eapply reorderWithinGroup_keys.
  - destruct (moveAcrossGroups k sg tg ti l) eqn:E; simpl; [|reflexivity].
    by eapply moveAcrossGroups_keys.
  - destruct (splitGroup k sg side l) eqn:E; simpl; [|reflexivity].
    by eapply splitGroup_keys.
Qed.

Lemma run_keys (ops : list Operation) (l : Layout) :
  allKeys (run ops l) ≡ₚ allKeys l.
Proof.
  revert l. induction ops as [|op ops IH]; intros l; simpl; [reflexivity|].
  unfold run in *. simpl. rewrite IH. apply apply_keys.
Qed.

(** In a list of groups without a repeated key, a key that occurs is held by
    one group, and a key that does not occur by none. *)
Lemma keysOf_cons (g : list Panel) (gs : list (list Panel)) :
  keysOf (g :: gs) = keys g ++ keysOf gs.
Proof. reflexivity. Qed.

Lemma holding_none (k : string) (gs : list (list Panel)) :
  k ∉ keysOf gs ->
  length (List.filter (fun g => bool_decide (k ∈ keys g)) gs) = 0.
Proof.
  induction gs as [|g gs IH]; [reflexivity|].
  rewrite keysOf_cons, elem_of_app. intros Hnot. cbn [List.filter].
  case_bool_decide as Hin; [tauto|]. apply IH. tauto.
Qed.

Lemma holding_one (k : string) (gs : list (list Panel)) :
  NoDup (keysOf gs) -> k ∈ keysOf gs ->
  length (List.filter (fun g => bool_decide (k ∈ keys g)) gs) = 1.
Proof.
  induction gs as [|g gs IH].
  - intros _ Hin. by apply elem_of_nil in Hin.
  - rewrite keysOf_cons, NoDup_app, elem_of_app.
    intros (Hg & Hdisj & Hgs) Hin. cbn [List.filter].
    case_bool_decide as Hkg; simpl.
    + f_equal. apply holding_none. by apply Hdisj.
    + apply IH; [exact Hgs | tauto].
Qed.

End Membership.

(** C5: from a valid layout, after any sequence of reorder, cross-group move
    and split operations (rejected ones leaving the layout as it is), the
    layout holds the same keys, none of them twice, and every key is in
    exactly one group, once. The array [handleDrop] builds for a within-group
    reorder from a valid source index holds the tabs of the group, each
    once. *)
Theorem membership_invariant `{LayoutStore.WidthPolicy}
  (l0 : LayoutStore.Layout) (ops : list LayoutStore.Operation) :
  LayoutStore.valid l0 ->
  let l := LayoutStore.run ops l0 in
  NoDup (LayoutStore.allKeys l)
  /\ (forall k, k ∈ LayoutStore.allKeys l <-> k ∈ LayoutStore.allKeys l0)
  /\ (forall k, k ∈ LayoutStore.allKeys l0 ->
        LayoutStore.groupsHolding k l = 1 /\ LayoutStore.occurrences k l = 1)
  /\ (forall (tabs : list TabContainer.Tab) (i d : nat),
        i < length tabs ->
        TabContainer.reorderedTabs tabs (Num (Z.of_nat i)) d ≡ₚ tabs).
Proof.
  intros (Hnodup & _ & _) l.
  pose proof (run_keys ops l0) as Hperm. fold l in Hperm.
  assert (Hnd : NoDup (LayoutStore.allKeys l)) by (by rewrite Hperm).
  split; [exact Hnd|]. split; [intros k; by rewrite Hperm|].
  split; [|apply reorderedTabs_valid_permutation].
  intros k Hk. rewrite <- Hperm in Hk. split.
  - apply holding_one; assumption.
  - unfold LayoutStore.occurrences.
    apply list_elem_of_In in Hk.
    apply (count_occ_In String.string_dec) in Hk.
    pose proof (proj1 (NoDup_count_occ String.string_dec _)
                  (proj1 (NoDup_ListNoDup _) Hnd) k). lia.
Qed.

Lemma membership_invariant_witness :
  LayoutStore.valid threePanels
  /\ LayoutStore.groups
       (@LayoutStore.run samplePolicy
          [LayoutStore.Split "A" 0 LayoutStore.SideRight] threePanels)
     = [[panel "B" TabConstants.Tab_InventoryTable;
         panel "C" TabConstants.Tab_ChooseShop];
        [panel "A" TabConstants.Tab_Parameters]]
  /\ LayoutStore.groupsHolding "A"
       (@LayoutStore.run samplePolicy
          [LayoutStore.Split "A" 0 LayoutStore.SideRight] threePanels) = 1.
Proof.
  assert (Hvalid : LayoutStore.valid threePanels).
  { unfold LayoutStore.valid. split; [|split].
    - apply (bool_decide_unpack _). vm_compute. exact I.
    - repeat constructor. discriminate.
    - reflexivity. }
  split; [exact Hvalid|]. split; [vm_compute; reflexivity|].
  refine (proj1 (proj1 (proj2 (proj2
            (@membership_invariant samplePolicy threePanels
               [LayoutStore.Split "A" 0 LayoutStore.SideRight] Hvalid))) "A"%string _)).
  apply (bool_decide_unpack _). vm_compute. exact I.
Defined.

(** ** Sample runs *)

(** Five drag-overs within 50 ms, the last one near the left edge: only the
    last indicator state is delivered, once, 50 ms after the last call. *)
Example debounce_coalesces :
  @deliverAll Reference.builtins twoTabProps
    [DragOver onFirstCenter; Wait 5; DragOver onFirstCenter; Wait 5;
     DragOver onFirstCenter; Wait 5; DragOver onFirstCenter; Wait 5;
     DragOver nearLeftEdge; Wait 60]
  = [(0, TabContainer.preventDefault); (5, TabContainer.preventDefault);
     (10, TabContainer.preventDefault); (15, TabContainer.preventDefault);
     (20, TabContainer.preventDefault);
     (80, TabContainer.onDropIndicatorChange leftArmed)].
Proof. vm_compute. reflexivity. Qed.

(** What a drag start writes to the transfer store is read back by the drop
    handler: dropping the first tab at index 2 of its own group reorders. *)
Example drag_first_tab_to_the_end :
  let first := plainTab "Tab_Parameters" "Tab_Parameters-0" in
  let started := @TabContainer.handleDragStart Reference.builtins twoTabProps
                   idleState freshBrowser twoTabRects first 0 in
  TabContainer.calls
    (@TabContainer.handleDrop Reference.builtins twoTabProps
       (TabContainer.set_dropIndex (Some 2) (TabContainer.state started))
       (TabContainer.browser started))
  = [TabContainer.preventDefault; TabContainer.clearIndicators;
     TabContainer.onTabMove_within
       [plainTab "Tab_ChooseShop" "Tab_ChooseShop-0"; first] 0].
Proof. vm_compute. reflexivity. Qed.

Example reference_parseInt :
  Reference.parseInt "" = NaN
  /\ Reference.parseInt "12" = Num 12
  /\ Reference.parseInt " -7px" = Num (-7).
Proof. repeat split. Qed.

Example reference_parse :
  Reference.parse "" = None
  /\ Reference.parse "{not json" = None
  /\ Reference.parse "[1, 2.5e3, true, null, {}]"
     = Some (JArr [JNum 1 0; JNum 25 2; JBool true; JNull; JObj []]).
Proof. repeat split. Qed.

(** * Further properties of the code *)

(** ** The array built by a within-group drop *)

Section ReorderMore.

Import TabContainer.

Lemma spliceIn_clamped (l : list Tab) (d : nat) (x : Tab) :
  spliceIn d x l = spliceIn (Nat.min d (length l)) x l.
Proof.
  unfold spliceIn. destruct (Nat.le_gt_cases d (length l)) as [Hle|Hgt].
  - by rewrite Nat.min_l.
  - rewrite Nat.min_r by lia.
    by rewrite !take_ge, !drop_ge by lia.
Qed.

Lemma lookup_spliceIn_before (l : list Tab) (d j : nat) (x : Tab) :
  j < Nat.min d (length l) -> spliceIn d x l !! j = l !! j.
Proof.
  intros Hj. unfold spliceIn.
  rewrite lookup_app_l by (rewrite length_take; lia).
  apply lookup_take_lt. lia.
Qed.

Lemma lookup_spliceIn_after (l : list Tab) (d j : nat) (x : Tab) :
  Nat.min d (length l) < j -> spliceIn d x l !! j = l !! (j - 1).
Proof.
  intros Hj. rewrite spliceIn_clamped. unfold spliceIn.
  set (m := Nat.min d (length l)) in *.
  rewrite lookup_app_r by (rewrite length_take; lia).
  rewrite length_take, Nat.min_l by lia.
  rewrite lookup_cons_ne_0 by lia. rewrite lookup_drop. f_equal. lia.
Qed.

End ReorderMore.

(** X1: a within-group reorder from a valid source index keeps the number of
    tabs, puts the moved tab at the drop index (at the last place when the
    drop index is the tab count) and leaves the other tabs in their order. *)
Theorem reorder_places_moved_tab (l : list TabContainer.Tab) (i d : nat)
  (x : TabContainer.Tab) :
  l !! i = Some x ->
  let r := TabContainer.reorderedTabs l (Num (Z.of_nat i)) d in
  let place := Nat.min d (length l - 1) in
  length r = length l
  /\ r !! place = Some x
  /\ delete place r = delete i l.
Proof.
  intros Hx r place. subst r.
  pose proof (lookup_lt_Some _ _ _ Hx) as Hi.
  rewrite (reorderedTabs_valid l i d x Hx), spliceIn_clamped.
  assert (Hlen : length (delete i l) = length l - 1)
    by (rewrite length_delete; eauto).
  rewrite Hlen. fold place.
  assert (Hplace : place <= length (delete i l)) by (subst place; lia).
  split; [rewrite length_spliceIn; lia|].
  split; [by apply spliceIn_lookup | by apply spliceIn_delete].
Qed.

Lemma reorder_places_moved_tab_witness :
  twoTabs !! 0 = Some (plainTab "Tab_Parameters" "Tab_Parameters-0")
  /\ TabContainer.reorderedTabs twoTabs (Num (Z.of_nat 0)) 2 !! 1
     = Some (plainTab "Tab_Parameters" "Tab_Parameters-0").
Proof.
  assert (H0 : twoTabs !! 0 = Some (plainTab "Tab_Parameters" "Tab_Parameters-0"))
    by reflexivity.
  split; [exact H0|].
  exact (proj1 (proj2 (reorder_places_moved_tab twoTabs 0 2 _ H0))).
Defined.

(** X2: what the two [splice] calls do with a source index that is not a
    position of the group. [NaN] moves the first tab; a negative index counts
    from the end; an index at or beyond the end removes nothing and inserts
    [undefined], so the array grows by one entry. *)
Theorem reorder_with_stray_source_index (l : list TabContainer.Tab) (d : nat) :
  TabContainer.reorderedTabs l NaN d = TabContainer.reorderedTabs l (Num 0) d
  /\ (forall k, 0 < k <= length l ->
        TabContainer.reorderedTabs l (Num (- Z.of_nat k)) d
        = TabContainer.reorderedTabs l (Num (Z.of_nat (length l - k))) d)
  /\ (forall z, length l <= z ->
        TabContainer.reorderedTabs l (Num (Z.of_nat z)) d
        = TabContainer.spliceIn d TabContainer.TabUndefined l
        /\ length (TabContainer.reorderedTabs l (Num (Z.of_nat z)) d)
           = S (length l)).
Proof.
  split; [|split].
  - unfold TabContainer.reorderedTabs, TabContainer.spliceOut,
      TabContainer.spliceStart. reflexivity.
  - intros k Hk.
    unfold TabContainer.reorderedTabs, TabContainer.spliceOut,
      TabContainer.spliceStart.
    destruct (Z.ltb_spec (- Z.of_nat k) 0) as [_|Hge]; [|lia].
    destruct (Z.ltb_spec (Z.of_nat (length l - k)) 0) as [Hlt|_]; [lia|].
    rewrite Nat2Z.id.
    replace (Z.to_nat (Z.max (Z.of_nat (length l) + - Z.of_nat k) 0))
      with (length l - k) by lia.
    by rewrite Nat.min_l by lia.
  - intros z Hz.
    assert (Heq : TabContainer.reorderedTabs l (Num (Z.of_nat z)) d
                  = TabContainer.spliceIn d TabContainer.TabUndefined l).
    { unfold TabContainer.reorderedTabs, TabContainer.spliceOut,
        TabContainer.spliceStart.
      destruct (Z.ltb_spec (Z.of_nat z) 0) as [Hlt|_]; [lia|].
      rewrite Nat2Z.id, Nat.min_r by lia.
      rewrite (lookup_ge_None_2 l (length l)) by lia. simpl.
      rewrite delete_take_drop, take_ge, drop_ge by lia.
      by rewrite app_nil_r. }
    split; [exact Heq|]. rewrite Heq. apply length_spliceIn.
Qed.

Lemma reorder_with_stray_source_index_witness :
  TabContainer.reorderedTabs twoTabs (Num (- Z.of_nat 1)) 0
  = TabContainer.reorderedTabs twoTabs (Num (Z.of_nat (length twoTabs - 1))) 0.
Proof.
  refine (proj1 (proj2 (reorder_with_stray_source_index twoTabs 0)) 1 _).
  unfold twoTabs. simpl. lia.
Defined.

(** ** The styles of the tabs during a drag *)

Section TabStyle.

Import TabContainer TabContainerRender.

Lemma allElements_cons (t : Tab) (l : list Tab) :
  allElements (t :: l) -> is_Some (entryKey t) /\ allElements l.
Proof.
  intros Hall. split; [exact (Hall 0 t eq_refl)|].
  intros j u Hu. exact (Hall (S j) u Hu).
Qed.

Lemma someHasKey_found (k : option string) (l : list Tab) (i : nat) (x : Tab) :
  allElements l -> l !! i = Some x -> entryKey x = Some k ->
  someHasKey k l = Some true.
Proof.
  revert i. induction l as [|t l IH]; intros i Hall Hx Hk; [discriminate|].
  apply allElements_cons in Hall as [[key Hkey] Hall].
  destruct t as [| |ty key']; try discriminate. simpl.
  case_bool_decide as Heq; [reflexivity|].
  destruct i as [|i].
  - injection Hx as <-. simpl in Hk. congruence.
  - exact (IH i Hall Hx Hk).
Qed.

Lemma someHasKey_absent (k : option string) (l : list Tab) :
  allElements l ->
  (forall j t, l !! j = Some t -> entryKey t <> Some k) ->
  someHasKey k l = Some false.
Proof.
  induction l as [|t l IH]; intros Hall Hnone; [reflexivity|].
  apply allElements_cons in Hall as [[key Hkey] Hall].
  destruct t as [| |ty key']; try discriminate. simpl.
  case_bool_decide as Heq.
  - exfalso. apply (Hnone 0 _ eq_refl). simpl. by rewrite Heq.
  - apply IH; [exact Hall|]. intros j u Hu. exact (Hnone (S j) u Hu).
Qed.

Lemma someHasKey_throws (k : option string) (before after : list Tab) (t : Tab) :
  allElements before ->
  (forall j u, before !! j = Some u -> entryKey u <> Some k) ->
  entryKey t = None ->
  someHasKey k (before ++ t :: after) = None.
Proof.
  induction before as [|u before IH]; intros Hall Hnone Ht; simpl.
  - by destruct t.
  - apply allElements_cons in Hall as [[key Hkey] Hall].
    destruct u as [| |ty key']; try discriminate.
    case_bool_decide as Heq.
    + exfalso. apply (Hnone 0 _ eq_refl). simpl. by rewrite Heq.
    + apply IH; [exact Hall| |exact Ht].
      intros j v Hv. exact (Hnone (S j) v Hv).
Qed.

(** Where a tab other than the moved one ends up after the reorder: one place
    to the left, one to the right or where it was, as [shiftStyle] says. *)
Lemma reorder_lookup_other (l : list Tab) (i d j : nat) (xi x : Tab) (w : Q) :
  l !! i = Some xi -> l !! j = Some x -> j <> i ->
  reorderedTabs l (Num (Z.of_nat i)) d !! displacedIndex (shiftStyle i d j w) j
  = Some x.
Proof.
  intros Hxi Hx Hji.
  pose proof (lookup_lt_Some _ _ _ Hxi) as Hi.
  pose proof (lookup_lt_Some _ _ _ Hx) as Hj.
  rewrite (reorderedTabs_valid l i d xi Hxi).
  assert (Hlen : length (delete i l) = length l - 1)
    by (rewrite length_delete; eauto).
  unfold shiftStyle.
  destruct (Nat.ltb_spec i d) as [Hid|Hid].
  - destruct (Nat.ltb_spec i j) as [Hij|Hij];
      [destruct (Nat.leb_spec j d) as [Hjd|Hjd]|]; simpl.
    + rewrite lookup_spliceIn_before by lia.
      rewrite list_lookup_delete_ge by lia. rewrite <- Hx. f_equal. lia.
    + rewrite lookup_spliceIn_after by lia.
      rewrite list_lookup_delete_ge by lia. rewrite <- Hx. f_equal. lia.
    + rewrite lookup_spliceIn_before by lia.
      rewrite list_lookup_delete_lt by lia. exact Hx.
  - destruct (Nat.ltb_spec d i) as [Hdi|Hdi].
    + destruct (Nat.leb_spec d j) as [Hdj|Hdj];
        [destruct (Nat.ltb_spec j i) as [Hlt|Hge]|]; simpl.
      * rewrite lookup_spliceIn_after by lia.
        rewrite list_lookup_delete_lt by lia. rewrite <- Hx. f_equal. lia.
      * rewrite lookup_spliceIn_after by lia.
        rewrite list_lookup_delete_ge by lia. rewrite <- Hx. f_equal. lia.
      * rewrite lookup_spliceIn_before by lia.
        rewrite list_lookup_delete_lt by lia. exact Hx.
    + simpl. assert (d = i) as -> by lia.
      destruct (Nat.lt_ge_cases j i) as [Hlt|Hge].
      * rewrite lookup_spliceIn_before by lia.
        rewrite list_lookup_delete_lt by lia. exact Hx.
      * rewrite lookup_spliceIn_after by lia.
        rewrite list_lookup_delete_ge by lia. rewrite <- Hx. f_equal. lia.
Qed.

End TabStyle.

(** X3: during a drag inside a group whose tabs are all elements with keys of
    their own, [getTabStyle] hides the dragged tab and gives every other
    mounted tab the style that previews the drop: the tab is shown one place
    to the left or right, by the width of the dragged tab's element, exactly
    when the reorder made by a drop at the current drop index moves it to
    that place, and is left alone when the reorder leaves it where it is. *)
Theorem drag_preview_matches_reorder
  (p : TabContainer.Props) (s : TabContainer.State) (tabRefs : gmap nat DOMRect)
  (i d j : nat) (k : string) (ty : option TabContainer.ElemType)
  (xi x : TabContainer.Tab) (rect : DOMRect) :
  TabContainer.draggedTabIndex p = Some i ->
  TabContainer.dropIndex s = Some d ->
  TabContainer.originalPositions s <> [] ->
  TabContainer.draggedTab p = TabContainer.TabElement ty (Some k) ->
  k <> ""%string ->
  allElements (TabContainer.tabs p) ->
  TabContainer.tabs p !! i = Some xi ->
  (forall j' t, TabContainer.tabs p !! j' = Some t ->
                (entryKey t = Some (Some k) <-> j' = i)) ->
  TabContainer.tabs p !! j = Some x ->
  tabRefs !! j = Some rect ->
  let tabWidth := match tabRefs !! i with
                  | Some draggedRect => rect_width draggedRect
                  | None => 0%Q
                  end in
  (j = i ->
   TabContainerRender.getTabStyle p s tabRefs j = Some TabContainerRender.Hidden)
  /\ (j <> i ->
      TabContainerRender.getTabStyle p s tabRefs j
      = Some (TabContainerRender.shiftStyle i d j tabWidth)
      /\ TabContainer.reorderedTabs (TabContainer.tabs p) (Num (Z.of_nat i)) d
         !! displacedIndex (TabContainerRender.shiftStyle i d j tabWidth) j
         = Some x).
Proof.
  intros Hdragged Hdrop Hpos Htab Hk Hall Hxi Hkeys Hx Hrect tabWidth.
  unfold TabContainerRender.getTabStyle.
  rewrite Hdragged, Hdrop, Htab, Hx, Hrect.
  destruct (TabContainer.originalPositions s) as [|pos rest]; [contradiction|].
  assert (Hne : negb (String.eqb k "") = true).
  { destruct (String.eqb_spec k ""); [contradiction | reflexivity]. }
  split.
  - intros ->. unfold TabContainerRender.isDraggedEntry. rewrite Hne. simpl.
    pose proof (proj2 (Hkeys i x Hx) eq_refl) as Hkey.
    destruct x as [| |tx kx]; try discriminate. injection Hkey as ->.
    by rewrite bool_decide_eq_true_2.
  - intros Hji.
    assert (Hnot : TabContainerRender.isDraggedEntry (Some x) (Some k) = false).
    { unfold TabContainerRender.isDraggedEntry. rewrite Hne. simpl.
      destruct x as [| |tx kx]; try reflexivity.
      apply bool_decide_eq_false_2. intros ->.
      apply Hji. by apply (Hkeys j _ Hx). }
    rewrite Hnot.
    rewrite (someHasKey_found (Some k) _ i xi Hall Hxi
               (proj2 (Hkeys i xi Hxi) eq_refl)).
    split; [reflexivity|].
    by apply (reorder_lookup_other _ i d j xi x).
Qed.

Lemma drag_preview_matches_reorder_witness :
  TabContainerRender.getTabStyle draggingFirstProps draggingToEnd twoTabRefs 0
  = Some TabContainerRender.Hidden
  /\ TabContainerRender.getTabStyle draggingFirstProps draggingToEnd twoTabRefs 1
     = Some (TabContainerRender.TranslateLeft 20).
Proof.
  assert (Hall : allElements (TabContainer.tabs draggingFirstProps)).
  { intros [|[|n]] t Ht; try discriminate; injection Ht as <-; by eexists. }
  assert (Hkeys : forall j' t, TabContainer.tabs draggingFirstProps !! j' = Some t ->
                    (entryKey t = Some (Some "Tab_Parameters-0"%string) <-> j' = 0)).
  { intros [|[|n]] t Ht; try discriminate; injection Ht as <-;
      split; intros Hq; try reflexivity; discriminate. }
  assert (Hpos : TabContainer.originalPositions draggingToEnd <> [])
    by (vm_compute; discriminate).
  assert (Hk : "Tab_Parameters-0"%string <> ""%string) by discriminate.
  split.
  - exact (proj1 (drag_preview_matches_reorder draggingFirstProps draggingToEnd
                    twoTabRefs 0 2 0 _ _ _ _ _ eq_refl eq_refl Hpos eq_refl Hk
                    Hall eq_refl Hkeys eq_refl eq_refl) eq_refl).
  - refine (proj1 (proj2 (drag_preview_matches_reorder draggingFirstProps
                            draggingToEnd twoTabRefs 0 2 1 _ _ _ _ _ eq_refl
                            eq_refl Hpos eq_refl Hk Hall eq_refl Hkeys eq_refl
                            eq_refl) _)).
    discriminate.
Defined.

(** X4: in a group that does not hold the dragged tab (all its entries are
    elements with other keys) no tab is hidden or displaced, whatever the
    drag and drop indices are. *)
Theorem other_groups_keep_their_styles
  (p : TabContainer.Props) (s : TabContainer.State) (tabRefs : gmap nat DOMRect)
  (j : nat) (k : option string) (ty : option TabContainer.ElemType) :
  TabContainer.draggedTab p = TabContainer.TabElement ty k ->
  allElements (TabContainer.tabs p) ->
  (forall j' t, TabContainer.tabs p !! j' = Some t -> entryKey t <> Some k) ->
  TabContainerRender.getTabStyle p s tabRefs j = Some TabContainerRender.NoStyle.
Proof.
  intros Htab Hall Hnone. unfold TabContainerRender.getTabStyle. rewrite Htab.
  destruct (TabContainer.draggedTabIndex p) as [i|]; [|reflexivity].
  destruct (TabContainer.dropIndex s) as [d|]; [|reflexivity].
  destruct (TabContainer.originalPositions s) as [|pos rest]; [reflexivity|].
  assert (Hnot : TabContainerRender.isDraggedEntry (TabContainer.tabs p !! j) k
                 = false).
  { unfold TabContainerRender.isDraggedEntry.
    destruct k as [k|]; [|reflexivity].
    destruct (TabContainer.tabs p !! j) as [t|] eqn:Ht;
      [|by rewrite andb_false_r].
    destruct t as [| |tx kx]; try by rewrite andb_false_r.
    rewrite bool_decide_eq_false_2; [by rewrite andb_false_r|].
    intros ->. by apply (Hnone j _ Ht). }
  rewrite Hnot. destruct (tabRefs !! j); [|reflexivity].
  by rewrite (someHasKey_absent k _ Hall Hnone).
Qed.

Lemma other_groups_keep_their_styles_witness :
  TabContainerRender.getTabStyle otherGroupProps draggingToEnd twoTabRefs 0
  = Some TabContainerRender.NoStyle.
Proof.
  assert (Hall : allElements (TabContainer.tabs otherGroupProps)).
  { intros [|n] t Ht; try discriminate; injection Ht as <-; by eexists. }
  assert (Hnone : forall j' t, TabContainer.tabs otherGroupProps !! j' = Some t ->
                    entryKey t <> Some (Some "Tab_Parameters-0"%string)).
  { intros [|n] t Ht; try discriminate; injection Ht as <-; discriminate. }
  exact (other_groups_keep_their_styles otherGroupProps draggingToEnd twoTabRefs
           0 _ _ eq_refl Hall Hnone).
Defined.

(** X5: [getTabStyle] throws during a drag when the group's [tabs] holds a
    [null] or [undefined] entry and no entry before it has the dragged key:
    the search for the dragged tab reads [key] off that entry. This happens
    for every mounted tab that is not the dragged one. *)
Theorem null_entry_breaks_tab_styles
  (p : TabContainer.Props) (s : TabContainer.State) (tabRefs : gmap nat DOMRect)
  (i d j : nat) (k : option string) (ty : option TabContainer.ElemType)
  (before after : list TabContainer.Tab) (hole : TabContainer.Tab)
  (rect : DOMRect) :
  TabContainer.draggedTabIndex p = Some i ->
  TabContainer.dropIndex s = Some d ->
  TabContainer.originalPositions s <> [] ->
  TabContainer.draggedTab p = TabContainer.TabElement ty k ->
  TabContainer.tabs p = before ++ hole :: after ->
  entryKey hole = None ->
  allElements before ->
  (forall j' t, before !! j' = Some t -> entryKey t <> Some k) ->
  TabContainerRender.isDraggedEntry (TabContainer.tabs p !! j) k = false ->
  tabRefs !! j = Some rect ->
  TabContainerRender.getTabStyle p s tabRefs j = None.
Proof.
  intros Hdragged Hdrop Hpos Htab Htabs Hhole Hall Hnone Hnot Hrect.
  unfold TabContainerRender.getTabStyle.
  rewrite Hdragged, Hdrop, Htab, Hnot, Hrect.
  destruct (TabContainer.originalPositions s) as [|pos rest]; [contradiction|].
  rewrite Htabs.
  by rewrite (someHasKey_throws k before after hole Hall Hnone Hhole).
Qed.

Lemma null_entry_breaks_tab_styles_witness :
  TabContainerRender.getTabStyle holedProps draggingToEnd twoTabRefs 0 = None.
Proof.
  assert (Hpos : TabContainer.originalPositions draggingToEnd <> [])
    by (vm_compute; discriminate).
  assert (Hall : allElements []) by (intros j t Ht; discriminate).
  assert (Hnone : forall j' t, ([] : list TabContainer.Tab) !! j' = Some t ->
                    entryKey t <> Some (Some "Tab_Parameters-0"%string))
    by (intros j t Ht; discriminate).
  exact (null_entry_breaks_tab_styles holedProps draggingToEnd twoTabRefs
           1 2 0 _ _ [] _ TabContainer.TabNull _ eq_refl eq_refl Hpos eq_refl
           eq_refl eq_refl Hall Hnone eq_refl eq_refl).
Defined.

(** ** The drop index kept by a container *)

Section DropIndexMore.

Import TabContainer.


Lemma firstAbove_monotone (x x' : Q) (centers : list Q) :
  (x <= x')%Q ->
  match firstAbove x centers, firstAbove x' centers with
  | Some a, Some a' => a <= a'
  | None, Some _ => False
  | _, None => True
  end.
Proof.
  intros Hx. induction centers as [|c rest IH]; simpl; [exact I|].
  destruct (Qltb x c) eqn:Hc; destruct (Qltb x' c) eqn:Hc'; simpl.
  - lia.
  - destruct (firstAbove x' rest); simpl; [lia | exact I].
  - apply Qltb_lt in Hc'. apply Qltb_ge in Hc. lra.
  - destruct (firstAbove x rest), (firstAbove x' rest); simpl; simpl in IH;
      try exact IH. lia.
Qed.

End DropIndexMore.



(** X7: over the header the drop index follows the pointer: with the same
    cached positions and the same header, a pointer further right never gets
    a smaller drop index. *)
Theorem drop_index_follows_pointer
  (p : TabContainer.Props) (s : TabContainer.State)
  (e e' : TabContainer.DragEvent) :
  TabContainer.isOverHeader e = true ->
  TabContainer.isOverHeader e' = true ->
  TabContainer.headerRect e = TabContainer.headerRect e' ->
  (TabContainer.clientX e <= TabContainer.clientX e')%Q ->
  TabContainer.newDropIndex p s e <= TabContainer.newDropIndex p s e'.
Proof.
  intros Hover Hover' Hheader Hx.
  unfold TabContainer.newDropIndex. rewrite Hover, Hover'. simpl.
  rewrite !indexFromPositions_firstAbove.
  unfold localCenters, localX. rewrite <- Hheader.
  set (hl := rect_left (TabContainer.headerRect e)).
  set (cs := map _ _).
  assert (Hlocal : (TabContainer.clientX e - hl <= TabContainer.clientX e' - hl)%Q)
    by lra.
  pose proof (firstAbove_monotone _ _ cs Hlocal) as Hmono.
  destruct (firstAbove (TabContainer.clientX e - hl) cs),
    (firstAbove (TabContainer.clientX e' - hl) cs); simpl; simpl in Hmono; lia.
Qed.

Lemma drop_index_follows_pointer_witness :
  TabContainer.newDropIndex twoTabProps twoTabsDragging onFirstCenter
  <= TabContainer.newDropIndex twoTabProps twoTabsDragging pastLastCenter.
Proof.
  refine (drop_index_follows_pointer twoTabProps twoTabsDragging onFirstCenter
            pastLastCenter eq_refl eq_refl eq_refl _).
  vm_compute. discriminate.
Defined.

(** ** The timeouts of useDebounce *)

Section DebounceMore.

Import TabContainer TabContainerRender.

Lemma ownsPending_ext (s s' : State) (b b' : Browser) :
  timeoutRef s' = timeoutRef s ->
  pending b' = pending b ->
  nextTimer b' = nextTimer b ->
  ownsPending s b -> ownsPending s' b'.
Proof.
  unfold ownsPending. intros -> -> ->. exact (fun H => H).
Qed.

Lemma ownsPending_clearTimeout (s : State) (b : Browser) (id : nat) :
  ownsPending s b -> ownsPending s (clearTimeout id b).
Proof.
  intros [Hnext [Hnil|(id' & at_ & arg & Hp & Href & Hid)]]; split; simpl;
    try exact Hnext.
  - left. by rewrite Hnil.
  - rewrite Hp. simpl. destruct (negb (Nat.eqb id' id)); [|by left].
    right. by exists id', at_, arg.
Qed.

(** After a debounced call the one pending timeout is the one just set. *)
Lemma debounced_replaces (arg : Indicators) (s : State) (b : Browser) :
  ownsPending s b ->
  let r := debouncedDropIndicatorChange arg s b in
  pending r.2 = [(nextTimer b, (now b + 50, arg))]
  /\ timeoutRef r.1 = Some (nextTimer b)
  /\ nextTimer r.2 = S (nextTimer b)
  /\ now r.2 = now b
  /\ ownsPending r.1 r.2.
Proof.
  intros [Hnext Hp] r. subst r.
  unfold debouncedDropIndicatorChange, debouncedCallback.
  assert (Hcleared :
            pending (match liveHandle (timeoutRef s) with
                     | Some id => clearTimeout id b
                     | None => b
                     end) = []
            /\ nextTimer (match liveHandle (timeoutRef s) with
                          | Some id => clearTimeout id b
                          | None => b
                          end) = nextTimer b
            /\ now (match liveHandle (timeoutRef s) with
                    | Some id => clearTimeout id b
                    | None => b
                    end) = now b).
  { destruct Hp as [Hnil|(id & at_ & arg' & Hp & Href & Hid)].
    - destruct (liveHandle (timeoutRef s)); simpl; by rewrite Hnil.
    - rewrite Href. destruct id as [|id]; [lia|]. simpl. rewrite Hp. simpl.
      by rewrite Nat.eqb_refl. }
  destruct Hcleared as (Hnil & Hn & Hnow).
  simpl. rewrite Hnil, Hn, Hnow. simpl. repeat split; simpl; try lia.
  right. exists (nextTimer b), (now b + 50), arg. by repeat split.
Qed.

(** The browser's clock running over one pending timeout. *)
Lemma elapse_nothing_pending (n : nat) (b : Browser) :
  pending b = [] ->
  (elapse n b).2 = [] /\ pending (elapse n b).1 = []
  /\ now (elapse n b).1 = now b + n /\ nextTimer (elapse n b).1 = nextTimer b.
Proof.
  revert b. induction n as [|n IH]; intros b Hp; simpl.
  - repeat split; [exact Hp | lia].
  - unfold tick, fireDue. simpl. rewrite Hp. simpl.
    match goal with |- context [elapse n ?b1] =>
      destruct (IH b1 eq_refl) as (Hc & Hq & Hnow & Hnext);
      destruct (elapse n b1) as [b2 c2] end.
    simpl in *. subst c2. repeat split; [exact Hq | lia | exact Hnext].
Qed.

Lemma elapse_before_due (n : nat) (b : Browser) (id at_ : nat) (arg : Indicators) :
  pending b = [(id, (at_, arg))] -> now b + n < at_ ->
  (elapse n b).2 = [] /\ pending (elapse n b).1 = [(id, (at_, arg))]
  /\ now (elapse n b).1 = now b + n /\ nextTimer (elapse n b).1 = nextTimer b.
Proof.
  revert b. induction n as [|n IH]; intros b Hp Hlt; simpl.
  - repeat split; [exact Hp | lia].
  - unfold tick, fireDue. simpl. rewrite Hp. simpl. unfold due. simpl.
    destruct (Nat.leb_spec at_ (S (now b))) as [Hle|_]; [lia|]. simpl.
    match goal with |- context [elapse n ?b1] =>
      destruct (IH b1 eq_refl) as (Hc & Hq & Hnow & Hnext); [simpl; lia|];
      destruct (elapse n b1) as [b2 c2] end.
    simpl in *. subst c2. repeat split; [exact Hq | lia | exact Hnext].
Qed.

Lemma elapse_reaches_due (n : nat) (b : Browser) (id at_ : nat) (arg : Indicators) :
  pending b = [(id, (at_, arg))] -> now b < at_ -> at_ <= now b + n ->
  (elapse n b).2 = [onDropIndicatorChange arg] /\ pending (elapse n b).1 = []
  /\ now (elapse n b).1 = now b + n /\ nextTimer (elapse n b).1 = nextTimer b.
Proof.
  revert b. induction n as [|n IH]; intros b Hp Hlt Hle; simpl; [lia|].
  unfold tick, fireDue. simpl. rewrite Hp. simpl. unfold due. simpl.
  destruct (Nat.leb_spec at_ (S (now b))) as [Hdue|Hnot]; simpl.
  - match goal with |- context [elapse n ?b1] =>
      destruct (elapse_nothing_pending n b1 eq_refl) as (Hc & Hq & Hnow & Hnext);
      destruct (elapse n b1) as [b2 c2] end.
    simpl in *. subst c2. repeat split; [exact Hq | lia | exact Hnext].
  - match goal with |- context [elapse n ?b1] =>
      destruct (IH b1 eq_refl) as (Hc & Hq & Hnow & Hnext);
        [simpl; lia | simpl; lia |];
      destruct (elapse n b1) as [b2 c2] end.
    simpl in *. subst c2. repeat split; [exact Hq | lia | exact Hnext].
Qed.

Lemma ownsPending_tick (s : State) (b : Browser) :
  ownsPending s b -> ownsPending s (tick b).1.
Proof.
  intros [Hnext [Hnil|(id & at_ & arg & Hp & Href & Hid)]];
    split; simpl; try exact Hnext.
  - left. by rewrite Hnil.
  - rewrite Hp. simpl. destruct (negb (due _ _)); [|by left].
    right. by exists id, at_, arg.
Qed.

Lemma ownsPending_elapse (n : nat) (s : State) (b : Browser) :
  ownsPending s b -> ownsPending s (elapse n b).1.
Proof.
  revert b. induction n as [|n IH]; intros b Hown; [exact Hown|].
  cbn [elapse]. pose proof (ownsPending_tick s b Hown) as Hb1.
  destruct (tick b) as [b1 c1]. specialize (IH b1 Hb1).
  destruct (elapse n b1) as [b2 c2]. exact IH.
Qed.

Lemma ownsPending_handleDragOver (p : Props) (s : State) (b : Browser)
  (e : DragEvent) :
  ownsPending s b ->
  ownsPending (state (handleDragOver p s b e)) (browser (handleDragOver p s b e)).
Proof.
  intros Hown. unfold handleDragOver.
  destruct (insideVertically e); [|exact Hown].
  pose proof (debounced_replaces (newIndicators (groupIndex p) e) s b Hown)
    as (_ & _ & _ & _ & Hr).
  destruct (debouncedDropIndicatorChange _ s b) as [s1 b1].
  cbn [fst snd] in Hr. cbn [state browser].
  case_bool_decide; [exact Hr|].
  by apply (ownsPending_ext s1 _ b1 b1).
Qed.

Lemma ownsPending_clearEdgeHold (s : State) (b : Browser) :
  ownsPending s b -> ownsPending (clearEdgeHold s b).1 (clearEdgeHold s b).2.
Proof.
  intros Hown. unfold clearEdgeHold.
  destruct (liveHandle (edgeHoldTimeout s)) as [id|]; [|exact Hown]. simpl.
  apply (ownsPending_ext s _ (clearTimeout id b) _); try reflexivity.
  by apply ownsPending_clearTimeout.
Qed.

Lemma ownsPending_handleDragLeave (p : Props) (s : State) (b : Browser)
  (e : DragEvent) :
  ownsPending s b ->
  ownsPending (state (handleDragLeave p s b e))
    (browser (handleDragLeave p s b e)).
Proof.
  intros Hown. unfold handleDragLeave.
  destruct (isOutsideContainer e); [|exact Hown].
  pose proof (ownsPending_clearEdgeHold s b Hown) as Hc.
  destruct (clearEdgeHold s b) as [s1 b1]. exact Hc.
Qed.

Lemma ownsPending_handleDragEnd (p : Props) (s : State) (b : Browser) :
  ownsPending s b ->
  ownsPending (state (handleDragEnd p s b)) (browser (handleDragEnd p s b)).
Proof.
  intros Hown. unfold handleDragEnd.
  assert (Hown' : ownsPending (set_dropIndex None s) b)
    by (by apply (ownsPending_ext s _ b b)).
  pose proof (ownsPending_clearEdgeHold _ b Hown') as Hc.
  destruct (clearEdgeHold (set_dropIndex None s) b) as [s1 b1]. simpl in *.
  by apply (ownsPending_ext s1 _ b1 _).
Qed.

Lemma ownsPending_handleDragStart `{Builtins} (p : Props) (s : State)
  (b : Browser) (tabRects : list DOMRect) (tab : Tab) (index : nat) :
  ownsPending s b ->
  ownsPending (state (handleDragStart p s b tabRects tab index))
    (browser (handleDragStart p s b tabRects tab index)).
Proof.
  intros Hown. unfold handleDragStart.
  destruct tab as [| |[ty|] key]; exact Hown.
Qed.

Lemma ownsPending_deliver `{Builtins} (p : Props)
  (w : State * Browser * list (nat * Call)) (i : Input) :
  ownsPending w.1.1 w.1.2 ->
  ownsPending (deliver p w i).1.1 (deliver p w i).1.2.
Proof.
  destruct w as [[s b] log]. simpl. intros Hown.
  destruct i as [tabRects tab index|e|e| |ms]; simpl.
  - by apply ownsPending_handleDragStart.
  - by apply ownsPending_handleDragOver.
  - by apply ownsPending_handleDragLeave.
  - by apply ownsPending_handleDragEnd.
  - pose proof (ownsPending_elapse ms s b Hown) as He.
    destruct (elapse ms b) as [b1 cs]. exact He.
Qed.

End DebounceMore.

(** X8: a container has at most one indicator update pending at any time:
    whatever sequence of drag-start, drag-over, drag-leave and drag-end calls
    and waits a freshly mounted container goes through, the browser holds at
    most one timeout of its debounce. *)
Theorem at_most_one_pending_update `{Builtins}
  (p : TabContainer.Props) (inputs : list Input) :
  length (TabContainer.pending
            (foldl (deliver p) (idleState, freshBrowser, []) inputs).1.2) <= 1.
Proof.
  assert (Hinv : ownsPending
                   (foldl (deliver p) (idleState, freshBrowser, []) inputs).1.1
                   (foldl (deliver p) (idleState, freshBrowser, []) inputs).1.2).
  { induction inputs as [|i inputs IH] using rev_ind.
    - split; [simpl; lia | by left].
    - rewrite foldl_snoc. by apply ownsPending_deliver. }
  destruct Hinv as [_ [Hnil|(id & at_ & arg & Hp & _)]].
  - rewrite Hnil. simpl. lia.
  - rewrite Hp. simpl. lia.
Qed.

(** X9: debounce coalescing. When a second drag-over comes less than 50 ms
    after a first one, the first indicator state is never delivered: nothing
    is delivered between the two, and 50 ms after the second exactly its
    indicator state is passed to [onDropIndicatorChange], once, after which
    nothing is pending. *)
Theorem later_update_replaces_pending
  (p : TabContainer.Props) (s : TabContainer.State) (b : TabContainer.Browser)
  (e1 e2 : TabContainer.DragEvent) (t : nat) :
  ownsPending s b ->
  TabContainer.insideVertically e1 = true ->
  TabContainer.insideVertically e2 = true ->
  t < 50 ->
  let out1 := TabContainer.handleDragOver p s b e1 in
  let between := TabContainer.elapse t (TabContainer.browser out1) in
  let out2 := TabContainer.handleDragOver p (TabContainer.state out1)
                between.1 e2 in
  let after := TabContainer.elapse 50 (TabContainer.browser out2) in
  between.2 = []
  /\ after.2
     = [TabContainer.onDropIndicatorChange
          (TabContainer.newIndicators (TabContainer.groupIndex p) e2)]
  /\ TabContainer.pending after.1 = [].
Proof.
  intros Hown Hin1 Hin2 Ht out1 between out2 after.
  pose proof (ownsPending_handleDragOver p s b e1 Hown) as Hown1.
  fold out1 in Hown1.
  assert (Hp1 : TabContainer.pending (TabContainer.browser out1)
                = [(TabContainer.nextTimer b,
                    (TabContainer.now b + 50,
                     TabContainer.newIndicators (TabContainer.groupIndex p) e1))]
                /\ TabContainer.now (TabContainer.browser out1)
                   = TabContainer.now b).
  { subst out1. unfold TabContainer.handleDragOver. rewrite Hin1.
    pose proof (debounced_replaces
                  (TabContainer.newIndicators (TabContainer.groupIndex p) e1)
                  s b Hown) as (Hp & _ & _ & Hnow & _).
    destruct (TabContainer.debouncedDropIndicatorChange _ s b) as [s1 b1].
    cbn [fst snd] in Hp, Hnow. cbn [TabContainer.browser].
    split; assumption. }
  destruct Hp1 as [Hp1 Hnow1].
  destruct (elapse_before_due t _ _ _ _ Hp1 ltac:(lia))
    as (Hquiet & Hp1' & Hnowb & _).
  fold between in Hquiet, Hp1', Hnowb.
  pose proof (ownsPending_elapse t _ _ Hown1) as Hownb. fold between in Hownb.
  assert (Hp2 : exists id,
            TabContainer.pending (TabContainer.browser out2)
            = [(id, (TabContainer.now between.1 + 50,
                     TabContainer.newIndicators (TabContainer.groupIndex p) e2))]
            /\ TabContainer.now (TabContainer.browser out2)
               = TabContainer.now between.1).
  { subst out2. unfold TabContainer.handleDragOver. rewrite Hin2.
    pose proof (debounced_replaces
                  (TabContainer.newIndicators (TabContainer.groupIndex p) e2)
                  _ _ Hownb) as (Hp & _ & _ & Hnow & _).
    destruct (TabContainer.debouncedDropIndicatorChange _ _ between.1)
      as [s2 b2].
    cbn [fst snd] in Hp, Hnow. cbn [TabContainer.browser].
    eexists. split; [exact Hp | exact Hnow]. }
  destruct Hp2 as (id & Hp2 & Hnow2).
  destruct (elapse_reaches_due 50 _ _ _ _ Hp2 ltac:(lia) ltac:(lia))
    as (Hfire & Hempty & _ & _).
  split; [exact Hquiet|]. split; [exact Hfire | exact Hempty].
Qed.

Lemma later_update_replaces_pending_witness :
  (TabContainer.elapse 50
     (TabContainer.browser
        (TabContainer.handleDragOver twoTabProps
           (TabContainer.state
              (TabContainer.handleDragOver twoTabProps twoTabsDragging
                 freshBrowser narrowSoleGroup))
           (TabContainer.elapse 20
              (TabContainer.browser
                 (TabContainer.handleDragOver twoTabProps twoTabsDragging
                    freshBrowser narrowSoleGroup))).1
           nearLeftEdge))).2
  = [TabContainer.onDropIndicatorChange
       (TabContainer.newIndicators 0 nearLeftEdge)].
Proof.
  assert (Hown : ownsPending twoTabsDragging freshBrowser)
    by (split; [simpl; lia | by left]).
  exact (proj1 (proj2 (later_update_replaces_pending twoTabProps twoTabsDragging
                         freshBrowser narrowSoleGroup nearLeftEdge 20 Hown
                         eq_refl eq_refl ltac:(lia)))).
Defined.

(** X10: the cleanup of [useDebounce], run when the container unmounts,
    cancels the pending indicator update: after it nothing is pending and no
    wait delivers anything. *)
Theorem unmount_cancels_pending_update
  (s : TabContainer.State) (b : TabContainer.Browser) (ms : nat) :
  ownsPending s b ->
  TabContainer.pending (TabContainerRender.debounceCleanup s b) = []
  /\ (TabContainer.elapse ms (TabContainerRender.debounceCleanup s b)).2 = [].
Proof.
  intros [Hnext Hp].
  assert (Hnil : TabContainer.pending (TabContainerRender.debounceCleanup s b)
                 = []).
  { unfold TabContainerRender.debounceCleanup.
    destruct Hp as [Hnil|(id & at_ & arg & Hp & Href & Hid)].
    - destruct (TabContainer.liveHandle _); simpl; by rewrite Hnil.
    - rewrite Href. destruct id as [|id]; [lia|]. simpl. rewrite Hp. simpl.
      by rewrite Nat.eqb_refl. }
  split; [exact Hnil|].
  exact (proj1 (elapse_nothing_pending ms _ Hnil)).
Qed.

Lemma unmount_cancels_pending_update_witness :
  let out := TabContainer.handleDragOver twoTabProps twoTabsDragging freshBrowser
               nearLeftEdge in
  (TabContainer.elapse 60
     (TabContainerRender.debounceCleanup (TabContainer.state out)
        (TabContainer.browser out))).2 = [].
Proof.
  intros out.
  assert (Hown : ownsPending (TabContainer.state out) (TabContainer.browser out)).
  { apply ownsPending_handleDragOver. split; [simpl; lia | by left]. }
  exact (proj2 (unmount_cancels_pending_update _ _ 60 Hown)).
Defined.

(** ** From drag start to drop *)

Section Payload.

Import TabContainer.
Context `{Builtins}.

(** The three entries a drag start leaves in the transfer store. *)
Lemma handleDragStart_store (p : Props) (s : State) (b : Browser)
  (tabRects : list DOMRect) (ty : ElemType) (key : option string) (index : nat) :
  let started := handleDragStart p s b tabRects (TabElement (Some ty) key) index in
  getData "text/plain" (browser started) = pretty index
  /\ getData "groupIndex" (browser started) = pretty (groupIndex p)
  /\ getData "tabInfo" (browser started)
     = JSON_stringify (tabInfoOf ty index key).
Proof.
  unfold getData. simpl. repeat split.
  - rewrite lookup_insert_ne by discriminate.
    rewrite lookup_insert_ne by discriminate.
    by rewrite lookup_insert_eq.
  - rewrite lookup_insert_ne by discriminate. by rewrite lookup_insert_eq.
  - by rewrite lookup_insert_eq.
Qed.

End Payload.

(** X11: what a drag start writes to the transfer store, the drop handler
    reads back. When [parseInt] and [JSON.parse] read back the two numbers and
    the tab description written for the dragged tab, a drop on a container
    that shows no split indicator moves the tab across groups when the
    container is another group, reorders from the dragged tab's own index
    when it is the same group and the drop index differs from that index,
    and does nothing when the drop index is that index or [null]. *)
Theorem drop_reads_back_drag_start `{Builtins}
  (p : TabContainer.Props) (s : TabContainer.State) (b : TabContainer.Browser)
  (tabRects : list DOMRect) (ty : TabContainer.ElemType) (key : option string)
  (index : nat) (target : TabContainer.Props) (s' : TabContainer.State) :
  parseInt (pretty index) = Num (Z.of_nat index) ->
  parseInt (pretty (TabContainer.groupIndex p))
  = Num (Z.of_nat (TabContainer.groupIndex p)) ->
  JSON_parse (JSON_stringify (TabContainer.tabInfoOf ty index key))
  = Some (TabContainer.tabInfoOf ty index key) ->
  showsNoIndicator target ->
  let started := TabContainer.handleDragStart p s b tabRects
                   (TabContainer.TabElement (Some ty) key) index in
  let out := TabContainer.handleDrop target s' (TabContainer.browser started) in
  let g := TabContainer.groupIndex target in
  let before := [TabContainer.preventDefault; TabContainer.clearIndicators] in
  (g <> TabContainer.groupIndex p ->
   TabContainer.calls out
   = before ++ [TabContainer.onTabMove_across (TabContainer.draggedTab target)
                  (default (length (TabContainer.tabs target))
                     (TabContainer.dropIndex s'))
                  (Num (Z.of_nat (TabContainer.groupIndex p))) g])
  /\ (g = TabContainer.groupIndex p ->
      forall d, TabContainer.dropIndex s' = Some d -> d <> index ->
      TabContainer.calls out
      = before ++ [TabContainer.onTabMove_within
                     (TabContainer.reorderedTabs (TabContainer.tabs target)
                        (Num (Z.of_nat index)) d) g])
  /\ (g = TabContainer.groupIndex p ->
      TabContainer.dropIndex s' = None
      \/ TabContainer.dropIndex s' = Some index ->
      TabContainer.calls out = before).
Proof.
  intros Hindex Hgroup Hjson (Hb & Hl & Hr) started out g before.
  destruct (handleDragStart_store p s b tabRects ty key index)
    as (Htext & Hgi & Hinfo).
  fold started in Htext, Hgi, Hinfo.
  assert (Hparse : JSON_parse (TabContainer.getData "tabInfo"
                                 (TabContainer.browser started))
                   = Some (TabContainer.tabInfoOf ty index key))
    by (by rewrite Hinfo).
  pose proof (handleDrop_calls target s' (TabContainer.browser started) _ Hparse)
    as Hcalls.
  fold out in Hcalls. rewrite Hb, Hl, Hr, Hgi, Htext, Hgroup, Hindex in Hcalls.
  cbn [orb] in Hcalls. fold g in Hcalls. rewrite Hcalls.
  repeat split.
  - intros Hne. simpl.
    destruct (Z.eqb_spec (Z.of_nat (TabContainer.groupIndex p)) (Z.of_nat g));
      [lia | reflexivity].
  - intros Heq d Hd Hne. simpl. rewrite <- Heq, Z.eqb_refl, Hd. simpl.
    destruct (Z.eqb_spec (Z.of_nat index) (Z.of_nat d)); [lia | reflexivity].
  - intros Heq [Hd|Hd]; simpl; rewrite <- Heq, Z.eqb_refl, Hd; simpl;
      [reflexivity|].
    by rewrite Z.eqb_refl.
Qed.

Lemma drop_reads_back_drag_start_witness :
  let first := plainTab "Tab_Parameters" "Tab_Parameters-0" in
  let started := @TabContainer.handleDragStart Reference.builtins twoTabProps
                   idleState freshBrowser twoTabRects first 0 in
  TabContainer.calls
    (@TabContainer.handleDrop Reference.builtins twoTabProps
       (TabContainer.set_dropIndex (Some 1) (TabContainer.state started))
       (TabContainer.browser started))
  = [TabContainer.preventDefault; TabContainer.clearIndicators;
     TabContainer.onTabMove_within
       (TabContainer.reorderedTabs twoTabs (Num (Z.of_nat 0)) 1) 0].
Proof.
  intros first started.
  assert (Hindex : Reference.parseInt (pretty 0) = Num (Z.of_nat 0))
    by reflexivity.
  assert (Hjson : Reference.parse
                    (Reference.stringify
                       (TabContainer.tabInfoOf
                          {| TabContainer.type_name := "Tab_Parameters" |} 0
                          (Some "Tab_Parameters-0"%string)))
                  = Some (TabContainer.tabInfoOf
                            {| TabContainer.type_name := "Tab_Parameters" |} 0
                            (Some "Tab_Parameters-0"%string)))
    by (vm_compute; reflexivity).
  assert (Hnone : showsNoIndicator twoTabProps) by (repeat split).
  refine (proj1 (proj2
            (@drop_reads_back_drag_start Reference.builtins twoTabProps
               idleState freshBrowser twoTabRects _ _ 0 twoTabProps
               (TabContainer.set_dropIndex (Some 1) (TabContainer.state started))
               Hindex Hindex Hjson Hnone)) eq_refl 1 eq_refl _).
  lia.
Defined.

(** X12: a drop does not touch the browser: the transfer store and the
    timeouts are as before. So an indicator update that is pending when the
    tab is dropped is still delivered when its 50 ms are over, after the
    drop's own clearing of the indicators. *)
Theorem drop_keeps_pending_update `{Builtins}
  (p : TabContainer.Props) (s : TabContainer.State) (b : TabContainer.Browser)
  (id at_ : nat) (arg : TabContainer.Indicators) :
  TabContainer.pending b = [(id, (at_, arg))] ->
  TabContainer.now b < at_ ->
  let out := TabContainer.handleDrop p s b in
  TabContainer.browser out = b
  /\ (TabContainer.completion out = TabContainer.Returned ->
      exists action,
        TabContainer.calls out
        = TabContainer.preventDefault :: TabContainer.clearIndicators :: action
        /\ Forall (fun c => TabContainer.isLayoutMutation c = true) action)
  /\ (TabContainer.elapse (at_ - TabContainer.now b) (TabContainer.browser out)).2
     = [TabContainer.onDropIndicatorChange arg].
Proof.
  intros Hp Hnow out.
  assert (Hb : TabContainer.browser out = b).
  { subst out. unfold TabContainer.handleDrop.
    destruct (JSON_parse _); [|reflexivity].
    by destruct (if TabContainer.showsFor _ _ then _ else _). }
  split; [exact Hb|]. split.
  - subst out.
    destruct (JSON_parse (TabContainer.getData "tabInfo" b)) as [tabInfo|]
      eqn:Hparse.
    + intros _. rewrite (handleDrop_calls p s b tabInfo Hparse).
      eexists. split; [reflexivity|].
      destruct (TabContainer.showsFor _ _); [by repeat constructor|].
      destruct (_ || _); [by repeat constructor|].
      destruct (negb _); [by repeat constructor|].
      destruct (TabContainer.dropIndex s); [|constructor].
      destruct (TabContainer.differsFrom _ _); by repeat constructor.
    + rewrite (handleDrop_unparsable p s b Hparse). discriminate.
  - rewrite Hb.
    exact (proj1 (elapse_reaches_due (at_ - TabContainer.now b) b id at_ arg
                    Hp Hnow ltac:(lia))).
Qed.

Lemma drop_keeps_pending_update_witness :
  let hovered := TabContainer.handleDragOver twoTabProps twoTabsDragging
                   freshBrowser nearLeftEdge in
  (TabContainer.elapse (50 - 0)
     (TabContainer.browser
        (@TabContainer.handleDrop Reference.builtins twoTabProps
           (TabContainer.state hovered) (TabContainer.browser hovered)))).2
  = [TabContainer.onDropIndicatorChange leftArmed].
Proof.
  intros hovered.
  exact (proj2 (proj2
           (@drop_keeps_pending_update Reference.builtins twoTabProps
              (TabContainer.state hovered) (TabContainer.browser hovered)
              1 50 leftArmed eq_refl ltac:(simpl; lia)))).
Defined.



(** ** The layout in localStorage *)

Section Stored.

Import TabConstants.

Lemma prop_type_tabEntry (t k : string) : prop "type" (tabEntry t k) = Some (JStr t).
Proof. reflexivity. Qed.

Lemma prop_key_tabEntry (t k : string) : prop "key" (tabEntry t k) = Some (JStr k).
Proof. reflexivity. Qed.

Lemma isTabShaped_tabEntry (t k : string) : isTabShaped (tabEntry t k) = true.
Proof. reflexivity. Qed.

Lemma lookupType_functionName (c : Component) :
  lookupType TAB_TYPES (functionName c) = Some c.
Proof. by destruct c. Qed.

Lemma isKnownType_functionName (c : Component) :
  isKnownType (Some (JStr (functionName c))) = true.
Proof. by destruct c. Qed.

(** A type string that passed the check names a component. *)
Lemma known_type_names_component (t : string) :
  isKnownType (Some (JStr t)) = true ->
  exists c, t = functionName c.
Proof.
  unfold isKnownType, TAB_TYPE_IDENTIFIERS. cbn [existsb].
  rewrite !orb_true_iff.
  intros [Ht|[Ht|[Ht|[Ht|[Ht|Ht]]]]]; try discriminate;
    apply String.eqb_eq in Ht; subst t.
  - by exists Tab_Parameters.
  - by exists Tab_InventoryTable.
  - by exists Tab_ChooseShop.
  - by exists Tab_ShopDetails.
  - by exists Tab_AiAssistant.
Qed.

Context `{Statics}.

Lemma createTabElement_functionName (c : Component) (k : string) :
  ShopGeneratorEffect.createTabElement (functionName c) k
  = Some {| ShopGeneratorEffect.el_type := c;
            ShopGeneratorEffect.el_key := k;
            ShopGeneratorEffect.props_type_name := functionName c;
            ShopGeneratorEffect.props_type_minWidth :=
              ShopGeneratorEffect.minWidthOr200 c |}.
Proof. by destruct c. Qed.

Lemma elementsOfGroup_cons (tab : json) (tabs : list json) :
  ShopGeneratorEffect.elementsOfGroup (JArr (tab :: tabs))
  = match (match lookupType TAB_TYPES (stringOf (prop "type" tab)) with
           | None => None
           | Some _ =>
               ShopGeneratorEffect.createTabElement (stringOf (prop "type" tab))
                 (stringOf (prop "key" tab))
           end) with
    | Some el => el :: ShopGeneratorEffect.elementsOfGroup (JArr tabs)
    | None => ShopGeneratorEffect.elementsOfGroup (JArr tabs)
    end.
Proof. reflexivity. Qed.

(** The elements made for a group of entries that passed both checks: one
    per entry, in order, with the entry's type and key. *)
Lemma elementsOfGroup_valid (tabs : list json) :
  forallb isTabShaped tabs = true ->
  forallb (fun tab => isKnownType (prop "type" tab)) tabs = true ->
  map (fun el => (ShopGeneratorEffect.props_type_name el,
                  ShopGeneratorEffect.el_key el))
      (ShopGeneratorEffect.elementsOfGroup (JArr tabs))
  = map entryStrings tabs
  /\ Forall madeByCreateTabElement
       (ShopGeneratorEffect.elementsOfGroup (JArr tabs)).
Proof.
  induction tabs as [|tab tabs IH]; [by split|].
  intros Hshapes Hknowns. cbn [forallb] in Hshapes, Hknowns.
  apply andb_prop in Hshapes as [Hshape Hshapes].
  apply andb_prop in Hknowns as [Hknown Hknowns].
  destruct (IH Hshapes Hknowns) as [IHmap IHmade].
  unfold isTabShaped in Hshape.
  apply andb_prop in Hshape as [Hshape Hkey].
  apply andb_prop in Hshape as [_ Htype].
  rewrite elementsOfGroup_cons.
  destruct (prop "type" tab) as [[| | |t| |]|] eqn:Ht; try discriminate.
  destruct (known_type_names_component t Hknown) as [c ->].
  cbn [stringOf].
  rewrite lookupType_functionName, createTabElement_functionName.
  cbn [map ShopGeneratorEffect.props_type_name ShopGeneratorEffect.el_key].
  split.
  - rewrite IHmap. unfold entryStrings at 2. by rewrite Ht.
  - constructor; [by split | exact IHmade].
Qed.

Lemma elementsOfGroup_entries (g : list ShopGeneratorEffect.Element) :
  Forall madeByCreateTabElement g ->
  ShopGeneratorEffect.elementsOfGroup (JArr (map entryOf g)) = g.
Proof.
  induction 1 as [|el g [Hname Hwidth] _ IH]; [reflexivity|].
  cbn [map]. rewrite elementsOfGroup_cons. unfold entryOf at 1 2 3.
  rewrite !prop_type_tabEntry, prop_key_tabEntry. cbn [stringOf].
  rewrite lookupType_functionName, createTabElement_functionName, IH.
  f_equal. destruct el. simpl in *. by subst.
Qed.

Lemma filter_nonEmpty_all {A} (gs : list (list A)) :
  Forall (fun g => g <> []) gs ->
  List.filter ShopGeneratorEffect.nonEmpty gs = gs.
Proof.
  induction 1 as [|g gs Hg _ IH]; [reflexivity|]. simpl. rewrite IH.
  by destruct g.
Qed.

Lemma filter_nonEmpty_Forall {A} (gs : list (list A)) :
  Forall (fun g => g <> []) (List.filter ShopGeneratorEffect.nonEmpty gs).
Proof.
  induction gs as [|g gs IH]; simpl; [constructor|].
  destruct g; simpl; [exact IH|]. by constructor.
Qed.

Lemma length_evenWidths (n : nat) :
  length (ShopGeneratorEffect.evenWidths n) = n.
Proof.
  unfold ShopGeneratorEffect.evenWidths. by rewrite length_map, length_seq.
Qed.

Lemma default_config_wellShaped :
  wellShaped ShopGeneratorEffect.DEFAULT_TAB_CONFIG.
Proof.
  unfold wellShaped. cbn. repeat split; [discriminate|].
  repeat constructor. discriminate.
Qed.

Lemma createTabsFromConfig_wellShaped (config : json) :
  wellShaped (ShopGeneratorEffect.createTabsFromConfig config).
Proof.
  unfold ShopGeneratorEffect.createTabsFromConfig.
  set (gs := ShopGeneratorEffect.processGroups _).
  destruct (Nat.eqb_spec (length gs) 0) as [Hz|Hnz];
    [apply default_config_wellShaped|].
  unfold wellShaped. simpl. repeat split.
  - intros Hnil. by rewrite Hnil in Hnz.
  - apply filter_nonEmpty_Forall.
  - destruct (Nat.eqb_spec (length (items (prop "widths" config))) (length gs))
      as [Heq|_].
    + by rewrite length_map.
    + apply length_evenWidths.
Qed.

End Stored.

(** X14: whatever [localStorage] holds, the tab state the loading effect sets
    has at least one group, no empty group, and as many widths as groups. *)
Theorem loaded_state_is_well_shaped `{Builtins} `{TabConstants.Statics}
  (localStorage : gmap string string) :
  wellShaped (ShopGeneratorEffect.loadTabState localStorage).
Proof.
  unfold ShopGeneratorEffect.loadTabState.
  destruct (localStorage !! TabConstants.STORAGE_KEY) as [savedState|];
    [|apply default_config_wellShaped].
  destruct (String.eqb savedState ""); [apply default_config_wellShaped|].
  destruct (JSON_parse savedState) as [parsed|];
    [|apply default_config_wellShaped].
  destruct (negb (truthy parsed) || _ || _); [apply default_config_wellShaped|].
  destruct (negb (ShopGeneratorEffect.isValidStructure parsed));
    [apply default_config_wellShaped|].
  destruct (negb (ShopGeneratorEffect.hasValidTabs parsed));
    [apply default_config_wellShaped|].
  destruct (Nat.ltb 0 _); [|apply default_config_wellShaped].
  apply createTabsFromConfig_wellShaped.
Qed.

Section StoredMore.

Import TabConstants.
Context `{Builtins} `{Statics}.

Lemma processGroups_valid (gs : list json) :
  forallb (fun group => isArray (Some group)
                        && forallb isTabShaped (items (Some group))) gs = true ->
  forallb (fun group => forallb (fun tab => isKnownType (prop "type" tab))
                                (items (Some group))) gs = true ->
  map (map (fun el => (ShopGeneratorEffect.props_type_name el,
                       ShopGeneratorEffect.el_key el)))
      (ShopGeneratorEffect.processGroups gs)
  = List.filter ShopGeneratorEffect.nonEmpty
      (map (fun group => map entryStrings (items (Some group))) gs)
  /\ Forall (Forall madeByCreateTabElement) (ShopGeneratorEffect.processGroups gs).
Proof.
  unfold ShopGeneratorEffect.processGroups.
  induction gs as [|group gs IH]; [by split|].
  intros Hs Hk. cbn [forallb] in Hs, Hk.
  apply andb_prop in Hs as [Hgroup Hs]. apply andb_prop in Hk as [Hknown Hk].
  apply andb_prop in Hgroup as [Harr Hshape].
  destruct (IH Hs Hk) as [IHmap IHmade].
  destruct group as [| | | |tabs|]; try discriminate.
  cbn [items] in *.
  destruct (elementsOfGroup_valid tabs Hshape Hknown) as [Hmap Hmade].
  cbn [map List.filter]. rewrite <- Hmap.
  destruct (ShopGeneratorEffect.elementsOfGroup (JArr tabs)) as [|el els];
    cbn [map ShopGeneratorEffect.nonEmpty length Nat.ltb Nat.leb];
    [by split|].
  cbn [map] in IHmap. split; [by rewrite IHmap | by constructor].
Qed.

Lemma processGroups_entries (tabGroups : list (list ShopGeneratorEffect.Element)) :
  Forall (Forall madeByCreateTabElement) tabGroups ->
  Forall (fun g => g <> []) tabGroups ->
  ShopGeneratorEffect.processGroups (map JArr (map (map entryOf) tabGroups))
  = tabGroups.
Proof.
  intros Hmade Hne. unfold ShopGeneratorEffect.processGroups.
  assert (Hmap : map ShopGeneratorEffect.elementsOfGroup
                   (map JArr (map (map entryOf) tabGroups)) = tabGroups).
  { clear Hne. induction Hmade as [|g gs Hg _ IH]; [reflexivity|].
    cbn [map]. by rewrite (elementsOfGroup_entries g Hg), IH. }
  rewrite Hmap. by apply filter_nonEmpty_all.
Qed.

Lemma tabData_entryOf (el : ShopGeneratorEffect.Element) :
  (forall c c', displayName c = displayName c' -> c = c') ->
  ShopGeneratorEffect.tabData el = entryOf el.
Proof.
  intros Hinj. unfold ShopGeneratorEffect.tabData, entryOf.
  by rewrite (matchingType_own_identifier el Hinj).
Qed.

Lemma entries_are_valid (tabGroups : list (list ShopGeneratorEffect.Element)) :
  forallb (fun group => isArray (Some group)
                        && forallb isTabShaped (items (Some group)))
          (map JArr (map (map entryOf) tabGroups)) = true
  /\ forallb (fun group => forallb (fun tab => isKnownType (prop "type" tab))
                                   (items (Some group)))
             (map JArr (map (map entryOf) tabGroups)) = true.
Proof.
  induction tabGroups as [|g gs [IHs IHk]]; [by split|].
  cbn [map forallb]. rewrite IHs, IHk.
  change (isArray (Some (JArr (map entryOf g)))) with true.
  change (items (Some (JArr (map entryOf g)))) with (map entryOf g).
  assert (Hg : forallb isTabShaped (map entryOf g) = true
               /\ forallb (fun tab => isKnownType (prop "type" tab))
                    (map entryOf g) = true).
  { clear. induction g as [|el g [IHs IHk]]; [by split|].
    cbn [map forallb]. rewrite IHs, IHk.
    assert (Hs : isTabShaped (entryOf el) = true)
      by (unfold entryOf; apply isTabShaped_tabEntry).
    assert (Hk : isKnownType (prop "type" (entryOf el)) = true)
      by (unfold entryOf; rewrite prop_type_tabEntry;
          apply isKnownType_functionName).
    rewrite Hs, Hk. by split. }
  destruct Hg as [-> ->]. by split.
Qed.

End StoredMore.

(** X15: a stored document that passes the validation is restored by the
    loading effect as it stands: the effect sets the state built from it,
    which holds one element per tab entry, in order, with the entry's type
    and key and made as [createTabElement] makes it; groups without tabs are
    left out, and the stored widths are kept when there is one per group
    left. *)
Theorem valid_document_is_restored `{Builtins} `{TabConstants.Statics}
  (localStorage : gmap string string) (blob : string) (parsed : json) :
  localStorage !! TabConstants.STORAGE_KEY = Some blob ->
  blob <> ""%string ->
  JSON_parse blob = Some parsed ->
  ShopGeneratorRegistry.isValidParsed parsed = true ->
  let st := ShopGeneratorEffect.loadTabState localStorage in
  let kept := List.filter ShopGeneratorEffect.nonEmpty
                (map (fun group => map entryStrings
                                       (TabConstants.items (Some group)))
                     (TabConstants.items (prop "groups" parsed))) in
  st = ShopGeneratorEffect.createTabsFromConfig parsed
  /\ (kept <> [] ->
      map (map (fun el => (ShopGeneratorEffect.props_type_name el,
                           ShopGeneratorEffect.el_key el)))
          (ShopGeneratorEffect.groups st) = kept
      /\ Forall (Forall madeByCreateTabElement) (ShopGeneratorEffect.groups st)
      /\ (length (TabConstants.items (prop "widths" parsed)) = length kept ->
          ShopGeneratorEffect.widths st
          = map TabConstants.Stored (TabConstants.items (prop "widths" parsed)))).
Proof.
  intros Hget Hne Hparse Hvalid st kept.
  rewrite effect_checks_agree in Hvalid.
  apply andb_prop in Hvalid as [Hvalid Htabs].
  apply andb_prop in Hvalid as [Hbasic Hstruct].
  assert (Hst : st = ShopGeneratorEffect.createTabsFromConfig parsed).
  { subst st. unfold ShopGeneratorEffect.loadTabState. rewrite Hget.
    destruct (String.eqb_spec blob ""); [contradiction|].
    rewrite Hparse. apply negb_true_iff in Hbasic. rewrite Hbasic, Hstruct, Htabs.
    cbn [negb].
    destruct (createTabsFromConfig_wellShaped parsed) as [Hgroups _].
    destruct (ShopGeneratorEffect.groups
                (ShopGeneratorEffect.createTabsFromConfig parsed));
      [contradiction | reflexivity]. }
  split; [exact Hst|]. intros Hkept. rewrite Hst.
  destruct (processGroups_valid _ Hstruct Htabs) as [Hmap Hmade].
  fold kept in Hmap.
  unfold ShopGeneratorEffect.createTabsFromConfig.
  assert (Hlen : length (ShopGeneratorEffect.processGroups
                           (TabConstants.items (prop "groups" parsed)))
                 = length kept)
    by (by rewrite <- Hmap, length_map).
  destruct (Nat.eqb_spec (length (ShopGeneratorEffect.processGroups
                                    (TabConstants.items (prop "groups" parsed)))) 0)
    as [Hz|Hnz].
  { exfalso. apply Hkept. apply length_zero_iff_nil. lia. }
  cbn [ShopGeneratorEffect.groups ShopGeneratorEffect.widths].
  split; [exact Hmap|]. split; [exact Hmade|].
  intros Hw. rewrite Hlen. by rewrite (proj2 (Nat.eqb_eq _ _) Hw).
Qed.

Lemma valid_document_is_restored_witness :
  let blob := Reference.stringify TabConstants.DEFAULT_TAB_STATE in
  let storage : gmap string string := {[ TabConstants.STORAGE_KEY := blob ]} in
  @ShopGeneratorEffect.loadTabState Reference.builtins sampleStatics storage
  = @ShopGeneratorEffect.createTabsFromConfig sampleStatics
      TabConstants.DEFAULT_TAB_STATE.
Proof.
  intros blob storage.
  assert (Hget : storage !! TabConstants.STORAGE_KEY = Some blob)
    by (vm_compute; reflexivity).
  assert (Hne : blob <> ""%string) by (vm_compute; discriminate).
  assert (Hparse : Reference.parse blob = Some TabConstants.DEFAULT_TAB_STATE)
    by (vm_compute; reflexivity).
  assert (Hvalid : ShopGeneratorRegistry.isValidParsed
                     TabConstants.DEFAULT_TAB_STATE = true) by reflexivity.
  exact (proj1 (@valid_document_is_restored Reference.builtins sampleStatics
                  storage blob _ Hget Hne Hparse Hvalid)).
Defined.

(** X16: saving and loading is a round trip for every layout the loader can
    produce, not only the default one: for groups of elements made as
    [createTabElement] makes them, none empty and at least one, the loading
    effect run on what the saving effect wrote gives the same groups, and the
    same widths when there is one per group (evenly split widths otherwise).
    This holds when no two components share a display name and [JSON.parse]
    reads back the document that was written. *)
Theorem layout_round_trip `{Builtins} `{TabConstants.Statics}
  (tabGroups : list (list ShopGeneratorEffect.Element)) (flexBasis : list json)
  (localStorage : gmap string string) :
  (forall c c', TabConstants.displayName c = TabConstants.displayName c' -> c = c') ->
  JSON_parse (JSON_stringify (savedDocument tabGroups flexBasis))
  = Some (savedDocument tabGroups flexBasis) ->
  JSON_stringify (savedDocument tabGroups flexBasis) <> ""%string ->
  tabGroups <> [] ->
  Forall (fun g => g <> []) tabGroups ->
  Forall (Forall madeByCreateTabElement) tabGroups ->
  ShopGeneratorEffect.loadTabState
    (ShopGeneratorEffect.saveState tabGroups flexBasis localStorage)
  = {| ShopGeneratorEffect.groups := tabGroups;
       ShopGeneratorEffect.widths :=
         if Nat.eqb (length flexBasis) (length tabGroups)
         then map TabConstants.Stored flexBasis
         else ShopGeneratorEffect.evenWidths (length tabGroups) |}.
Proof.
  intros Hinj Hparse Hne Hsome Hnonempty Hmade.
  assert (Hdata : map (map ShopGeneratorEffect.tabData) tabGroups
                  = map (map entryOf) tabGroups).
  { apply map_ext. intros g. apply map_ext. intros el.
    by apply tabData_entryOf. }
  destruct (entries_are_valid tabGroups) as [Hstruct Hknown].
  assert (Hsaved : ShopGeneratorEffect.saveState tabGroups flexBasis localStorage
                   = <[TabConstants.STORAGE_KEY :=
                         JSON_stringify (savedDocument tabGroups flexBasis)]>
                       localStorage).
  { unfold ShopGeneratorEffect.saveState. rewrite Hdata.
    assert (Hvalid : forallb (forallb (fun tab =>
                        TabConstants.isKnownType (prop "type" tab)))
                       (map (map entryOf) tabGroups) = true).
    { clear -Hknown. induction tabGroups as [|g gs IH]; [reflexivity|].
      cbn [map forallb TabConstants.items] in *.
      apply andb_prop in Hknown as [-> Hk]. by rewrite (IH Hk). }
    by rewrite Hvalid. }
  rewrite Hsaved. unfold ShopGeneratorEffect.loadTabState.
  rewrite lookup_insert_eq.
  destruct (String.eqb_spec (JSON_stringify (savedDocument tabGroups flexBasis)) "")
    as [He|_]; [contradiction|].
  rewrite Hparse.
  change (truthy (savedDocument tabGroups flexBasis)) with true.
  change (isArray (prop "groups" (savedDocument tabGroups flexBasis))) with true.
  change (isArray (prop "widths" (savedDocument tabGroups flexBasis))) with true.
  cbn [negb orb].
  unfold ShopGeneratorEffect.isValidStructure, ShopGeneratorEffect.hasValidTabs.
  change (TabConstants.items (prop "groups" (savedDocument tabGroups flexBasis)))
    with (map JArr (map (map entryOf) tabGroups)).
  rewrite Hstruct, Hknown. cbn [negb].
  unfold ShopGeneratorEffect.createTabsFromConfig.
  change (TabConstants.items (prop "groups" (savedDocument tabGroups flexBasis)))
    with (map JArr (map (map entryOf) tabGroups)).
  change (TabConstants.items (prop "widths" (savedDocument tabGroups flexBasis)))
    with flexBasis.
  rewrite (processGroups_entries tabGroups Hmade Hnonempty).
  destruct tabGroups as [|g gs]; [contradiction|]. reflexivity.
Qed.

Lemma layout_round_trip_witness :
  @ShopGeneratorEffect.loadTabState Reference.builtins sampleStatics
    (@ShopGeneratorEffect.saveState Reference.builtins sampleStatics
       twoGroupLayout twoGroupWidths ∅)
  = {| ShopGeneratorEffect.groups := twoGroupLayout;
       ShopGeneratorEffect.widths := map TabConstants.Stored twoGroupWidths |}.
Proof.
  assert (Hinj : forall c c', @TabConstants.displayName sampleStatics c
                              = @TabConstants.displayName sampleStatics c'
                              -> c = c')
    by (intros [] []; simpl; intros Heq; first [reflexivity | discriminate Heq]).
  assert (Hparse : Reference.parse
                     (Reference.stringify (savedDocument twoGroupLayout twoGroupWidths))
                   = Some (savedDocument twoGroupLayout twoGroupWidths))
    by (vm_compute; reflexivity).
  assert (Hne : Reference.stringify (savedDocument twoGroupLayout twoGroupWidths)
                <> ""%string) by (vm_compute; discriminate).
  assert (Hsome : twoGroupLayout <> []) by discriminate.
  assert (Hnonempty : Forall (fun g => g <> []) twoGroupLayout)
    by (repeat constructor; discriminate).
  assert (Hmade : Forall (Forall (@madeByCreateTabElement sampleStatics))
                    twoGroupLayout)
    by (repeat constructor).
  exact (@layout_round_trip Reference.builtins sampleStatics twoGroupLayout
           twoGroupWidths ∅ Hinj Hparse Hne Hsome Hnonempty Hmade).
Defined.

(** X17: the saving effect writes only what the loader accepts: it either
    leaves [localStorage] as it is, or stores the text of a document that
    passes the validation of [isValidSavedState], and with it the three
    checks of the loading effect. *)
Theorem save_writes_only_valid_documents `{Builtins} `{TabConstants.Statics}
  (tabGroups : list (list ShopGeneratorEffect.Element)) (flexBasis : list json)
  (localStorage : gmap string string) :
  ShopGeneratorEffect.saveState tabGroups flexBasis localStorage = localStorage
  \/ exists doc,
       ShopGeneratorEffect.saveState tabGroups flexBasis localStorage
       = <[TabConstants.STORAGE_KEY := JSON_stringify doc]> localStorage
       /\ ShopGeneratorRegistry.isValidParsed doc = true
       /\ ShopGeneratorEffect.isValidStructure doc = true
       /\ ShopGeneratorEffect.hasValidTabs doc = true.
Proof.
  unfold ShopGeneratorEffect.saveState.
  destruct (forallb _ (map (map ShopGeneratorEffect.tabData) tabGroups))
    eqn:Hvalid; [|by left].
  right. eexists. split; [reflexivity|].
  assert (Hv : ShopGeneratorRegistry.isValidParsed
                 (JObj [("groups"%string,
                         JArr (map JArr (map (map ShopGeneratorEffect.tabData)
                                              tabGroups)));
                        ("widths"%string, JArr flexBasis)]) = true).
  { unfold ShopGeneratorRegistry.isValidParsed.
    change (TabConstants.items (prop "groups" _))
      with (map JArr (map (map ShopGeneratorEffect.tabData) tabGroups)).
    cbn [truthy andb]. change (isArray (prop "groups" _)) with true.
    change (isArray (prop "widths" _)) with true. cbn [andb].
    revert Hvalid. clear. induction tabGroups as [|g gs IH]; [reflexivity|].
    cbn [map forallb]. intros [Hg Hgs]%andb_prop. rewrite (IH Hgs).
    rewrite andb_true_r.
    unfold ShopGeneratorRegistry.isValidGroup.
    cbn [isArray TabConstants.items andb].
    clear -Hg. induction g as [|el g IH]; [reflexivity|].
    cbn [map forallb] in *. apply andb_prop in Hg as [Hel Hg].
    rewrite (IH Hg), Hel. reflexivity. }
  split; [exact Hv|].
  rewrite effect_checks_agree in Hv.
  apply andb_prop in Hv as [Hv Htabs]. apply andb_prop in Hv as [_ Hstruct].
  by split.
Qed.

(** X18: the revision with [isValidSavedState] finds the type to save through
    [displayName] alone. When every component has a display name each tab is
    saved under its own type name; as soon as one component has none, every
    tab of every group is saved under one and the same identifier, that of
    the first such component. *)
Theorem registry_saves_type_by_display_name `{TabConstants.Statics} :
  ((forall c, TabConstants.displayName c <> None) ->
   forall tab, ShopGeneratorRegistry.tabData tab
               = TabConstants.tabEntry (ShopGeneratorRegistry.type_name tab)
                   (ShopGeneratorRegistry.key tab))
  /\ ((exists c, TabConstants.displayName c = None) ->
      exists c0, TabConstants.displayName c0 = None
                 /\ forall tab,
                      ShopGeneratorRegistry.tabData tab
                      = TabConstants.tabEntry (TabConstants.functionName c0)
                          (ShopGeneratorRegistry.key tab)).
Proof.
  unfold ShopGeneratorRegistry.tabData, ShopGeneratorRegistry.matchingType.
  split.
  - intros Hall tab.
    destruct (List.find _ TabConstants.TAB_TYPES) as [entry|] eqn:Hfind;
      [|reflexivity].
    apply find_some in Hfind as [_ Hnone].
    apply bool_decide_eq_true_1 in Hnone. by apply Hall in Hnone.
  - intros [c Hc].
    destruct (List.find _ TabConstants.TAB_TYPES) as [entry|] eqn:Hfind.
    + apply find_some in Hfind as [Hin Hnone].
      apply bool_decide_eq_true_1 in Hnone.
      exists entry.2. split; [exact Hnone|]. intros tab.
      assert (Hkey : entry.1 = TabConstants.functionName entry.2).
      { unfold TabConstants.TAB_TYPES in Hin. simpl in Hin.
        destruct Hin as [<-|[<-|[<-|[<-|[<-|[]]]]]]; reflexivity. }
      cbn [fmap option_fmap option_map default]. by rewrite Hkey.
    + exfalso.
      assert (Hin : In (TabConstants.functionName c, c) TabConstants.TAB_TYPES)
        by (destruct c; simpl; tauto).
      apply (find_none _ _ Hfind) in Hin. cbn [snd] in Hin.
      apply bool_decide_eq_false_1 in Hin. contradiction.
Qed.

Lemma registry_saves_type_by_display_name_witness :
  (forall tab,
     @ShopGeneratorRegistry.tabData sampleStatics tab
     = TabConstants.tabEntry (ShopGeneratorRegistry.type_name tab)
         (ShopGeneratorRegistry.key tab))
  /\ (exists c0,
        @TabConstants.displayName staticsWithoutParametersName c0 = None
        /\ forall tab,
             @ShopGeneratorRegistry.tabData staticsWithoutParametersName tab
             = TabConstants.tabEntry (TabConstants.functionName c0)
                 (ShopGeneratorRegistry.key tab)).
Proof.
  split.
  - refine (proj1 (@registry_saves_type_by_display_name sampleStatics) _).
    intros []; discriminate.
  - refine (proj2 (@registry_saves_type_by_display_name
                     staticsWithoutParametersName) _).
    exists TabConstants.Tab_Parameters. reflexivity.
Defined.

Section Registry.

Import TabConstants.
Context `{Statics}.

Lemma tabObject_valid (tab : json) :
  isTabShaped tab && isKnownType (prop "type" tab) = true ->
  exists t, ShopGeneratorRegistry.tabObject tab = Some t
            /\ (ShopGeneratorRegistry.type_name t, ShopGeneratorRegistry.key t)
               = entryStrings tab.
Proof.
  intros [_ Hknown]%andb_prop. unfold ShopGeneratorRegistry.tabObject.
  destruct (prop "type" tab) as [[| | |t| |]|] eqn:Htype; try discriminate.
  destruct (known_type_names_component t Hknown) as [c ->].
  cbn [stringOf]. rewrite lookupType_functionName.
  eexists. split; [reflexivity|]. unfold entryStrings. by rewrite Htype.
Qed.

Lemma tabObjects_valid (tabs : list json) :
  forallb (fun tab => isTabShaped tab && isKnownType (prop "type" tab)) tabs
  = true ->
  map (fun t => (ShopGeneratorRegistry.type_name t, ShopGeneratorRegistry.key t))
      (omap ShopGeneratorRegistry.tabObject tabs)
  = map entryStrings tabs.
Proof.
  induction tabs as [|tab tabs IH]; [reflexivity|].
  cbn [forallb]. intros [Htab Htabs]%andb_prop.
  destruct (tabObject_valid tab Htab) as (t & Ht & Hstrings).
  cbn [omap list_omap map]. rewrite Ht. cbn [map].
  by rewrite Hstrings, <- (IH Htabs).
Qed.

End Registry.

(** X19: [createTabElements] drops no tab of a structure that
    [isValidSavedState] accepts: each group gives one tab object per entry, in
    order, with the entry's type name and key; only groups that have no entry
    are left out. *)
Theorem accepted_structure_keeps_every_tab `{TabConstants.Statics}
  (tabStructure : json) :
  ShopGeneratorRegistry.isValidParsed tabStructure = true ->
  map (map (fun t => (ShopGeneratorRegistry.type_name t,
                      ShopGeneratorRegistry.key t)))
      (ShopGeneratorRegistry.createTabElements tabStructure)
  = List.filter ShopGeneratorEffect.nonEmpty
      (map (fun group => map entryStrings (TabConstants.items (Some group)))
           (TabConstants.items (prop "groups" tabStructure))).
Proof.
  unfold ShopGeneratorRegistry.isValidParsed,
    ShopGeneratorRegistry.createTabElements.
  intros [_ Hgroups]%andb_prop.
  induction (TabConstants.items (prop "groups" tabStructure)) as [|group gs IH];
    [reflexivity|].
  cbn [forallb] in Hgroups. apply andb_prop in Hgroups as [Hgroup Hgs].
  unfold ShopGeneratorRegistry.isValidGroup in Hgroup.
  apply andb_prop in Hgroup as [_ Htabs].
  cbn [map List.filter]. rewrite <- (tabObjects_valid _ Htabs).
  unfold ShopGeneratorEffect.nonEmpty at 1. rewrite length_map.
  destruct (Nat.ltb 0 (length (omap ShopGeneratorRegistry.tabObject
                                 (TabConstants.items (Some group)))));
    cbn [map]; by rewrite (IH Hgs).
Qed.

Lemma accepted_structure_keeps_every_tab_witness :
  map (map (fun t => (ShopGeneratorRegistry.type_name t,
                      ShopGeneratorRegistry.key t)))
      (@ShopGeneratorRegistry.createTabElements sampleStatics
         TabConstants.DEFAULT_TAB_STATE)
  = List.filter ShopGeneratorEffect.nonEmpty
      (map (fun group => map entryStrings (TabConstants.items (Some group)))
           (TabConstants.items (prop "groups" TabConstants.DEFAULT_TAB_STATE))).
Proof.
  apply (@accepted_structure_keeps_every_tab sampleStatics
           TabConstants.DEFAULT_TAB_STATE).
  reflexivity.
Defined.
